(** * pvr.iptvsimple: playlist ingestion and EPG-tag playability

    A shallow embedding of [PlaylistLoader::ReadMarkerValue],
    [PlaylistLoader::ParseIntoChannel], [PlaylistLoader::LoadPlayList],
    [PlaylistLoader::ParseAndAddChannelGroups],
    [PlaylistLoader::ParseSinglePropertyIntoChannel],
    [PlaylistLoader::ReloadPlayList] (src/iptvsimple/PlaylistLoader.cpp) and
    [PVRIptvData::IsEPGTagPlayable], [PVRIptvData::Process],
    [PVRIptvData::SetSetting] (src/PVRIptvData.cpp); the properties of them
    that the specification states, and further properties read off the
    code.

    Conventions.
    - A [std::string] is a list of characters ([str]); positions are [nat],
      and [std::string::npos] is [None].
    - A C++ exception is an explicit outcome ([Throws]); every [substr] call
      is checked for [std::out_of_range].
    - [int] and [time_t] values are [Z]; wrap-around is written out.
    - [double] is IEEE 754 binary64 as given by the library's [SpecFloat]. *)

From Stdlib Require Import List Ascii ZArith Lia Bool Arith.
From Stdlib Require String DecimalString.
Import String.StringSyntax.
Delimit Scope string_scope with string.
From Stdlib Require Import SpecFloat.
Import ListNotations.

Set Implicit Arguments.

(** ** Strings *)

Definition str := list ascii.

(** The double quote character. *)
Definition dq : ascii := ascii_of_nat 34.

(** [lit] turns a literal into a [str]. So that lines with double quotes stay
    readable, [q] writes every double quote of the line as a single quote:
    [q "tvg-id='a'"] is the text [tvg-id=] followed by [a] between double
    quotes. *)
Definition lit (s : String.string) : str := String.list_ascii_of_string s.

Definition q (s : String.string) : str :=
  map (fun c => if Ascii.eqb c "'"%char then dq else c)
      (String.list_ascii_of_string s).

Arguments lit s%_string.
Arguments q s%_string.

Definition str_eqb (a b : str) : bool :=
  if list_eq_dec ascii_dec a b then true else false.

Definition empty (s : str) : bool :=
  match s with [] => true | _ => false end.

(** [StringUtils::StartsWith(s, p)] *)
Fixpoint StartsWith (s p : str) {struct p} : bool :=
  match p, s with
  | [], _ => true
  | _ :: _, [] => false
  | c :: p', d :: s' => Ascii.eqb d c && StartsWith s' p'
  end.

(** [s.find(needle)]: the first position at which [needle] occurs. *)
Fixpoint find_str (needle s : str) : option nat :=
  if StartsWith s needle then Some 0
  else match s with
       | [] => None
       | _ :: t => option_map S (find_str needle t)
       end.

(** [s.find(c)] *)
Fixpoint find_char (c : ascii) (s : str) : option nat :=
  match s with
  | [] => None
  | x :: t => if Ascii.eqb x c then Some 0 else option_map S (find_char c t)
  end.

(** [s.find(c, pos)] *)
Definition find_char_from (c : ascii) (s : str) (pos : nat) : option nat :=
  option_map (Nat.add pos) (find_char c (skipn pos s)).

(** [s.rfind(c)]: the last position of [c]. *)
Fixpoint rfind_char (c : ascii) (s : str) : option nat :=
  match s with
  | [] => None
  | x :: t =>
      match rfind_char c t with
      | Some i => Some (S i)
      | None => if Ascii.eqb x c then Some 0 else None
      end
  end.

(** ** Exceptions *)

Inductive exception : Type := out_of_range.

Inductive outcome (A : Type) : Type :=
| Returns (a : A)
| Throws (e : exception).

Arguments Returns {A} a.
Arguments Throws {A} e.

Definition bind {A B : Type} (m : outcome A) (k : A -> outcome B) : outcome B :=
  match m with
  | Returns a => k a
  | Throws e => Throws e
  end.

Notation "x <- m ;; k" := (bind m (fun x => k))
  (at level 61, m at next level, right associativity).

Notation "' p <- m ;; k" := (bind m (fun x => let 'p := x in k))
  (at level 61, p pattern, m at next level, right associativity).

(** [s.substr(pos, n)] and [s.substr(pos)] ([n = None]): throws
    [std::out_of_range] when [pos > s.size()]. *)
Definition substr (s : str) (pos : nat) (n : option nat) : outcome str :=
  if Nat.leb pos (length s) then
    Returns (match n with
             | Some k => firstn k (skipn pos s)
             | None => skipn pos s
             end)
  else Throws out_of_range.

(** ** Characters and the C library *)

(** [isspace] in the C locale, as [StringUtils::Trim] uses it. *)
Definition isspace (c : ascii) : bool :=
  let n := nat_of_ascii c in
  Nat.eqb n 32 || (Nat.leb 9 n && Nat.leb n 13).

Definition isdigit (c : ascii) : bool :=
  let n := nat_of_ascii c in Nat.leb 48 n && Nat.leb n 57.

(** [tolower] in the C locale. *)
Definition tolower (c : ascii) : ascii :=
  let n := nat_of_ascii c in
  if Nat.leb 65 n && Nat.leb n 90 then ascii_of_nat (n + 32) else c.

(** [StringUtils::ToLower] *)
Definition ToLower (s : str) : str := map tolower s.

(** [StringUtils::EqualsNoCase]: same length, and the same characters up to
    case. *)
Fixpoint EqualsNoCase (a b : str) : bool :=
  match a, b with
  | [], [] => true
  | x :: a', y :: b' => Ascii.eqb (tolower x) (tolower y) && EqualsNoCase a' b'
  | _, _ => false
  end.

(** [StringUtils::TrimLeft(s)], [TrimRight(s)] and [Trim(s)] remove white
    space; the two-argument forms remove the characters of [chars]. *)
Fixpoint drop_while (f : ascii -> bool) (s : str) : str :=
  match s with
  | [] => []
  | c :: t => if f c then drop_while f t else s
  end.

Definition TrimLeft (s : str) : str := drop_while isspace s.
Definition TrimRight (s : str) : str := rev (drop_while isspace (rev s)).
Definition Trim (s : str) : str := TrimRight (TrimLeft s).

Definition is_one_of (chars : str) (c : ascii) : bool :=
  existsb (Ascii.eqb c) chars.

Definition TrimLeftChars (s chars : str) : str := drop_while (is_one_of chars) s.
Definition TrimRightChars (s chars : str) : str :=
  rev (drop_while (is_one_of chars) (rev s)).

(** [StringUtils::Left(s, n)] *)
Definition Left (s : str) (n : nat) : str := firstn n s.

(** Two's complement wrap-around of [int] (32 bits) and of [long],
    [long long] and [time_t] (64 bits). *)
Definition wrap (bits : Z) (z : Z) : Z :=
  ((z + 2 ^ (bits - 1)) mod 2 ^ bits - 2 ^ (bits - 1))%Z.

Definition wrap32 : Z -> Z := wrap 32.
Definition wrap64 : Z -> Z := wrap 64.

Definition INT_MIN : Z := (- 2 ^ 31)%Z.
Definition INT_MAX : Z := (2 ^ 31 - 1)%Z.
Definition LLONG_MIN : Z := (- 2 ^ 63)%Z.
Definition LLONG_MAX : Z := (2 ^ 63 - 1)%Z.

(** The decimal digits at the head of [s], as a number. *)
Fixpoint digits (acc : Z) (s : str) : Z :=
  match s with
  | [] => acc
  | c :: t =>
      if isdigit c
      then digits (acc * 10 + Z.of_nat (nat_of_ascii c - 48))%Z t
      else acc
  end.

(** [strtoll(s, nullptr, 10)]: white space, an optional sign, digits; the
    value saturates at the ends of [long long]. *)
Definition strtoll (s : str) : Z :=
  let s := drop_while isspace s in
  let v :=
    match s with
    | "-"%char :: t => (- digits 0 t)%Z
    | "+"%char :: t => digits 0%Z t
    | _ => digits 0%Z s
    end in
  Z.max LLONG_MIN (Z.min LLONG_MAX v).

(** [atoi(s)] is [(int) strtol(s, nullptr, 10)]. *)
Definition atoi (s : str) : Z := wrap32 (strtoll s).

(** [sprintf(buff, "%d", n)] *)
Definition sprintf_d (n : Z) : str :=
  String.list_ascii_of_string (DecimalString.NilZero.string_of_int (Z.to_int n)).

(** ** Doubles *)

Definition double : Type := spec_float.

Definition double_of_Z (z : Z) : double := binary_normalize 53 1024 z 0 false.

Definition dmul : double -> double -> double := SFmul 53 1024.
Definition ddiv : double -> double -> double := SFdiv 53 1024.

(** [static_cast<int>(d)]: the fraction is discarded (rounding toward zero).
    The conversion is undefined in C++ when the result does not fit [int] or
    [d] is not finite; the model then gives the value that x86-64's
    conversion instruction produces, [INT_MIN]. *)
Definition double_to_int (d : double) : Z :=
  match d with
  | S754_zero _ => 0%Z
  | S754_finite s m e =>
      let mag :=
        match e with
        | Zneg _ => Z.shiftr (Zpos m) (- e)%Z
        | _ => Z.shiftl (Zpos m) e
        end in
      let v := if s then (- mag)%Z else mag in
      if ((INT_MIN <=? v) && (v <=? INT_MAX))%Z then v else INT_MIN
  | _ => INT_MIN
  end.

(** The hour-to-second conversion of the loader:
    [static_cast<int>(hours * 3600.0)]. *)
Definition hours_to_secs (hours : double) : Z :=
  double_to_int (dmul hours (double_of_Z 3600)).

(** A [strtod] for plain decimals (sign, digits, optional fraction), exact
    for up to fifteen significant digits; it instantiates the [atof]
    parameter in the examples. *)
Fixpoint count_digits (s : str) : nat :=
  match s with
  | c :: t => if isdigit c then S (count_digits t) else 0
  | [] => 0
  end.

Definition atof_decimal (s : str) : double :=
  let s := drop_while isspace s in
  let '(neg, s) :=
    match s with
    | "-"%char :: t => (true, t)
    | "+"%char :: t => (false, t)
    | _ => (false, s)
    end in
  let ip := digits 0%Z s in
  let rest := skipn (count_digits s) s in
  let '(m, k) :=
    match rest with
    | "."%char :: f => (digits ip f, count_digits f)
    | _ => (ip, 0%nat)
    end in
  let v := ddiv (double_of_Z m) (double_of_Z (10 ^ Z.of_nat k)%Z) in
  if neg then SFopp v else v.
(** ** Data model *)

Inductive CatchupMode : Type :=
| DISABLED | DEFAULT | APPEND | SHIFT | FLUSSONIC | XTREAM_CODES | TIMESHIFT | VOD.

Definition CatchupMode_eqb (a b : CatchupMode) : bool :=
  match a, b with
  | DISABLED, DISABLED | DEFAULT, DEFAULT | APPEND, APPEND | SHIFT, SHIFT
  | FLUSSONIC, FLUSSONIC | XTREAM_CODES, XTREAM_CODES | TIMESHIFT, TIMESHIFT
  | VOD, VOD => true
  | _, _ => false
  end.

Inductive PathType : Type := LOCAL_PATH | REMOTE_PATH.

Definition PathType_eqb (a b : PathType) : bool :=
  match a, b with
  | LOCAL_PATH, LOCAL_PATH | REMOTE_PATH, REMOTE_PATH => true
  | _, _ => false
  end.

Inductive RefreshMode : Type := REFRESH_DISABLED | REPEATED_REFRESH | ONCE_PER_DAY.

Definition RefreshMode_eqb (a b : RefreshMode) : bool :=
  match a, b with
  | REFRESH_DISABLED, REFRESH_DISABLED | REPEATED_REFRESH, REPEATED_REFRESH
  | ONCE_PER_DAY, ONCE_PER_DAY => true
  | _, _ => false
  end.

Inductive ProviderType : Type :=
| PVR_PROVIDER_TYPE_UNKNOWN | PVR_PROVIDER_TYPE_ADDON | PVR_PROVIDER_TYPE_SATELLITE
| PVR_PROVIDER_TYPE_CABLE | PVR_PROVIDER_TYPE_AERIAL | PVR_PROVIDER_TYPE_IPTV.

Inductive PVR_ERROR : Type :=
| PVR_ERROR_NO_ERROR | PVR_ERROR_NOT_IMPLEMENTED | PVR_ERROR_FAILED.

(** The settings singleton, one field per getter the two files call;
    [GetTvgUrl] is the value [SetTvgUrl] stores. *)
Record Settings : Type := mkSettings {
  GetM3ULocation : str;
  GetLogoLocation : str;
  GetM3URefreshMode : RefreshMode;
  UseM3UCache : bool;
  GetCatchupCorrectionSecs : Z;
  IsMediaEnabled : bool;
  ShowVodAsRecordings : bool;
  NumberChannelsByM3uOrderOnly : bool;
  GetLogoPathType : PathType;
  UseLocalLogosOnlyIgnoreM3U : bool;
  GetCatchupDays : Z;
  HasDefaultProviderName : bool;
  GetDefaultProviderName : str;
  IsCatchupEnabled : bool;
  CatchupOnlyOnFinishedProgrammes : bool;
  GetTvgUrl : str
}.

Definition SetTvgUrl (v : str) (s : Settings) : Settings :=
  let (loc, logo, mode, cache, corr, med, vod, ord, pt, ll, days, hd, dn, ce, fin, _) := s in
  mkSettings loc logo mode cache corr med vod ord pt ll days hd dn ce fin v.

(** Modelled from the spec: the [Channel] class (Channel.h is not under
    src/), with the fields of section 3 of the specification; every setter
    writes its own field. *)
Record Channel : Type := mkChannel {
  channelNumber : Z;
  subChannelNumber : Z;
  channelName : str;
  tvgId : str;
  tvgName : str;
  tvgShift : Z;
  radio : bool;
  iconPath : str;
  catchupCorrectionSecs : Z;
  hasCatchup : bool;
  catchupMode : CatchupMode;
  catchupDays : Z;
  catchupSource : str;
  isCatchupTSStream : bool;
  providerUniqueId : Z;
  streamURL : str;
  properties : list (str * str)
}.

Definition SetChannelNumber (v : Z) (c : Channel) : Channel :=
  let (_, sub, name, id, tname, shift, rad, icon, corr, has, mode, days, src, ts, prov, url, props) := c in
  mkChannel v sub name id tname shift rad icon corr has mode days src ts prov url props.

Definition SetSubChannelNumber (v : Z) (c : Channel) : Channel :=
  let (num, _, name, id, tname, shift, rad, icon, corr, has, mode, days, src, ts, prov, url, props) := c in
  mkChannel num v name id tname shift rad icon corr has mode days src ts prov url props.

Definition SetChannelName (v : str) (c : Channel) : Channel :=
  let (num, sub, _, id, tname, shift, rad, icon, corr, has, mode, days, src, ts, prov, url, props) := c in
  mkChannel num sub v id tname shift rad icon corr has mode days src ts prov url props.

Definition SetTvgId (v : str) (c : Channel) : Channel :=
  let (num, sub, name, _, tname, shift, rad, icon, corr, has, mode, days, src, ts, prov, url, props) := c in
  mkChannel num sub name v tname shift rad icon corr has mode days src ts prov url props.

Definition SetTvgName (v : str) (c : Channel) : Channel :=
  let (num, sub, name, id, _, shift, rad, icon, corr, has, mode, days, src, ts, prov, url, props) := c in
  mkChannel num sub name id v shift rad icon corr has mode days src ts prov url props.

Definition SetTvgShift (v : Z) (c : Channel) : Channel :=
  let (num, sub, name, id, tname, _, rad, icon, corr, has, mode, days, src, ts, prov, url, props) := c in
  mkChannel num sub name id tname v rad icon corr has mode days src ts prov url props.

Definition SetRadio (v : bool) (c : Channel) : Channel :=
  let (num, sub, name, id, tname, shift, _, icon, corr, has, mode, days, src, ts, prov, url, props) := c in
  mkChannel num sub name id tname shift v icon corr has mode days src ts prov url props.

Definition SetIconPath (v : str) (c : Channel) : Channel :=
  let (num, sub, name, id, tname, shift, rad, _, corr, has, mode, days, src, ts, prov, url, props) := c in
  mkChannel num sub name id tname shift rad v corr has mode days src ts prov url props.

Definition SetCatchupCorrectionSecs (v : Z) (c : Channel) : Channel :=
  let (num, sub, name, id, tname, shift, rad, icon, _, has, mode, days, src, ts, prov, url, props) := c in
  mkChannel num sub name id tname shift rad icon v has mode days src ts prov url props.

Definition SetHasCatchup (v : bool) (c : Channel) : Channel :=
  let (num, sub, name, id, tname, shift, rad, icon, corr, _, mode, days, src, ts, prov, url, props) := c in
  mkChannel num sub name id tname shift rad icon corr v mode days src ts prov url props.

Definition SetCatchupMode (v : CatchupMode) (c : Channel) : Channel :=
  let (num, sub, name, id, tname, shift, rad, icon, corr, has, _, days, src, ts, prov, url, props) := c in
  mkChannel num sub name id tname shift rad icon corr has v days src ts prov url props.

Definition SetCatchupDays (v : Z) (c : Channel) : Channel :=
  let (num, sub, name, id, tname, shift, rad, icon, corr, has, mode, _, src, ts, prov, url, props) := c in
  mkChannel num sub name id tname shift rad icon corr has mode v src ts prov url props.

Definition SetCatchupSource (v : str) (c : Channel) : Channel :=
  let (num, sub, name, id, tname, shift, rad, icon, corr, has, mode, days, _, ts, prov, url, props) := c in
  mkChannel num sub name id tname shift rad icon corr has mode days v ts prov url props.

Definition SetCatchupTSStream (v : bool) (c : Channel) : Channel :=
  let (num, sub, name, id, tname, shift, rad, icon, corr, has, mode, days, src, _, prov, url, props) := c in
  mkChannel num sub name id tname shift rad icon corr has mode days src v prov url props.

Definition SetProviderUniqueId (v : Z) (c : Channel) : Channel :=
  let (num, sub, name, id, tname, shift, rad, icon, corr, has, mode, days, src, ts, _, url, props) := c in
  mkChannel num sub name id tname shift rad icon corr has mode days src ts v url props.

Definition SetStreamURL (v : str) (c : Channel) : Channel :=
  let (num, sub, name, id, tname, shift, rad, icon, corr, has, mode, days, src, ts, prov, _, props) := c in
  mkChannel num sub name id tname shift rad icon corr has mode days src ts prov v props.

(** [Channel::AddProperty]: the list keeps the insertions, latest first. *)
Definition AddProperty (prop value : str) (c : Channel) : Channel :=
  let (num, sub, name, id, tname, shift, rad, icon, corr, has, mode, days, src, ts, prov, url, props) := c in
  mkChannel num sub name id tname shift rad icon corr has mode days src ts prov url
            ((prop, value) :: props).

Definition GetChannelName := channelName.
Definition IsRadio := radio.
Definition HasCatchup := hasCatchup.
Definition GetCatchupMode := catchupMode.

(** Modelled from the spec: the [MediaEntry] class (not under src/): a
    directory, a size, a stream URL and the fields it takes over from a
    channel. *)
Record MediaEntry : Type := mkMediaEntry {
  directory : str;
  sizeInBytes : Z;
  mediaStreamURL : str;
  mediaFrom : option Channel
}.

Definition SetDirectory (v : str) (m : MediaEntry) : MediaEntry :=
  mkMediaEntry v (sizeInBytes m) (mediaStreamURL m) (mediaFrom m).

Definition SetSizeInBytes (v : Z) (m : MediaEntry) : MediaEntry :=
  mkMediaEntry (directory m) v (mediaStreamURL m) (mediaFrom m).

Definition SetMediaStreamURL (v : str) (m : MediaEntry) : MediaEntry :=
  mkMediaEntry (directory m) (sizeInBytes m) v (mediaFrom m).

Definition UpdateFrom (c : Channel) (m : MediaEntry) : MediaEntry :=
  mkMediaEntry (directory m) (sizeInBytes m) (mediaStreamURL m) (Some c).

Record ChannelGroup : Type := mkChannelGroup {
  groupName : str;
  groupIsRadio : bool
}.

(** The defaults of the M3U header that the loader keeps
    ([m_m3uHeaderStrings]). *)
Record M3uHeaderStrings : Type := mkM3uHeaderStrings {
  m_catchup : str;
  m_catchupDays : str;
  m_catchupSource : str
}.

(** An EPG tag of the host and an entry of the EPG store, with the getters
    that [IsEPGTagPlayable] calls. *)
Record PVREPGTag : Type := mkPVREPGTag {
  GetUniqueChannelId : Z;
  GetStartTime : Z;
  GetEndTime : Z
}.

Record EpgEntry : Type := mkEpgEntry {
  GetCatchupId : str
}.
(** Modelled from the spec: the provider registry (Providers.cpp is not under
    src/), section 4.2: an empty name gives no provider, a known name gives
    the provider it names, a new name gets the next identifier, counted
    from 1. A reference to a provider is its position in the registry. *)
Record Provider : Type := mkProvider {
  providerId : Z;
  providerName : str;
  providerType : ProviderType;
  providerIconPath : str;
  providerCountries : list str;
  providerLanguages : list str
}.

Definition Providers : Type := list Provider.

Fixpoint find_provider (name : str) (ps : Providers) : option nat :=
  match ps with
  | [] => None
  | p :: t =>
      if str_eqb (providerName p) name then Some 0
      else option_map S (find_provider name t)
  end.

Definition AddProvider (name : str) (ps : Providers) : option nat * Providers :=
  if empty name then (None, ps)
  else match find_provider name ps with
       | Some i => (Some i, ps)
       | None =>
           (Some (length ps),
            ps ++ [mkProvider (Z.of_nat (length ps) + 1) name
                              PVR_PROVIDER_TYPE_UNKNOWN [] [] []])
       end.

Fixpoint update_provider (i : nat) (f : Provider -> Provider) (ps : Providers)
  : Providers :=
  match ps, i with
  | [], _ => []
  | p :: t, 0 => f p :: t
  | p :: t, S j => p :: update_provider j f t
  end.

Definition SetProviderType (v : ProviderType) (p : Provider) : Provider :=
  mkProvider (providerId p) (providerName p) v (providerIconPath p)
             (providerCountries p) (providerLanguages p).

Definition SetProviderIconPath (v : str) (p : Provider) : Provider :=
  mkProvider (providerId p) (providerName p) (providerType p) v
             (providerCountries p) (providerLanguages p).

Definition SetCountries (v : list str) (p : Provider) : Provider :=
  mkProvider (providerId p) (providerName p) (providerType p)
             (providerIconPath p) v (providerLanguages p).

Definition SetLanguages (v : list str) (p : Provider) : Provider :=
  mkProvider (providerId p) (providerName p) (providerType p)
             (providerIconPath p) (providerCountries p) v.

Definition GetUniqueId (i : nat) (ps : Providers) : Z :=
  match nth_error ps i with
  | Some p => providerId p
  | None => 0%Z
  end.

(** [StringUtils::Split(s, delimiter)] for a one-character delimiter: the
    pieces between the delimiters; no piece for the empty string. *)
Fixpoint split_on (c : ascii) (s cur : str) : list str :=
  match s with
  | [] => [rev cur]
  | x :: t =>
      if Ascii.eqb x c then rev cur :: split_on c t []
      else split_on c t (x :: cur)
  end.

Definition Split (s : str) (delimiter : ascii) : list str :=
  if empty s then [] else split_on delimiter s [].

(** [std::getline(stream, piece, delim)] repeated to the end of the stream:
    the pieces that [delim] ends or separates; nothing is read after the
    last delimiter when no character follows it. *)
Fixpoint getlines_from (delim : ascii) (s cur : str) : list str :=
  match s with
  | [] => match cur with [] => [] | _ => [rev cur] end
  | x :: t =>
      if Ascii.eqb x delim then rev cur :: getlines_from delim t []
      else getlines_from delim t (x :: cur)
  end.

Definition getlines (delim : ascii) (s : str) : list str :=
  getlines_from delim s [].

(** ** Constants *)

(** Modelled from the spec: the marker constants of PlaylistLoader.h (not
    under src/), after the attribute names of section 6 of the specification
    and the comments at their uses in the loader. *)
Definition M3U_START_MARKER : str := lit "#EXTM3U".
Definition M3U_INFO_MARKER : str := lit "#EXTINF".
Definition M3U_GROUP_MARKER : str := lit "#EXTGRP:".
Definition KODIPROP_MARKER : str := lit "#KODIPROP:".
Definition EXTVLCOPT_MARKER : str := lit "#EXTVLCOPT:".
Definition EXTVLCOPT_DASH_MARKER : str := lit "#EXTVLCOPT--".
Definition PLAYLIST_TYPE_MARKER : str := lit "#EXT-X-PLAYLIST-TYPE:".
Definition TVG_URL_MARKER : str := lit "x-tvg-url=".
Definition TVG_URL_OTHER_MARKER : str := lit "url-tvg=".
Definition TVG_INFO_ID_MARKER : str := lit "tvg-id=".
Definition TVG_INFO_ID_MARKER_UC : str := lit "tvg-ID=".
Definition TVG_INFO_NAME_MARKER : str := lit "tvg-name=".
Definition TVG_INFO_LOGO_MARKER : str := lit "tvg-logo=".
Definition TVG_INFO_SHIFT_MARKER : str := lit "tvg-shift=".
Definition TVG_INFO_CHNO_MARKER : str := lit "tvg-chno=".
Definition CHANNEL_NUMBER_MARKER : str := lit "channel-number=".
Definition TVG_INFO_REC : str := lit "tvg-rec=".
Definition RADIO_MARKER : str := lit "radio=".
Definition GROUP_NAME_MARKER : str := lit "group-title=".
Definition CATCHUP : str := lit "catchup=".
Definition CATCHUP_TYPE : str := lit "catchup-type=".
Definition CATCHUP_DAYS : str := lit "catchup-days=".
Definition CATCHUP_SOURCE : str := lit "catchup-source=".
Definition CATCHUP_SIPTV : str := lit "timeshift=".
Definition CATCHUP_CORRECTION : str := lit "catchup-correction=".
Definition PROVIDER : str := lit "provider=".
Definition PROVIDER_TYPE : str := lit "provider-type=".
Definition PROVIDER_LOGO : str := lit "provider-logo=".
Definition PROVIDER_COUNTRIES : str := lit "provider-countries=".
Definition PROVIDER_LANGUAGES : str := lit "provider-languages=".
Definition MEDIA : str := lit "media=".
Definition MEDIA_DIR : str := lit "media-dir=".
Definition MEDIA_SIZE : str := lit "media-size=".
Definition PROVIDER_STRING_TOKEN_SEPARATOR : ascii := ","%char.

(** The stream property names of the host's API. *)
Definition PVR_STREAM_PROPERTY_INPUTSTREAM : str := lit "inputstream".
Definition PVR_STREAM_PROPERTY_ISREALTIMESTREAM : str := lit "isrealtimestream".

(** The UTF-8 byte order mark. *)
Definition BOM : str := [ascii_of_nat 239; ascii_of_nat 187; ascii_of_nat 191].

(** ** The log *)

Inductive LogLevel : Type := LEVEL_DEBUG | LEVEL_INFO | LEVEL_ERROR.

(** A call of [Logger::Log]: its level and its format string. *)
Definition LogEntry : Type := (LogLevel * str)%type.
(** ** The marker reader *)

(** [PlaylistLoader::ReadMarkerValue] *)
Definition ReadMarkerValue (line markerName : str) : outcome str :=
  match find_str markerName line with
  | Some markerStart =>
      let markerStart := markerStart + length markerName in
      if Nat.ltb markerStart (length line) then
        let '(find, markerStart) :=
          if Ascii.eqb (nth markerStart line zero) dq
          then (dq, S markerStart)
          else (" "%char, markerStart) in
        let markerEnd :=
          match find_char_from find line markerStart with
          | Some e => e
          | None => length line
          end in
        substr line markerStart (Some (markerEnd - markerStart))
      else Returns []
  | None => Returns []
  end.

(** What the specification calls the value up to the next terminator: the
    characters of [s] before the first [c], all of [s] when there is none. *)
Fixpoint up_to (c : ascii) (s : str) : str :=
  match s with
  | [] => []
  | x :: t => if Ascii.eqb x c then [] else x :: up_to c t
  end.

(** The value that follows a marker, by the form of what follows it. *)
Definition marker_value (rest : str) : str :=
  match rest with
  | [] => []
  | c :: r => if Ascii.eqb c dq then up_to dq r else up_to " "%char rest
  end.

(** [marker] occurs in [line] right after [pre], and nowhere earlier. *)
Definition first_occurrence (marker line pre rest : str) : Prop :=
  line = pre ++ marker ++ rest /\
  forall pre' rest', line = pre' ++ marker ++ rest' -> length pre <= length pre'.

Definition absent (marker line : str) : Prop :=
  forall pre rest, line <> pre ++ marker ++ rest.

(** The characters that [LoadPlayList] trims from a line: blank, tab,
    carriage return and line feed on the right; blank and tab on the left. *)
Definition TAB : ascii := ascii_of_nat 9.
Definition LF : ascii := ascii_of_nat 10.
Definition CR : ascii := ascii_of_nat 13.
Definition trim_right_chars : str := [" "%char; TAB; CR; LF].
Definition trim_left_chars : str := [" "%char; TAB].

(** ** Sample values *)

(** For the examples the host is instantiated with sample values: an identity UTF-8
    conversion, [atof_decimal], an icon path that is the logo attribute, the
    sentinel -1, and stores that are lists. *)

Definition sample_settings (catchupEnabled : bool) : Settings :=
  {| GetM3ULocation := lit "http://h/list.m3u";
     GetLogoLocation := [];
     GetM3URefreshMode := REFRESH_DISABLED;
     UseM3UCache := false;
     GetCatchupCorrectionSecs := 0;
     IsMediaEnabled := true;
     ShowVodAsRecordings := true;
     NumberChannelsByM3uOrderOnly := false;
     GetLogoPathType := REMOTE_PATH;
     UseLocalLogosOnlyIgnoreM3U := false;
     GetCatchupDays := 7;
     HasDefaultProviderName := false;
     GetDefaultProviderName := [];
     IsCatchupEnabled := catchupEnabled;
     CatchupOnlyOnFinishedProgrammes := true;
     GetTvgUrl := [] |}.

Definition sample_channel : Channel :=
  mkChannel 0 0 [] [] [] 0 false [] 0 false DISABLED 0 [] false 0 [] [].

Definition sample_media : MediaEntry := mkMediaEntry [] 0 [] None.

Definition sample_icon (_ : Settings) (tvgLogo _ : str) (_ : Channel) : str := tvgLogo.

(** A channel store with one channel, number 1, which has two catchup days;
    an EPG without entries; a channel supports catchup when it has it. *)
Definition two_day_channel : Channel :=
  mkChannel 1 0 (lit "One") (lit "c1") [] 0 false [] 0 true DEFAULT 2
            (lit "http://h/c") false 0 (lit "http://h/1") [].

Definition one_channel (_ : unit) (id : Z) : option Channel :=
  if (id =? 1)%Z then Some two_day_channel else None.

Definition no_epg (_ : unit) (_ : Channel) (_ : Z) : option EpgEntry := None.

Definition has_it (_ : Settings) (c : Channel) : bool := hasCatchup c.

Definition yesterday : PVREPGTag :=
  mkPVREPGTag 1 (1000000 - 86400) (1000000 - 82800).

(** Stores that are lists, and a fetcher that delivers a header. *)
Definition header_text : str := q "#EXTM3U url-tvg='http://epg/guide.xml' catchup='xc'".

Definition fetch_header (_ _ : str) (_ : bool) : option str := Some (header_text ++ [LF]).

Definition count {A : Type} (xs : list A) : Z := Z.of_nat (length xs).

Definition add_channel (_ : Settings) (c : Channel) (_ : list Z)
  (groups : list ChannelGroup) (_ : bool) (cs : list Channel)
  : bool * list Channel * list ChannelGroup :=
  (true, cs ++ [c], groups).

Definition add_group (g : ChannelGroup) (groups : list ChannelGroup)
  : Z * list ChannelGroup :=
  (count groups + 1, groups ++ [g])%Z.

Definition add_media (m : MediaEntry) (ms : list MediaEntry) : bool * list MediaEntry :=
  (true, ms ++ [m]).

(** Settings with a refresh mode; an interval of 30 minutes and the refresh
    hour 4. *)
Definition refresh_settings (mode : RefreshMode) : Settings :=
  {| GetM3ULocation := lit "http://h/list.m3u";
     GetLogoLocation := [];
     GetM3URefreshMode := mode;
     UseM3UCache := false;
     GetCatchupCorrectionSecs := 0;
     IsMediaEnabled := true;
     ShowVodAsRecordings := true;
     NumberChannelsByM3uOrderOnly := false;
     GetLogoPathType := REMOTE_PATH;
     UseLocalLogosOnlyIgnoreM3U := false;
     GetCatchupDays := 7;
     HasDefaultProviderName := false;
     GetDefaultProviderName := [];
     IsCatchupEnabled := true;
     CatchupOnlyOnFinishedProgrammes := true;
     GetTvgUrl := [] |}.

Definition every_30_minutes (_ : Settings) : Z := 30.
Definition at_four (_ : Settings) : Z := 4.

(** A fetcher that delivers a given text, and three playlists: one without
    an address, one entry, and a VOD marker before two addresses. *)
Definition fetch_text (text : str) (_ _ : str) (_ : bool) : option str := Some text.

Definition directives_text : str :=
  header_text ++ [LF] ++ lit "#EXTINF:-1,One" ++ [LF] ++ lit "#KODIPROP:a=b" ++ [LF]
  ++ lit "  " ++ [LF] ++ lit "# no address" ++ [LF].

Definition entry_text : str :=
  q "#EXTINF:-1 tvg-id='a',One" ++ [LF] ++ lit "http://h/1" ++ [LF].

Definition vod_text : str :=
  lit "#EXT-X-PLAYLIST-TYPE:VOD" ++ [LF] ++ lit "http://h/film" ++ [LF]
  ++ lit "http://h/live" ++ [LF].

(** The header, then one entry. *)
Definition header_entry_text : str :=
  header_text ++ [LF] ++ lit "#EXTINF:-1,News" ++ [LF] ++ lit "http://h/n" ++ [LF].

(** ** The channel builder *)

(** What [ParseIntoChannel] leaves behind: the string it returns and the
    objects it was given by reference, with the provider registry. *)
Record Parsed : Type := mkParsed {
  groupNamesListString : str;
  p_channel : Channel;
  p_mediaEntry : MediaEntry;
  p_groupIdList : list Z;
  p_providers : Providers
}.

(** [a + b + 1] on [size_t], where [b] is the result of a [find]: [npos] is
    the largest [size_t], so [a + npos + 1] wraps around to [a]. *)
Definition add_found_plus_1 (a : nat) (b : option nat) : nat :=
  match b with
  | Some k => a + k + 1
  | None => a
  end.

(** The first part of [ParseIntoChannel]: the comma that ends the attributes
    and starts the name. *)
Definition choose_comma (line : str) : outcome (option nat) :=
  let commaIndex := rfind_char ","%char line in
  let lastQuoteIndex := rfind_char dq line in
  match lastQuoteIndex with
  | Some lastQuoteIndex =>
      possibleName <- substr line (lastQuoteIndex + 1) None ;;
      let commaName := Trim possibleName in
      if StartsWith commaName (lit ",") then
        let commaIndex :=
          add_found_plus_1 lastQuoteIndex (find_char ","%char possibleName) in
        temp <- substr line (commaIndex + 1) None ;;
        Returns (Some commaIndex)
      else Returns commaIndex
  | None => Returns commaIndex
  end.

Section Addon.

Set Default Proof Using "Type".

(** The host's [kodi::UnknownToUTF8]. *)
Variable UnknownToUTF8 : str -> str.

(** The C library's [atof]. *)
Variable atof : str -> double.

(** The icon path that [Channel::SetIconPathFromTvgLogo(tvgLogo, channelName)]
    computes for a channel (Channel.cpp is not under src/). *)
Variable IconPathFromTvgLogo : Settings -> str -> str -> Channel -> str.

(** The sentinel of "no day constraint" (Channel.h is not under src/). *)
Variable IGNORE_CATCHUP_DAYS : Z.

Definition SetIconPathFromTvgLogo (settings : Settings) (tvgLogo channelName : str)
  (c : Channel) : Channel :=
  SetIconPath (IconPathFromTvgLogo settings tvgLogo channelName c) c.

(** The blocks of [ParseIntoChannel], in the order of the source; the channel
    each one takes is the scratch channel as the blocks before left it. *)

(** Lines 313-325: the channel number of [tvg-chno] or [channel-number]. *)
Definition number_channel (settings : Settings) (strChnlNo : str) (channel : Channel)
  : outcome Channel :=
  if negb (empty strChnlNo) && negb (NumberChannelsByM3uOrderOnly settings) then
    match find_char "."%char strChnlNo with
    | Some found =>
        major <- substr strChnlNo 0 (Some found) ;;
        let channel := SetChannelNumber (atoi major) channel in
        minor <- substr strChnlNo (found + 1) None ;;
        Returns (SetSubChannelNumber (atoi minor) channel)
    | None => Returns (SetChannelNumber (atoi strChnlNo) channel)
    end
  else Returns channel.

(** Lines 327-348: identifiers, catchup source, EPG shift, radio flag, icon
    and catchup correction. The header's catchup source is assigned to the
    local [strCatchupSource] after the channel's field was set from it, and
    the local is not read again. *)
Definition set_identity_and_timing (settings : Settings) (hdr : M3uHeaderStrings)
  (channelName strTvgId strTvgName strCatchupSource strTvgShift strRadio strTvgLogo
   strCatchupCorrection : str)
  (epgTimeShift catchupCorrectionSecs : Z) (channel : Channel) : Channel :=
  let tvgShiftDecimal := atof strTvgShift in
  let isRadio := EqualsNoCase strRadio (lit "true") in
  let channel := SetTvgId strTvgId channel in
  let channel := SetTvgName strTvgName channel in
  let channel := SetCatchupSource strCatchupSource channel in
  (* If we still don't have a value use the header supplied value if there is one *)
  let strCatchupSource :=
    if empty strCatchupSource && negb (empty (m_catchupSource hdr))
    then m_catchupSource hdr else strCatchupSource in
  let channel := SetTvgShift (hours_to_secs tvgShiftDecimal) channel in
  let channel := SetRadio isRadio channel in
  let channel :=
    if PathType_eqb (GetLogoPathType settings) LOCAL_PATH &&
       UseLocalLogosOnlyIgnoreM3U settings
    then SetIconPathFromTvgLogo settings [] channelName channel
    else SetIconPathFromTvgLogo settings strTvgLogo channelName channel in
  let channel :=
    if empty strTvgShift then SetTvgShift epgTimeShift channel else channel in
  let catchupCorrectionDecimal := atof strCatchupCorrection in
  let channel :=
    SetCatchupCorrectionSecs (hours_to_secs catchupCorrectionDecimal) channel in
  if empty strCatchupCorrection
  then SetCatchupCorrectionSecs catchupCorrectionSecs channel else channel.

(** Lines 350-372: the catchup token. *)
Definition set_catchup_mode (strCatchup : str) (channel : Channel) : Channel :=
  let channel :=
    if EqualsNoCase strCatchup (lit "default") || EqualsNoCase strCatchup (lit "append") ||
       EqualsNoCase strCatchup (lit "shift") || EqualsNoCase strCatchup (lit "flussonic") ||
       EqualsNoCase strCatchup (lit "flussonic-hls") ||
       EqualsNoCase strCatchup (lit "flussonic-ts") ||
       EqualsNoCase strCatchup (lit "fs") || EqualsNoCase strCatchup (lit "xc") ||
       EqualsNoCase strCatchup (lit "vod")
    then SetHasCatchup true channel else channel in
  let channel :=
    if EqualsNoCase strCatchup (lit "default") then SetCatchupMode DEFAULT channel
    else if EqualsNoCase strCatchup (lit "append") then SetCatchupMode APPEND channel
    else if EqualsNoCase strCatchup (lit "shift") then SetCatchupMode SHIFT channel
    else if EqualsNoCase strCatchup (lit "flussonic") ||
            EqualsNoCase strCatchup (lit "flussonic-hls") ||
            EqualsNoCase strCatchup (lit "flussonic-ts") ||
            EqualsNoCase strCatchup (lit "fs")
    then SetCatchupMode FLUSSONIC channel
    else if EqualsNoCase strCatchup (lit "xc") then SetCatchupMode XTREAM_CODES channel
    else if EqualsNoCase strCatchup (lit "vod") then SetCatchupMode VOD channel
    else channel in
  if EqualsNoCase strCatchup (lit "flussonic-ts") || EqualsNoCase strCatchup (lit "fs")
  then SetCatchupTSStream true channel else channel.

(** Lines 374-378: the xeev convention of the header. *)
Definition set_xeev_catchup (xeevCatchup : bool) (channelName : str) (channel : Channel)
  : Channel :=
  if negb (HasCatchup channel) && xeevCatchup &&
     (StartsWith channelName (lit "* ") || StartsWith channelName (lit "[+] "))
  then SetCatchupMode XTREAM_CODES (SetHasCatchup true channel)
  else channel.

(** Lines 380-385: the day count of siptv's [timeshift], or of [tvg-rec]. *)
Definition siptv_timeshift_days (strCatchupSiptv strTvgRec : str) : Z :=
  let siptvTimeshiftDays := 0%Z in
  let siptvTimeshiftDays :=
    if negb (empty strCatchupSiptv) then atoi strCatchupSiptv
    else siptvTimeshiftDays in
  (* treat tvg-rec tag like siptv if siptv has not been used *)
  if negb (empty strTvgRec) && (siptvTimeshiftDays =? 0)%Z
  then atoi strTvgRec else siptvTimeshiftDays.

(** Lines 387-397: the catchup days. The second test reads the header's
    catchup source, and the value it then sets is the header's catchup days. *)
Definition set_catchup_days (settings : Settings) (hdr : M3uHeaderStrings)
  (strCatchupDays : str) (siptvTimeshiftDays : Z) (channel : Channel) : Channel :=
  if negb (empty strCatchupDays) then SetCatchupDays (atoi strCatchupDays) channel
  (* If we still don't have a value use the header supplied value if there is one *)
  else if negb (empty (m_catchupSource hdr))
  then SetCatchupDays (atoi (m_catchupDays hdr)) channel
  else if CatchupMode_eqb (GetCatchupMode channel) VOD
  then SetCatchupDays IGNORE_CATCHUP_DAYS channel
  else if (0 <? siptvTimeshiftDays)%Z
  then SetCatchupDays siptvTimeshiftDays channel
  else SetCatchupDays (GetCatchupDays settings) channel.

(** Lines 399-406: siptv's [timeshift] tag as a catchup mode of its own. *)
Definition set_siptv_timeshift (siptvTimeshiftDays : Z) (channel : Channel) : Channel :=
  if negb (HasCatchup channel) && (0 <? siptvTimeshiftDays)%Z
  then SetHasCatchup true (SetCatchupMode TIMESHIFT channel)
  else channel.

(** Lines 408-447: the provider. *)
Definition set_provider (settings : Settings)
  (strProviderName strProviderType strProviderIconPath strProviderCountries
   strProviderLanguages : str)
  (providers : Providers) (channel : Channel) : Channel * Providers :=
  let strProviderName :=
    if empty strProviderName && HasDefaultProviderName settings
    then GetDefaultProviderName settings else strProviderName in
  let '(provider, providers) := AddProvider strProviderName providers in
  match provider with
  | Some provider =>
      let strProviderType := ToLower strProviderType in
      let providers :=
        if negb (empty strProviderType) then
          update_provider provider
            (SetProviderType
               (if str_eqb strProviderType (lit "addon") then PVR_PROVIDER_TYPE_ADDON
                else if str_eqb strProviderType (lit "satellite") then PVR_PROVIDER_TYPE_SATELLITE
                else if str_eqb strProviderType (lit "cable") then PVR_PROVIDER_TYPE_CABLE
                else if str_eqb strProviderType (lit "aerial") then PVR_PROVIDER_TYPE_AERIAL
                else if str_eqb strProviderType (lit "iptv") then PVR_PROVIDER_TYPE_IPTV
                else PVR_PROVIDER_TYPE_UNKNOWN))
            providers
        else providers in
      let providers :=
        if negb (empty strProviderIconPath)
        then update_provider provider (SetProviderIconPath strProviderIconPath) providers
        else providers in
      let providers :=
        if negb (empty strProviderCountries)
        then update_provider provider
               (SetCountries (Split strProviderCountries PROVIDER_STRING_TOKEN_SEPARATOR))
               providers
        else providers in
      let providers :=
        if negb (empty strProviderLanguages)
        then update_provider provider
               (SetLanguages (Split strProviderLanguages PROVIDER_STRING_TOKEN_SEPARATOR))
               providers
        else providers in
      (SetProviderUniqueId (GetUniqueId provider providers) channel, providers)
  | None => (channel, providers)
  end.

(** Lines 449-453: the media directory and size. *)
Definition set_media_fields (strMediaDir strMediaSize : str) (mediaEntry : MediaEntry)
  : MediaEntry :=
  let mediaEntry :=
    if negb (empty strMediaDir) then SetDirectory strMediaDir mediaEntry
    else mediaEntry in
  if negb (empty strMediaSize) then SetSizeInBytes (strtoll strMediaSize) mediaEntry
  else mediaEntry.

(** Lines 266-455: the attributes of the info line. *)
Definition parse_info_line (settings : Settings) (hdr : M3uHeaderStrings)
  (channelName infoLine : str) (channel : Channel) (mediaEntry : MediaEntry)
  (groupIdList : list Z) (providers : Providers)
  (epgTimeShift catchupCorrectionSecs : Z) (xeevCatchup : bool) : outcome Parsed :=
  strTvgId <- ReadMarkerValue infoLine TVG_INFO_ID_MARKER ;;
  strTvgName <- ReadMarkerValue infoLine TVG_INFO_NAME_MARKER ;;
  strTvgLogo <- ReadMarkerValue infoLine TVG_INFO_LOGO_MARKER ;;
  strChnlNo <- ReadMarkerValue infoLine TVG_INFO_CHNO_MARKER ;;
  strRadio <- ReadMarkerValue infoLine RADIO_MARKER ;;
  strTvgShift <- ReadMarkerValue infoLine TVG_INFO_SHIFT_MARKER ;;
  strCatchup <- ReadMarkerValue infoLine CATCHUP ;;
  strCatchupDays <- ReadMarkerValue infoLine CATCHUP_DAYS ;;
  strTvgRec <- ReadMarkerValue infoLine TVG_INFO_REC ;;
  strCatchupSource <- ReadMarkerValue infoLine CATCHUP_SOURCE ;;
  strCatchupSiptv <- ReadMarkerValue infoLine CATCHUP_SIPTV ;;
  strCatchupCorrection <- ReadMarkerValue infoLine CATCHUP_CORRECTION ;;
  strProviderName <- ReadMarkerValue infoLine PROVIDER ;;
  strProviderType <- ReadMarkerValue infoLine PROVIDER_TYPE ;;
  strProviderIconPath <- ReadMarkerValue infoLine PROVIDER_LOGO ;;
  strProviderCountries <- ReadMarkerValue infoLine PROVIDER_COUNTRIES ;;
  strProviderLanguages <- ReadMarkerValue infoLine PROVIDER_LANGUAGES ;;
  strMedia <- ReadMarkerValue infoLine MEDIA ;;
  strMediaDir <- ReadMarkerValue infoLine MEDIA_DIR ;;
  strMediaSize <- ReadMarkerValue infoLine MEDIA_SIZE ;;
  let strTvgName := UnknownToUTF8 strTvgName in
  let strCatchupSource := UnknownToUTF8 strCatchupSource in
  (* Some providers use a 'catchup-type' tag instead of 'catchup' *)
  strCatchup <-
    (if empty strCatchup then ReadMarkerValue infoLine CATCHUP_TYPE
     else Returns strCatchup) ;;
  (* If we still don't have a value use the header supplied value if there is one *)
  let strCatchup :=
    if empty strCatchup && negb (empty (m_catchup hdr))
    then m_catchup hdr else strCatchup in
  strTvgId <-
    (if empty strTvgId then ReadMarkerValue infoLine TVG_INFO_ID_MARKER_UC
     else Returns strTvgId) ;;
  let strTvgId :=
    if empty strTvgId then strTvgId ++ sprintf_d (atoi infoLine) else strTvgId in
  (* If don't have a channel number try another format *)
  strChnlNo <-
    (if empty strChnlNo then ReadMarkerValue infoLine CHANNEL_NUMBER_MARKER
     else Returns strChnlNo) ;;
  channel <- number_channel settings strChnlNo channel ;;
  let channel :=
    set_identity_and_timing settings hdr channelName strTvgId strTvgName
      strCatchupSource strTvgShift strRadio strTvgLogo strCatchupCorrection
      epgTimeShift catchupCorrectionSecs channel in
  let channel := set_catchup_mode strCatchup channel in
  let channel := set_xeev_catchup xeevCatchup channelName channel in
  let siptvTimeshiftDays := siptv_timeshift_days strCatchupSiptv strTvgRec in
  let channel :=
    set_catchup_days settings hdr strCatchupDays siptvTimeshiftDays channel in
  let channel := set_siptv_timeshift siptvTimeshiftDays channel in
  let '(channel, providers) :=
    set_provider settings strProviderName strProviderType strProviderIconPath
      strProviderCountries strProviderLanguages providers channel in
  let mediaEntry := set_media_fields strMediaDir strMediaSize mediaEntry in
  groupNames <- ReadMarkerValue infoLine GROUP_NAME_MARKER ;;
  Returns (mkParsed groupNames channel mediaEntry groupIdList providers).

(** [PlaylistLoader::ParseIntoChannel]. [hdr] is [m_m3uHeaderStrings] and
    [providers] is [m_providers]. *)
Definition ParseIntoChannel (settings : Settings) (hdr : M3uHeaderStrings)
  (line : str) (channel : Channel) (mediaEntry : MediaEntry)
  (groupIdList : list Z) (providers : Providers)
  (epgTimeShift catchupCorrectionSecs : Z) (xeevCatchup : bool) : outcome Parsed :=
  let colonIndex := find_char ":"%char line in
  commaIndex <- choose_comma line ;;
  match colonIndex, commaIndex with
  | Some colonIndex, Some commaIndex =>
      if Nat.ltb colonIndex commaIndex then
        (* parse name *)
        channelName <- substr line (commaIndex + 1) None ;;
        let channelName := Trim channelName in
        let channelName := UnknownToUTF8 channelName in
        let channel := SetChannelName channelName channel in
        (* parse info line containing the attributes for a channel *)
        infoLine <- substr line (colonIndex + 1) (Some (commaIndex - colonIndex - 1)) ;;
        parse_info_line settings hdr channelName infoLine channel mediaEntry
                        groupIdList providers epgTimeShift catchupCorrectionSecs
                        xeevCatchup
      else Returns (mkParsed [] channel mediaEntry groupIdList providers)
  | _, _ => Returns (mkParsed [] channel mediaEntry groupIdList providers)
  end.

(** ** The playlist loader *)

(** The channel, group and media stores (Channels.cpp, ChannelGroups.cpp and
    Media.cpp are not under src/) and the operations the loader calls. *)
Variables Channels ChannelGroups Media : Type.
Variable GetCurrentChannelNumber : Channels -> Z.
Variable GetChannelsAmount : Channels -> Z.
Variable AddChannel :
  Settings -> Channel -> list Z -> ChannelGroups -> bool -> Channels ->
  bool * Channels * ChannelGroups.
Variable GetChannelGroupsAmount : ChannelGroups -> Z.
Variable CheckChannelGroupAllowed : Settings -> ChannelGroup -> ChannelGroups -> bool.
Variable AddChannelGroup : ChannelGroup -> ChannelGroups -> Z * ChannelGroups.
Variable AddMediaEntry : MediaEntry -> Media -> bool * Media.
Variable GetNumMedia : Media -> Z.

(** [Channel::ConfigureCatchupMode], [Channel::Reset], [MediaEntry::Reset]
    and the two default constructors. *)
Variable ConfigureCatchupMode : Settings -> Channel -> Channel.
Variable Channel_Reset : Channel -> Channel.
Variable MediaEntry_Reset : MediaEntry -> MediaEntry.
Variable new_Channel : Channel.
Variable new_MediaEntry : MediaEntry.

(** [FileUtils::GetCachedFileContents(cacheName, location, out, useCache)]:
    the contents when it returns true. *)
Variable GetCachedFileContents : str -> str -> bool -> option str.
Variable M3U_CACHE_FILENAME : str.

(** The loader with what it refers to: the settings singleton, the four
    stores and the log. *)
Record Loader : Type := mkLoader {
  settings : Settings;
  m_m3uLocation : str;
  m_logoLocation : str;
  m_m3uHeaderStrings : M3uHeaderStrings;
  m_channels : Channels;
  m_channelGroups : ChannelGroups;
  m_providers : Providers;
  m_media : Media;
  logged : list LogEntry
}.

Definition Log (level : LogLevel) (format : String.string) (l : Loader) : Loader :=
  let (s, loc, logo, hdr, chs, grps, provs, med, lg) := l in
  mkLoader s loc logo hdr chs grps provs med (lg ++ [(level, lit format)]).

Arguments Log level format%_string l.

Definition set_settings (v : Settings) (l : Loader) : Loader :=
  let (_, loc, logo, hdr, chs, grps, provs, med, lg) := l in
  mkLoader v loc logo hdr chs grps provs med lg.

Definition set_header (v : M3uHeaderStrings) (l : Loader) : Loader :=
  let (s, loc, logo, _, chs, grps, provs, med, lg) := l in
  mkLoader s loc logo v chs grps provs med lg.

Definition set_channels (v : Channels) (l : Loader) : Loader :=
  let (s, loc, logo, hdr, _, grps, provs, med, lg) := l in
  mkLoader s loc logo hdr v grps provs med lg.

Definition set_channelGroups (v : ChannelGroups) (l : Loader) : Loader :=
  let (s, loc, logo, hdr, chs, _, provs, med, lg) := l in
  mkLoader s loc logo hdr chs v provs med lg.

Definition set_providers (v : Providers) (l : Loader) : Loader :=
  let (s, loc, logo, hdr, chs, grps, _, med, lg) := l in
  mkLoader s loc logo hdr chs grps v med lg.

Definition set_media (v : Media) (l : Loader) : Loader :=
  let (s, loc, logo, hdr, chs, grps, provs, _, lg) := l in
  mkLoader s loc logo hdr chs grps provs v lg.

(** The local variables of [LoadPlayList] that live across lines. *)
Record Locals : Type := mkLocals {
  isFirstLine : bool;
  isRealTime : bool;
  isMediaEntry : bool;
  epgTimeShift : Z;
  catchupCorrectionSecs_ : Z;
  currentChannelGroupIdList : list Z;
  channelHadGroups : bool;
  xeevCatchup : bool;
  tmpChannel : Channel;
  tmpMediaEntry : MediaEntry
}.

(** [PlaylistLoader::ParseAndAddChannelGroups] *)
Definition ParseAndAddChannelGroups (groupNamesListString : str)
  (groupIdList : list Z) (isRadio : bool) (l : Loader) : list Z * Loader :=
  fold_left
    (fun '(groupIdList, l) groupName =>
       let groupName := UnknownToUTF8 groupName in
       let group := mkChannelGroup groupName isRadio in
       if CheckChannelGroupAllowed (settings l) group (m_channelGroups l) then
         let '(uniqueGroupId, groups) := AddChannelGroup group (m_channelGroups l) in
         (groupIdList ++ [uniqueGroupId], set_channelGroups groups l)
       else (groupIdList, l))
    (getlines ";"%char groupNamesListString)
    (groupIdList, l).

(** [PlaylistLoader::ParseSinglePropertyIntoChannel] *)
Definition ParseSinglePropertyIntoChannel (line : str) (channel : Channel)
  (markerName : str) (l : Loader) : outcome (Channel * Loader) :=
  value <- ReadMarkerValue line markerName ;;
  match find_char "="%char value with
  | Some pos =>
      prop <- substr value 0 (Some pos) ;;
      let prop := ToLower prop in
      propValue <- substr value (pos + 1) None ;;
      let addProperty := true in
      let '(addProperty, prop) :=
        if str_eqb markerName EXTVLCOPT_DASH_MARKER then
          (addProperty && str_eqb prop (lit "http-reconnect"), prop)
        else if str_eqb markerName EXTVLCOPT_MARKER then
          (addProperty &&
             (str_eqb prop (lit "http-user-agent") || str_eqb prop (lit "http-referrer") ||
              str_eqb prop (lit "program")), prop)
        else if str_eqb markerName KODIPROP_MARKER &&
                (str_eqb prop (lit "inputstreamaddon") || str_eqb prop (lit "inputstreamclass"))
        then (addProperty, PVR_STREAM_PROPERTY_INPUTSTREAM)
        else (addProperty, prop) in
      let channel := if addProperty then AddProperty prop propValue channel else channel in
      Returns (channel,
               Log LEVEL_DEBUG "%s - Found %s property: '%s' value: '%s' added: %s" l)
  | None => Returns (channel, l)
  end.

Definition found (i : option nat) : bool :=
  match i with Some _ => true | None => false end.

(** The header branch of the loop of [LoadPlayList]: the line starts with
    [#EXTM3U]. *)
Definition read_header (line : str) (l : Loader) (v : Locals)
  : outcome (Loader * Locals) :=
  strTvgShift <- ReadMarkerValue line TVG_INFO_SHIFT_MARKER ;;
  let tvgShiftDecimal := atof strTvgShift in
  let epgTimeShift := hours_to_secs tvgShiftDecimal in
  strCatchupCorrection <- ReadMarkerValue line CATCHUP_CORRECTION ;;
  let catchupCorrectionSecs :=
    if negb (empty strCatchupCorrection)
    then hours_to_secs (atof strCatchupCorrection)
    else catchupCorrectionSecs_ v in
  (* catchup values of the header, used as defaults later on *)
  catchup <- ReadMarkerValue line CATCHUP ;;
  let xeevCatchup := if str_eqb catchup (lit "xc") then true else xeevCatchup v in
  catchup <-
    (if empty catchup then ReadMarkerValue line CATCHUP_TYPE else Returns catchup) ;;
  catchupDays <- ReadMarkerValue line CATCHUP_DAYS ;;
  catchupSource <- ReadMarkerValue line CATCHUP_SOURCE ;;
  (* either of the M3U header based EPG xmltv urls *)
  tvgUrl <- ReadMarkerValue line TVG_URL_MARKER ;;
  tvgUrl <-
    (if empty tvgUrl then ReadMarkerValue line TVG_URL_OTHER_MARKER else Returns tvgUrl) ;;
  let l := set_header (mkM3uHeaderStrings catchup catchupDays catchupSource) l in
  let l := set_settings (SetTvgUrl tvgUrl (settings l)) l in
  Returns (l, mkLocals (isFirstLine v) (isRealTime v) (isMediaEntry v) epgTimeShift
                       catchupCorrectionSecs (currentChannelGroupIdList v)
                       (channelHadGroups v) xeevCatchup (tmpChannel v) (tmpMediaEntry v)).

(** The dispatch of the loop of [LoadPlayList] on the start of the line. *)
Definition dispatch (line : str) (l : Loader) (v : Locals)
  : outcome (Loader * Locals) :=
  let (first, isRealTime, isMediaEntry, epgTimeShift, catchupCorrectionSecs,
       currentChannelGroupIdList, channelHadGroups, xeevCatchup,
       tmpChannel, tmpMediaEntry) := v in
  if StartsWith line M3U_INFO_MARKER then
    let tmpChannel := SetChannelNumber (GetCurrentChannelNumber (m_channels l)) tmpChannel in
    let currentChannelGroupIdList := @nil Z in
    let isMediaEntry :=
      found (find_str MEDIA line) || found (find_str MEDIA_DIR line) ||
      found (find_str MEDIA_SIZE line) in
    parsed <- ParseIntoChannel (settings l) (m_m3uHeaderStrings l) line tmpChannel
                tmpMediaEntry currentChannelGroupIdList (m_providers l)
                epgTimeShift catchupCorrectionSecs xeevCatchup ;;
    let groupNamesListString := groupNamesListString parsed in
    let tmpChannel := p_channel parsed in
    let tmpMediaEntry := p_mediaEntry parsed in
    let currentChannelGroupIdList := p_groupIdList parsed in
    let l := set_providers (p_providers parsed) l in
    if negb (empty groupNamesListString) then
      let '(currentChannelGroupIdList, l) :=
        ParseAndAddChannelGroups groupNamesListString currentChannelGroupIdList
                                 (IsRadio tmpChannel) l in
      Returns (l, mkLocals first isRealTime isMediaEntry epgTimeShift catchupCorrectionSecs
                           currentChannelGroupIdList true xeevCatchup tmpChannel tmpMediaEntry)
    else
      Returns (l, mkLocals first isRealTime isMediaEntry epgTimeShift catchupCorrectionSecs
                           currentChannelGroupIdList channelHadGroups xeevCatchup
                           tmpChannel tmpMediaEntry)
  else if StartsWith line KODIPROP_MARKER then
    '(tmpChannel, l) <- ParseSinglePropertyIntoChannel line tmpChannel KODIPROP_MARKER l ;;
    Returns (l, mkLocals first isRealTime isMediaEntry epgTimeShift catchupCorrectionSecs
                         currentChannelGroupIdList channelHadGroups xeevCatchup
                         tmpChannel tmpMediaEntry)
  else if StartsWith line EXTVLCOPT_MARKER then
    '(tmpChannel, l) <- ParseSinglePropertyIntoChannel line tmpChannel EXTVLCOPT_MARKER l ;;
    Returns (l, mkLocals first isRealTime isMediaEntry epgTimeShift catchupCorrectionSecs
                         currentChannelGroupIdList channelHadGroups xeevCatchup
                         tmpChannel tmpMediaEntry)
  else if StartsWith line EXTVLCOPT_DASH_MARKER then
    '(tmpChannel, l) <- ParseSinglePropertyIntoChannel line tmpChannel EXTVLCOPT_DASH_MARKER l ;;
    Returns (l, mkLocals first isRealTime isMediaEntry epgTimeShift catchupCorrectionSecs
                         currentChannelGroupIdList channelHadGroups xeevCatchup
                         tmpChannel tmpMediaEntry)
  else if StartsWith line M3U_GROUP_MARKER then
    groupNamesListString <- ReadMarkerValue line M3U_GROUP_MARKER ;;
    if negb (empty groupNamesListString) then
      let '(currentChannelGroupIdList, l) :=
        ParseAndAddChannelGroups groupNamesListString currentChannelGroupIdList
                                 (IsRadio tmpChannel) l in
      Returns (l, mkLocals first isRealTime isMediaEntry epgTimeShift catchupCorrectionSecs
                           currentChannelGroupIdList true xeevCatchup tmpChannel tmpMediaEntry)
    else Returns (l, v)
  else if StartsWith line PLAYLIST_TYPE_MARKER then
    playlistType <- ReadMarkerValue line PLAYLIST_TYPE_MARKER ;;
    let isRealTime := if str_eqb playlistType (lit "VOD") then false else isRealTime in
    Returns (l, mkLocals first isRealTime isMediaEntry epgTimeShift catchupCorrectionSecs
                         currentChannelGroupIdList channelHadGroups xeevCatchup
                         tmpChannel tmpMediaEntry)
  else if negb (Ascii.eqb (nth 0 line zero) "#"%char) then
    let l := Log LEVEL_DEBUG "%s - Adding channel '%s' with URL: '%s'" l in
    let '(tmpChannel, l) :=
      if (isRealTime || negb (IsMediaEnabled (settings l)) ||
          negb (ShowVodAsRecordings (settings l))) && negb isMediaEntry then
        let tmpChannel :=
          AddProperty PVR_STREAM_PROPERTY_ISREALTIMESTREAM (lit "true") tmpChannel in
        let channel := tmpChannel in
        let channel := SetStreamURL line channel in
        let channel := ConfigureCatchupMode (settings l) channel in
        let '(added, channels, groups) :=
          AddChannel (settings l) channel currentChannelGroupIdList (m_channelGroups l)
                     channelHadGroups (m_channels l) in
        let l := set_channelGroups groups (set_channels channels l) in
        (tmpChannel,
         if negb added
         then Log LEVEL_DEBUG "%s - Not adding channel '%s' as only channels with groups are supported for %s channels per add-on settings" l
         else l)
      else (* We have media *)
        let entry := tmpMediaEntry in
        let entry := UpdateFrom tmpChannel entry in
        let entry := SetMediaStreamURL line entry in
        let '(added, media) := AddMediaEntry entry (m_media l) in
        let l := set_media media l in
        (tmpChannel,
         if negb added
         then Log LEVEL_DEBUG "%s - Counld not add media entry as an entry with the same gnenerated unique ID already exists" l
         else l) in
    Returns (l, mkLocals first true false epgTimeShift catchupCorrectionSecs
                         currentChannelGroupIdList false xeevCatchup
                         (Channel_Reset tmpChannel) (MediaEntry_Reset tmpMediaEntry))
  else Returns (l, v).

(** One turn of the loop of [LoadPlayList], for the line that [getline]
    read. *)
Definition process_line (st : Loader * Locals) (line : str)
  : outcome (Loader * Locals) :=
  let '(l, v) := st in
  let line := TrimRightChars line trim_right_chars in
  let line := TrimLeftChars line trim_left_chars in
  let l := Log LEVEL_DEBUG "%s - M3U line read: '%s'" l in
  if empty line then Returns (l, v)
  else if isFirstLine v then
    let v := mkLocals false (isRealTime v) (isMediaEntry v) (epgTimeShift v)
                      (catchupCorrectionSecs_ v) (currentChannelGroupIdList v)
                      (channelHadGroups v) (xeevCatchup v) (tmpChannel v)
                      (tmpMediaEntry v) in
    let line := if str_eqb (Left line 3) BOM then skipn 3 line else line in
    if StartsWith line M3U_START_MARKER then read_header line l v
    else
      let l := Log LEVEL_ERROR "%s - URL '%s' missing %s descriptor on line 1, attempting to parse it anyway." l in
      dispatch line l v
  else dispatch line l v.

Fixpoint process_lines (lines : list str) (st : Loader * Locals)
  : outcome (Loader * Locals) :=
  match lines with
  | [] => Returns st
  | line :: rest => st <- process_line st line ;; process_lines rest st
  end.

(** [PlaylistLoader::LoadPlayList]: the value it returns and the loader
    afterwards. The time it measures is only logged and is left out. *)
Definition LoadPlayList (l : Loader) : outcome (bool * Loader) :=
  let l := Log LEVEL_DEBUG "%s - Playlist Load Start" l in
  if empty (m_m3uLocation l) then
    Returns (false,
             Log LEVEL_ERROR "%s - Playlist file path is not configured. Channels not loaded." l)
  else
    (* Cache is only allowed if refresh mode is disabled *)
    let useM3UCache :=
      if negb (RefreshMode_eqb (GetM3URefreshMode (settings l)) REFRESH_DISABLED)
      then false else UseM3UCache (settings l) in
    match GetCachedFileContents M3U_CACHE_FILENAME (m_m3uLocation l) useM3UCache with
    | None =>
        Returns (false,
                 Log LEVEL_ERROR "%s - Unable to load playlist cache file '%s':  file is missing or empty." l)
    | Some playlistContent =>
        let v := mkLocals true true false 0%Z (GetCatchupCorrectionSecs (settings l))
                          [] false false new_Channel new_MediaEntry in
        '(l, v) <- process_lines (getlines LF playlistContent) (l, v) ;;
        let l := Log LEVEL_INFO "%s Playlist Loaded - %d (ms)" l in
        let l :=
          if (GetChannelsAmount (m_channels l) =? 0)%Z && (GetNumMedia (m_media l) =? 0)%Z
          then Log LEVEL_ERROR "%s - Unable to load channels or media from file '%s'" l
               (* We no longer return false as this is just an empty M3U *)
          else l in
        let l := Log LEVEL_INFO "%s - Loaded %d channels." l in
        let l := Log LEVEL_INFO "%s - Loaded %d channel groups." l in
        let l := Log LEVEL_INFO "%s - Loaded %d providers." l in
        let l := Log LEVEL_INFO "%s - Loaded %d media items." l in
        Returns (true, l)
    end.

(** ** EPG-tag playability *)

(** [Channels::GetChannel(uniqueChannelId, myChannel)]: the channel it
    copies into [myChannel] when it returns true. *)
Variable Channels_GetChannel : Channels -> Z -> option Channel.

(** [CatchupController::GetEPGEntry(channel, startTime)] *)
Variable CatchupController : Type.
Variable GetEPGEntry : CatchupController -> Channel -> Z -> option EpgEntry.

(** [Channel::IsCatchupSupported] (Channel.cpp is not under src/). *)
Variable IsCatchupSupported : Settings -> Channel -> bool.

(** Modelled from the spec: [Channel::IgnoreCatchupDays] and
    [Channel::GetCatchupDaysInSeconds] (Channel.h is not under src/), section
    4.6 item 3: the day count equals the sentinel; the day count times
    86400. *)
Definition IgnoreCatchupDays (channel : Channel) : bool :=
  (catchupDays channel =? IGNORE_CATCHUP_DAYS)%Z.

Definition GetCatchupDaysInSeconds (channel : Channel) : Z :=
  (catchupDays channel * 86400)%Z.

(** [PVRIptvData::GetChannel(unsigned int, Channel&)] *)
Definition GetChannel (channels : Channels) (uniqueChannelId : Z) (myChannel : Channel)
  : bool * Channel :=
  match Channels_GetChannel channels uniqueChannelId with
  | Some c => (true, c)
  | None => (false, myChannel)
  end.

(** What a call consulted outside the settings: the clock, the channel
    store, the EPG. *)
Inductive Lookup : Type :=
| ReadClock
| LookedUpChannel (uniqueChannelId : Z)
| LookedUpEPGEntry (channel : Channel) (startTime : Z).

(** [PVRIptvData::IsEPGTagPlayable]: the error code, [bIsPlayable] after the
    call ([bIsPlayable] is the caller's variable as it was before), and the
    lookups made, in order. [now] is what [std::time] gives. *)
Definition IsEPGTagPlayable (settings : Settings) (channels : Channels)
  (controller : CatchupController) (now : Z) (tag : PVREPGTag) (bIsPlayable : bool)
  : PVR_ERROR * bool * list Lookup :=
  if negb (IsCatchupEnabled settings) then (PVR_ERROR_NOT_IMPLEMENTED, bIsPlayable, [])
  else
    let channel := new_Channel in
    (* Get the channel and set the current tag on it if found *)
    let uniqueChannelId := (wrap32 (GetUniqueChannelId tag) mod 2 ^ 32)%Z in
    let '(found, channel) := GetChannel channels uniqueChannelId channel in
    let bIsPlayable :=
      found && IsCatchupEnabled settings && IsCatchupSupported settings channel in
    if IgnoreCatchupDays channel then
      (* any tag can be played but only if it has a catchup ID *)
      let hasCatchupId := false in
      let epgEntry := GetEPGEntry controller channel (GetStartTime tag) in
      let hasCatchupId :=
        match epgEntry with
        | Some epgEntry => negb (empty (GetCatchupId epgEntry))
        | None => hasCatchupId
        end in
      (PVR_ERROR_NO_ERROR, bIsPlayable && hasCatchupId,
       [ReadClock; LookedUpChannel uniqueChannelId;
        LookedUpEPGEntry channel (GetStartTime tag)])
    else
      (PVR_ERROR_NO_ERROR,
       bIsPlayable &&
       (GetStartTime tag <? now)%Z &&
       (wrap64 (now - wrap64 (GetCatchupDaysInSeconds channel)) <=? GetStartTime tag)%Z &&
       (negb (CatchupOnlyOnFinishedProgrammes settings) || (GetEndTime tag <? now)%Z),
       [ReadClock; LookedUpChannel uniqueChannelId]).

(** ** Reloading *)

(** [Clear], [ChannelsLoadFailed] and [ChannelGroupsLoadFailed] of the
    stores (not under src/). Clearing the provider registry empties it. *)
Variable Channels_Clear : Channels -> Channels.
Variable ChannelGroups_Clear : ChannelGroups -> ChannelGroups.
Variable Media_Clear : Media -> Media.
Variable ChannelsLoadFailed : Channels -> Channels.
Variable ChannelGroupsLoadFailed : ChannelGroups -> ChannelGroups.

(** The updates a reload asks of the host client ([m_client]). *)
Inductive ClientCall : Type :=
| TriggerChannelUpdate
| TriggerChannelGroupsUpdate
| TriggerProvidersUpdate
| TriggerRecordingUpdate.

Definition set_m3uLocation (v : str) (l : Loader) : Loader :=
  let (s, _, logo, hdr, chs, grps, provs, med, lg) := l in
  mkLoader s v logo hdr chs grps provs med lg.

Definition set_logoLocation (v : str) (l : Loader) : Loader :=
  let (s, loc, _, hdr, chs, grps, provs, med, lg) := l in
  mkLoader s loc v hdr chs grps provs med lg.

(** [PlaylistLoader::Init] *)
Definition Init (l : Loader) : bool * Loader :=
  let l := set_m3uLocation (GetM3ULocation (settings l)) l in
  let l := set_logoLocation (GetLogoLocation (settings l)) l in
  (true, l).

(** [PlaylistLoader::ReloadPlayList]: the loader afterwards and the calls
    made to the client, in order. *)
Definition ReloadPlayList (l : Loader) : outcome (Loader * list ClientCall) :=
  let l := set_m3uLocation (GetM3ULocation (settings l)) l in
  let l := set_channels (Channels_Clear (m_channels l)) l in
  let l := set_channelGroups (ChannelGroups_Clear (m_channelGroups l)) l in
  let l := set_providers [] l in
  let l := set_media (Media_Clear (m_media l)) l in
  '(loaded, l) <- LoadPlayList l ;;
  if loaded then
    Returns (l, [TriggerChannelUpdate; TriggerChannelGroupsUpdate;
                 TriggerProvidersUpdate; TriggerRecordingUpdate])
  else
    let l := set_channels (ChannelsLoadFailed (m_channels l)) l in
    let l := set_channelGroups (ChannelGroupsLoadFailed (m_channelGroups l)) l in
    Returns (l, []).

(** ** The refresh loop *)

(** [Settings::GetM3URefreshIntervalMins] and [Settings::GetM3URefreshHour],
    both [int]. *)
Variable GetM3URefreshIntervalMins : Settings -> Z.
Variable GetM3URefreshHour : Settings -> Z.

(** Conversion to [unsigned int]. *)
Definition to_unsigned (z : Z) : Z := (z mod 2 ^ 32)%Z.

(** The variables of [PVRIptvData::Process] that live across the turns of
    its loop, with the member [m_reloadChannelsGroupsAndEPG]. *)
Record ProcessVars : Type := mkProcessVars {
  refreshTimer : Z;
  lastRefreshTimeSeconds : Z;
  lastRefreshHour : Z;
  m_reloadChannelsGroupsAndEPG : bool
}.

(** The variables before the first turn: [now] is what [std::time] gives. *)
Definition Process_start (settings : Settings) (now : Z) (reload : bool) : ProcessVars :=
  mkProcessVars 0 now (GetM3URefreshHour settings) reload.

(** One turn of the loop of [PVRIptvData::Process], after the sleep:
    [currentRefreshTimeSeconds] is what [std::time] gives, [tm_hour] the hour
    that [SafeLocaltime] gives for it, [running] the value of [m_running]
    under the lock. The result has the variables after the turn and whether
    the turn reloaded (settings, playlist and EPG). *)
Definition Process_turn (settings : Settings) (running : bool)
  (currentRefreshTimeSeconds tm_hour : Z) (v : ProcessVars) : ProcessVars * bool :=
  let refreshTimer :=
    to_unsigned
      (refreshTimer v
       + to_unsigned (wrap64 (currentRefreshTimeSeconds - lastRefreshTimeSeconds v)))%Z in
  let lastRefreshTimeSeconds := currentRefreshTimeSeconds in
  let reload := m_reloadChannelsGroupsAndEPG v in
  let reload :=
    if RefreshMode_eqb (GetM3URefreshMode settings) REPEATED_REFRESH &&
       (to_unsigned (wrap32 (GetM3URefreshIntervalMins settings * 60)) <=? refreshTimer)%Z
    then true else reload in
  let reload :=
    if RefreshMode_eqb (GetM3URefreshMode settings) ONCE_PER_DAY &&
       negb (lastRefreshHour v =? tm_hour)%Z &&
       (tm_hour =? GetM3URefreshHour settings)%Z
    then true else reload in
  if running && reload then
    (mkProcessVars 0 lastRefreshTimeSeconds tm_hour false, true)
  else
    (mkProcessVars refreshTimer lastRefreshTimeSeconds tm_hour reload, false).



(** [PVRIptvData::SetSetting], on [m_reloadChannelsGroupsAndEPG]. *)
Definition SetSetting (v : ProcessVars) : ProcessVars :=
  if negb (m_reloadChannelsGroupsAndEPG v)
  then mkProcessVars (refreshTimer v) (lastRefreshTimeSeconds v) (lastRefreshHour v) true
  else v.

(** ** Vocabulary of the properties *)

(** What a call returns, [d] when it throws. *)
Definition result_or {A : Type} (d : A) (o : outcome A) : A :=
  match o with
  | Returns a => a
  | Throws _ => d
  end.

(** The value [ReadMarkerValue] returns for a marker ([ReadMarkerValue_returns]
    below: it always returns). *)
Definition read (line markerName : str) : str :=
  result_or [] (ReadMarkerValue line markerName).

(** The comma the specification describes: the last comma of the line,
    unless the text after the last double quote, trimmed, begins with a
    comma; then the first comma after that quote. *)
Definition chosen_comma (line : str) : option nat :=
  match rfind_char dq line with
  | Some lastQuote =>
      let tail := skipn (lastQuote + 1) line in
      if StartsWith (Trim tail) (lit ",") then
        option_map (fun k => lastQuote + 1 + k) (find_char ","%char tail)
      else rfind_char ","%char line
  | None => rfind_char ","%char line
  end.

(** A line is malformed when it has no colon, or no comma, or when its
    chosen comma does not come after its first colon. *)
Definition malformed (line : str) : Prop :=
  ~ In ":"%char line \/
  ~ In ","%char line \/
  exists colon comma,
    find_char ":"%char line = Some colon /\
    chosen_comma line = Some comma /\
    comma <= colon.

(** Two channels that differ at most in their numbers. *)
Definition same_but_number (a b : Channel) : Prop :=
  channelName a = channelName b /\ tvgId a = tvgId b /\ tvgName a = tvgName b /\
  tvgShift a = tvgShift b /\ radio a = radio b /\ iconPath a = iconPath b /\
  catchupCorrectionSecs a = catchupCorrectionSecs b /\
  hasCatchup a = hasCatchup b /\ catchupMode a = catchupMode b /\
  catchupDays a = catchupDays b /\ catchupSource a = catchupSource b /\
  isCatchupTSStream a = isCatchupTSStream b /\
  providerUniqueId a = providerUniqueId b /\ streamURL a = streamURL b /\
  properties a = properties b.

(** The attribute values that the blocks work with after the fallbacks. *)
Definition effective_catchup (hdr : M3uHeaderStrings) (infoLine : str) : str :=
  let strCatchup := read infoLine CATCHUP in
  let strCatchup :=
    if empty strCatchup then read infoLine CATCHUP_TYPE else strCatchup in
  if empty strCatchup && negb (empty (m_catchup hdr)) then m_catchup hdr
  else strCatchup.

Definition effective_tvg_id (infoLine : str) : str :=
  let strTvgId := read infoLine TVG_INFO_ID_MARKER in
  let strTvgId :=
    if empty strTvgId then read infoLine TVG_INFO_ID_MARKER_UC else strTvgId in
  if empty strTvgId then strTvgId ++ sprintf_d (atoi infoLine) else strTvgId.

Definition effective_channel_number (infoLine : str) : str :=
  let strChnlNo := read infoLine TVG_INFO_CHNO_MARKER in
  if empty strChnlNo then read infoLine CHANNEL_NUMBER_MARKER else strChnlNo.

(** The first colon is at [colon], the chosen comma at [comma], after it. *)
Definition well_formed (line : str) (colon comma : nat) : Prop :=
  find_char ":"%char line = Some colon /\
  chosen_comma line = Some comma /\
  colon < comma.

(** The attribute section: the text between the first colon and the chosen
    comma. The display name: the text after the chosen comma, trimmed and
    converted to UTF-8. *)
Definition info_line (line : str) (colon comma : nat) : str :=
  firstn (comma - colon - 1) (skipn (colon + 1) line).

Definition display_name (line : str) (comma : nat) : str :=
  UnknownToUTF8 (Trim (skipn (comma + 1) line)).

(** The mapping of the specification, from token to mode; a token is looked
    up without regard to case. *)
Definition token_modes : list (str * CatchupMode) :=
  [ (lit "default", DEFAULT); (lit "append", APPEND); (lit "shift", SHIFT);
    (lit "flussonic", FLUSSONIC); (lit "flussonic-hls", FLUSSONIC);
    (lit "flussonic-ts", FLUSSONIC); (lit "fs", FLUSSONIC);
    (lit "xc", XTREAM_CODES); (lit "vod", VOD) ].

Fixpoint lookup_token (token : str) (table : list (str * CatchupMode))
  : option CatchupMode :=
  match table with
  | [] => None
  | (name, mode) :: rest =>
      if EqualsNoCase token name then Some mode else lookup_token token rest
  end.

Definition mode_of_token (token : str) : option CatchupMode :=
  lookup_token token token_modes.

Definition is_ts_token (token : str) : bool :=
  EqualsNoCase token (lit "flussonic-ts") || EqualsNoCase token (lit "fs").

(** One and a half, as a double. *)
Definition one_and_a_half : double := ddiv (double_of_Z 3) (double_of_Z 2).

(** The call reports the tag playable: it returns [PVR_ERROR_NO_ERROR] and
    has written true to the flag. *)
Definition reports_playable (r : PVR_ERROR * bool * list Lookup) : bool :=
  match r with
  | (PVR_ERROR_NO_ERROR, true, _) => true
  | _ => false
  end.

(** The day window of the specification. *)
Definition in_day_window (settings : Settings) (channel : Channel) (now : Z)
  (tag : PVREPGTag) : Prop :=
  (GetStartTime tag < now)%Z /\
  (now - catchupDays channel * 86400 <= GetStartTime tag)%Z /\
  (CatchupOnlyOnFinishedProgrammes settings = true -> (GetEndTime tag < now)%Z).

(** The EPG entry found for the start of the tag has a catchup id. *)
Definition has_catchup_id (controller : CatchupController) (channel : Channel)
  (tag : PVREPGTag) : Prop :=
  exists entry,
    GetEPGEntry controller channel (GetStartTime tag) = Some entry /\
    GetCatchupId entry <> [].

(** The values are those of their C++ types: an [unsigned int] channel
    identifier, an [int] day count; and the clock is far from the ends of
    [time_t]. *)
Definition typed (channels : Channels) (now : Z) (tag : PVREPGTag) : Prop :=
  (0 <= GetUniqueChannelId tag < 2 ^ 32)%Z /\
  (- 2 ^ 62 <= now <= 2 ^ 62)%Z /\
  (forall id channel,
      Channels_GetChannel channels id = Some channel ->
      (INT_MIN <= catchupDays channel <= INT_MAX)%Z).

(** The tag's channel exists and supports catchup: the store has a channel
    for the tag's identifier and, as line 343 asks, catchup is enabled in the
    settings and the channel's own [IsCatchupSupported] holds. *)
Definition supported_channel (settings : Settings) (channels : Channels)
  (tag : PVREPGTag) (channel : Channel) : Prop :=
  Channels_GetChannel channels (GetUniqueChannelId tag) = Some channel /\
  IsCatchupEnabled settings = true /\
  IsCatchupSupported settings channel = true.

(** The playlist text is one line, [raw], with or without the line feed that
    ends it. *)
Definition single_line (content raw : str) : Prop :=
  ~ In LF raw /\ raw <> [] /\ (content = raw \/ content = raw ++ [LF]).

(** The line as the loop sees it: trimmed, and without a byte order mark. *)
Definition normalised (raw : str) : str :=
  let line := TrimLeftChars (TrimRightChars raw trim_right_chars) trim_left_chars in
  if str_eqb (Left line 3) BOM then skipn 3 line else line.

(** The EPG address of a header line: [x-tvg-url], else [url-tvg]. *)
Definition header_tvg_url (line : str) : str :=
  if empty (read line TVG_URL_MARKER) then read line TVG_URL_OTHER_MARKER
  else read line TVG_URL_MARKER.

(** The catchup fields of a channel, and the four catchup blocks of
    [ParseIntoChannel] in their order. *)
Definition catchup_view (c : Channel) : bool * CatchupMode * bool * Z :=
  (hasCatchup c, catchupMode c, isCatchupTSStream c, catchupDays c).

Definition catchup_blocks (settings : Settings) (hdr : M3uHeaderStrings)
  (xeevCatchup : bool) (name strCatchup strCatchupDays : str) (days : Z)
  (c : Channel) : Channel :=
  set_siptv_timeshift days
    (set_catchup_days settings hdr strCatchupDays days
       (set_xeev_catchup xeevCatchup name
          (set_catchup_mode strCatchup c))).

(** The day count of the siptv attributes of an attribute section. *)
Definition siptv_days_of (infoLine : str) : Z :=
  siptv_timeshift_days (read infoLine CATCHUP_SIPTV) (read infoLine TVG_INFO_REC).

(** A channel has catchup exactly when its mode is not [DISABLED]. *)
Definition catchup_consistent (c : Channel) : Prop :=
  hasCatchup c = true <-> catchupMode c <> DISABLED.

(** The xeev convention applies to a channel name: the header had
    [catchup="xc"] and the name begins with [* ] or [[+] ]. *)
Definition xeev_applies (xeevCatchup : bool) (name : str) : bool :=
  xeevCatchup && (StartsWith name (lit "* ") || StartsWith name (lit "[+] ")).

(** Two loaders that differ at most in the log; at most in the log and the
    group store. *)
Definition same_but_log (a b : Loader) : Prop :=
  settings a = settings b /\ m_m3uLocation a = m_m3uLocation b /\
  m_logoLocation a = m_logoLocation b /\
  m_m3uHeaderStrings a = m_m3uHeaderStrings b /\
  m_channels a = m_channels b /\ m_channelGroups a = m_channelGroups b /\
  m_providers a = m_providers b /\ m_media a = m_media b.

Definition same_but_groups (a b : Loader) : Prop :=
  settings a = settings b /\ m_m3uLocation a = m_m3uLocation b /\
  m_logoLocation a = m_logoLocation b /\
  m_m3uHeaderStrings a = m_m3uHeaderStrings b /\
  m_channels a = m_channels b /\ m_providers a = m_providers b /\
  m_media a = m_media b /\ logged a = logged b.

(** The key that [#KODIPROP:] stores for a key of the playlist. *)
Definition kodiprop_key (key : str) : str :=
  if str_eqb (ToLower key) (lit "inputstreamaddon") ||
     str_eqb (ToLower key) (lit "inputstreamclass")
  then PVR_STREAM_PROPERTY_INPUTSTREAM else ToLower key.

(** A line as the loop of [LoadPlayList] sees it after trimming; a line that
    is blank or begins with [#]: a comment or a directive, not an address. *)
Definition trimmed (raw : str) : str :=
  TrimLeftChars (TrimRightChars raw trim_right_chars) trim_left_chars.

Definition no_address (raw : str) : Prop :=
  trimmed raw = [] \/ exists rest, trimmed raw = "#"%char :: rest.

(** What [LoadPlayList] fetches for a loader. *)
Definition fetched (l : Loader) : option str :=
  GetCachedFileContents M3U_CACHE_FILENAME (m_m3uLocation l)
    (if negb (RefreshMode_eqb (GetM3URefreshMode (settings l)) REFRESH_DISABLED)
     then false else UseM3UCache (settings l)).

(** The four updates a successful reload asks for. *)
Definition all_updates : list ClientCall :=
  [TriggerChannelUpdate; TriggerChannelGroupsUpdate; TriggerProvidersUpdate;
   TriggerRecordingUpdate].

(** An address line: not blank, and its first character is not [#]. *)
Definition address (line : str) : Prop :=
  exists c rest, line = c :: rest /\ c <> "#"%char.

(** The test of line 184: the entry becomes a channel, not a media entry. *)
Definition becomes_channel (settings : Settings) (isRealTime isMediaEntry : bool) : bool :=
  (isRealTime || negb (IsMediaEnabled settings) || negb (ShowVodAsRecordings settings))
  && negb isMediaEntry.

(** The test of lines 142-144 on an [#EXTINF] line. *)
Definition mentions_media (line : str) : bool :=
  found (find_str MEDIA line) || found (find_str MEDIA_DIR line) ||
  found (find_str MEDIA_SIZE line).

(** The channel store and the group store that [AddChannel] leaves. *)
Definition stores_after_AddChannel (settings : Settings) (channel : Channel)
  (ids : list Z) (groups : ChannelGroups) (had : bool) (channels : Channels)
  : Channels * ChannelGroups :=
  let '(_, channels, groups) := AddChannel settings channel ids groups had channels in
  (channels, groups).

(** The tag's channel identifier as [IsEPGTagPlayable] passes it on: through
    [int] to [unsigned int]. *)
Definition converted_id (tag : PVREPGTag) : Z :=
  (wrap32 (GetUniqueChannelId tag) mod 2 ^ 32)%Z.

(** The local variables of [LoadPlayList] before the first line. *)
Definition start_locals (l : Loader) : Locals :=
  mkLocals true true false 0%Z (GetCatchupCorrectionSecs (settings l))
           [] false false new_Channel new_MediaEntry.

(** The line that declares a playlist of type VOD. *)
Definition vod_line : str := PLAYLIST_TYPE_MARKER ++ lit "VOD".

(** What a header line leaves for the lines after it: the header strings,
    the EPG shift, the catchup correction and the xeev flag. *)
Definition header_strings (line : str) : M3uHeaderStrings :=
  mkM3uHeaderStrings
    (if empty (read line CATCHUP) then read line CATCHUP_TYPE else read line CATCHUP)
    (read line CATCHUP_DAYS) (read line CATCHUP_SOURCE).

Definition header_shift (line : str) : Z :=
  hours_to_secs (atof (read line TVG_INFO_SHIFT_MARKER)).

Definition header_correction (line : str) (default : Z) : Z :=
  if empty (read line CATCHUP_CORRECTION) then default
  else hours_to_secs (atof (read line CATCHUP_CORRECTION)).

Definition header_xeev (line : str) : bool :=
  str_eqb (read line CATCHUP) (lit "xc").

(** * Properties *)

(** *** Facts about the string primitives *)

Lemma StartsWith_app (p rest : str) : StartsWith (p ++ rest) p = true.
Proof.
  induction p as [|c p IH]; simpl; [reflexivity|].
  now rewrite Ascii.eqb_refl, IH.
Qed.

Lemma StartsWith_inv (s p : str) :
  StartsWith s p = true -> exists rest, s = p ++ rest.
Proof.
  revert s; induction p as [|c p IH]; intros s H.
  - now exists s.
  - destruct s as [|d s]; simpl in H; [discriminate|].
    apply andb_true_iff in H as [Hd Hs].
    apply Ascii.eqb_eq in Hd; subst d.
    destruct (IH _ Hs) as [rest ->]. now exists rest.
Qed.

Lemma find_str_Some (needle s : str) (i : nat) :
  find_str needle s = Some i ->
  exists rest, first_occurrence needle s (firstn i s) rest /\ length (firstn i s) = i.
Proof.
  revert i; induction s as [|x t IH]; intros i H.
  - simpl in H. destruct (StartsWith [] needle) eqn:E; [|discriminate].
    injection H as <-. apply StartsWith_inv in E as [rest E].
    exists rest. split; [split|reflexivity]; simpl; [assumption|intros; lia].
  - cbn [find_str] in H. destruct (StartsWith (x :: t) needle) eqn:E.
    + injection H as <-. apply StartsWith_inv in E as [rest E].
      exists rest. split; [split|reflexivity]; simpl; [assumption|intros; lia].
    + destruct (find_str needle t) as [j|] eqn:Ej; [|discriminate].
      injection H as <-. destruct (IH j eq_refl) as [rest [[Hl Hmin] Hlen]].
      exists rest. split; [split|].
      * simpl. now rewrite <- Hl.
      * intros pre' rest' Hp. destruct pre' as [|y pre'].
        { simpl in Hp. rewrite Hp, StartsWith_app in E. discriminate. }
        simpl in Hp. injection Hp as _ Hp. apply Hmin in Hp. simpl. lia.
      * simpl. now rewrite Hlen.
Qed.

Lemma find_str_None (needle s : str) :
  find_str needle s = None -> absent needle s.
Proof.
  induction s as [|x t IH]; intros H pre rest Hl.
  - simpl in H. destruct (StartsWith [] needle) eqn:E; [discriminate|].
    destruct pre; [|discriminate]. simpl in Hl.
    rewrite Hl, StartsWith_app in E. discriminate.
  - cbn [find_str] in H. destruct (StartsWith (x :: t) needle) eqn:E; [discriminate|].
    destruct (find_str needle t) eqn:Ej; [discriminate|].
    destruct pre as [|y pre].
    + simpl in Hl. rewrite Hl, StartsWith_app in E. discriminate.
    + simpl in Hl. injection Hl as _ Hl. exact (IH eq_refl _ _ Hl).
Qed.

Lemma find_char_up_to (c : ascii) (s : str) :
  firstn (match find_char c s with Some e => e | None => length s end) s = up_to c s.
Proof.
  induction s as [|x t IH]; simpl; [reflexivity|].
  destruct (Ascii.eqb x c); [reflexivity|].
  destruct (find_char c t); simpl in *; now rewrite IH.
Qed.

Lemma value_from (c : ascii) (line : str) (pos : nat) :
  pos <= length line ->
  substr line pos
    (Some (match find_char_from c line pos with
           | Some e => e
           | None => length line
           end - pos))
  = Returns (up_to c (skipn pos line)).
Proof.
  intros Hpos. unfold substr, find_char_from.
  apply Nat.leb_le in Hpos as Hb. rewrite Hb. f_equal.
  rewrite <- find_char_up_to. f_equal.
  destruct (find_char c (skipn pos line)); simpl.
  - lia.
  - rewrite length_skipn. lia.
Qed.

Lemma skipn_past (pre marker rest : str) :
  skipn (length pre + length marker) (pre ++ marker ++ rest) = rest.
Proof.
  rewrite app_assoc, <- length_app.
  rewrite skipn_app, Nat.sub_diag, skipn_all. reflexivity.
Qed.

Lemma nth_past (pre marker : str) (c : ascii) (r : str) :
  nth (length pre + length marker) (pre ++ marker ++ c :: r) zero = c.
Proof.
  rewrite app_assoc, <- length_app.
  rewrite app_nth2, Nat.sub_diag by lia. reflexivity.
Qed.

(** The marker reader on a line that is cut at the first occurrence of the
    marker. *)
Lemma ReadMarkerValue_at (pre marker rest : str) :
  find_str marker (pre ++ marker ++ rest) = Some (length pre) ->
  ReadMarkerValue (pre ++ marker ++ rest) marker = Returns (marker_value rest).
Proof.
  intros Hfind. unfold ReadMarkerValue. rewrite Hfind.
  assert (Hlen : length (pre ++ marker ++ rest)
                 = length pre + length marker + length rest)
    by (rewrite !length_app; lia).
  destruct rest as [|c r].
  - replace (length pre + length marker <? length (pre ++ marker ++ []))
      with false; [reflexivity|].
    symmetry. apply Nat.ltb_ge. simpl in Hlen. lia.
  - replace (length pre + length marker <? length (pre ++ marker ++ c :: r))
      with true by (symmetry; apply Nat.ltb_lt; simpl in Hlen; lia).
    rewrite nth_past. unfold marker_value.
    destruct (Ascii.eqb c dq) eqn:Ec.
    + rewrite value_from by (simpl in Hlen; lia).
      replace (S (length pre + length marker))
        with (length pre + length (marker ++ [c]))
        by (rewrite length_app; simpl; lia).
      replace (pre ++ marker ++ c :: r) with (pre ++ (marker ++ [c]) ++ r)
        by (rewrite <- (app_assoc marker); reflexivity).
      now rewrite skipn_past.
    + rewrite value_from by (simpl in Hlen; lia).
      now rewrite skipn_past.
Qed.

(** The two cases of the marker reader: the marker is absent, or the line is
    cut at its first occurrence. *)
Lemma ReadMarkerValue_cases (line markerName : str) :
  (absent markerName line /\ ReadMarkerValue line markerName = Returns [])
  \/
  (exists pre rest,
      first_occurrence markerName line pre rest /\
      ReadMarkerValue line markerName =
        Returns match rest with
                | [] => []
                | c :: value =>
                    if Ascii.eqb c dq then up_to dq value else up_to " "%char rest
                end).
Proof.
  destruct (find_str markerName line) as [i|] eqn:Hfind.
  - right. destruct (find_str_Some _ _ Hfind) as [rest [Hocc Hlen]].
    exists (firstn i line), rest. split; [exact Hocc|].
    destruct Hocc as [Hline _].
    rewrite Hline at 1. apply ReadMarkerValue_at.
    rewrite <- Hline, Hlen. exact Hfind.
  - left. split; [now apply find_str_None|].
    unfold ReadMarkerValue. now rewrite Hfind.
Qed.

(** C6. For every line and marker name, [ReadMarkerValue] returns the empty
    string when the marker does not occur in the line; otherwise it cuts the
    line at the first occurrence of the marker and returns the value of what
    follows it: nothing when nothing follows; when a double quote follows,
    the text after that quote up to the next double quote, or to the end of
    the line when there is none; otherwise the text up to the next space (or
    the end of the line). *)
Theorem ReadMarkerValue_spec (line markerName : str) :
  (absent markerName line /\ ReadMarkerValue line markerName = Returns [])
  \/
  (exists pre rest,
      first_occurrence markerName line pre rest /\
      ReadMarkerValue line markerName =
        Returns match rest with
                | [] => []
                | c :: value =>
                    if Ascii.eqb c dq then up_to dq value else up_to " "%char rest
                end).
Proof. exact (ReadMarkerValue_cases line markerName). Qed.

Lemma ReadMarkerValue_returns (line markerName : str) :
  ReadMarkerValue line markerName = Returns (read line markerName).
Proof.
  unfold read.
  destruct (ReadMarkerValue_cases line markerName) as [[_ H]|[pre [rest [_ H]]]];
    now rewrite H.
Qed.

Lemma bind_if_Returns {A B : Type} (b : bool) (x y : A) (k : A -> outcome B) :
  bind (if b then Returns x else Returns y) k = k (if b then x else y).
Proof. now destruct b. Qed.

Lemma find_char_lt (c : ascii) (s : str) (i : nat) :
  find_char c s = Some i -> i < length s.
Proof.
  revert i; induction s as [|x t IH]; intros i H; simpl in H; [discriminate|].
  destruct (Ascii.eqb x c).
  - injection H as <-. simpl. lia.
  - destruct (find_char c t) as [j|]; [|discriminate].
    injection H as <-. specialize (IH j eq_refl). simpl. lia.
Qed.

Lemma rfind_char_lt (c : ascii) (s : str) (i : nat) :
  rfind_char c s = Some i -> i < length s.
Proof.
  revert i; induction s as [|x t IH]; intros i H; simpl in H; [discriminate|].
  destruct (rfind_char c t) as [j|].
  - injection H as <-. specialize (IH j eq_refl). simpl. lia.
  - destruct (Ascii.eqb x c); [|discriminate]. injection H as <-. simpl. lia.
Qed.

Lemma substr_in_range (s : str) (pos : nat) (n : option nat) :
  pos <= length s ->
  substr s pos n =
    Returns match n with
            | Some k => firstn k (skipn pos s)
            | None => skipn pos s
            end.
Proof.
  intros H. unfold substr. apply Nat.leb_le in H. now rewrite H.
Qed.

(** *** The comma that starts the name *)

Lemma drop_while_suffix (f : ascii -> bool) (s : str) :
  exists pre, s = pre ++ drop_while f s /\ forallb f pre = true.
Proof.
  induction s as [|c t [pre [IH Hpre]]]; simpl.
  - now exists [].
  - destruct (f c) eqn:E.
    + exists (c :: pre). simpl. rewrite E, Hpre. split; [now f_equal|reflexivity].
    + now exists [].
Qed.

Lemma TrimRight_prefix (s : str) : exists suf, s = TrimRight s ++ suf.
Proof.
  unfold TrimRight. destruct (drop_while_suffix isspace (rev s)) as [pre [H _]].
  exists (rev pre). rewrite <- rev_app_distr, <- H. symmetry. apply rev_involutive.
Qed.

Lemma find_char_app (c : ascii) (pre s : str) :
  forallb (fun x => negb (Ascii.eqb x c)) pre = true ->
  find_char c (pre ++ s) = option_map (Nat.add (length pre)) (find_char c s).
Proof.
  induction pre as [|x pre IH]; simpl; intros H.
  - now destruct (find_char c s).
  - apply andb_true_iff in H as [Hx Hpre]. apply negb_true_iff in Hx.
    rewrite Hx, (IH Hpre). now destruct (find_char c s).
Qed.

Lemma find_char_In (c : ascii) (s : str) : In c s -> find_char c s <> None.
Proof.
  induction s as [|x t IH]; simpl; [intros []|].
  intros [->|H].
  - now rewrite Ascii.eqb_refl.
  - destruct (Ascii.eqb x c); [discriminate|].
    specialize (IH H). now destruct (find_char c t).
Qed.

(** A tail whose trimmed form begins with a comma has a comma. *)
Lemma trimmed_comma_found (tail : str) :
  StartsWith (Trim tail) (lit ",") = true -> find_char ","%char tail <> None.
Proof.
  intros H. apply StartsWith_inv in H as [rest H].
  apply find_char_In. unfold Trim in H.
  destruct (TrimRight_prefix (TrimLeft tail)) as [suf Hsuf].
  destruct (drop_while_suffix isspace tail) as [pre [Hpre _]].
  fold (TrimLeft tail) in Hpre.
  rewrite Hpre, Hsuf, H. apply in_or_app. right. simpl. now left.
Qed.

Lemma choose_comma_returns (line : str) :
  choose_comma line = Returns (chosen_comma line).
Proof.
  unfold choose_comma, chosen_comma.
  destruct (rfind_char dq line) as [lq|] eqn:Hq; [|reflexivity].
  apply rfind_char_lt in Hq.
  rewrite substr_in_range by lia. cbn [bind].
  destruct (StartsWith (Trim (skipn (lq + 1) line)) (lit ",")) eqn:Hs; [|reflexivity].
  destruct (find_char ","%char (skipn (lq + 1) line)) as [k|] eqn:Hk.
  - apply find_char_lt in Hk as Hlt. rewrite length_skipn in Hlt.
    unfold add_found_plus_1. rewrite substr_in_range by lia. cbn [bind option_map].
    do 2 f_equal. lia.
  - now apply trimmed_comma_found in Hs.
Qed.

Lemma find_char_absent (c : ascii) (s : str) : ~ In c s -> find_char c s = None.
Proof.
  induction s as [|x t IH]; simpl; intros H; [reflexivity|].
  destruct (Ascii.eqb x c) eqn:E.
  - apply Ascii.eqb_eq in E. exfalso. apply H. now left.
  - rewrite IH; [reflexivity|]. intros Hin. apply H. now right.
Qed.

Lemma rfind_char_absent (c : ascii) (s : str) : ~ In c s -> rfind_char c s = None.
Proof.
  induction s as [|x t IH]; simpl; intros H; [reflexivity|].
  rewrite IH by (intros Hin; apply H; now right).
  destruct (Ascii.eqb x c) eqn:E; [|reflexivity].
  apply Ascii.eqb_eq in E. exfalso. apply H. now left.
Qed.

Lemma chosen_comma_absent (line : str) :
  ~ In ","%char line -> chosen_comma line = None.
Proof.
  intros H. unfold chosen_comma. rewrite (rfind_char_absent _ _ H).
  destruct (rfind_char dq line) as [lq|]; [|reflexivity].
  rewrite find_char_absent.
  - now destruct (StartsWith _ _).
  - intros Hin. apply H. rewrite <- (firstn_skipn (lq + 1) line).
    apply in_or_app. now right.
Qed.

(** *** Malformed lines *)

(** C8. On every malformed line (no colon, no comma, or the chosen comma not
    after the first colon) [ParseIntoChannel] returns normally: no exception
    escapes; it returns the empty string, and the scratch channel, the
    scratch media entry and the list of group identifiers are as they were
    given (and so is the provider registry). *)
Theorem ParseIntoChannel_malformed
  (settings : Settings) (hdr : M3uHeaderStrings) (line : str)
  (channel : Channel) (mediaEntry : MediaEntry) (groupIdList : list Z)
  (providers : Providers) (epgTimeShift catchupCorrectionSecs : Z)
  (xeevCatchup : bool) :
  malformed line ->
  ParseIntoChannel settings hdr line channel mediaEntry groupIdList providers
                   epgTimeShift catchupCorrectionSecs xeevCatchup
  = Returns {| groupNamesListString := [];
               p_channel := channel;
               p_mediaEntry := mediaEntry;
               p_groupIdList := groupIdList;
               p_providers := providers |}.
Proof.
  intros H. unfold ParseIntoChannel. rewrite choose_comma_returns. cbn [bind].
  destruct H as [H|[H|[colon [comma [Hc [Hm Hle]]]]]].
  - rewrite (find_char_absent _ _ H). reflexivity.
  - rewrite (chosen_comma_absent _ H). now destruct (find_char ":"%char line).
  - rewrite Hc, Hm. apply Nat.ltb_ge in Hle. now rewrite Hle.
Qed.

(** *** The attribute blocks *)

Lemma number_channel_returns (settings : Settings) (strChnlNo : str) (channel : Channel) :
  exists numbered,
    number_channel settings strChnlNo channel = Returns numbered /\
    same_but_number numbered channel.
Proof.
  unfold number_channel.
  destruct (negb (empty strChnlNo) && negb (NumberChannelsByM3uOrderOnly settings)).
  - destruct (find_char "."%char strChnlNo) as [found|] eqn:Hf.
    + apply find_char_lt in Hf.
      rewrite substr_in_range by lia. cbn [bind].
      rewrite substr_in_range by lia. cbn [bind].
      eexists. split; [reflexivity|]. destruct channel. repeat split.
    + eexists. split; [reflexivity|]. destruct channel. repeat split.
  - eexists. split; [reflexivity|]. repeat split.
Qed.

(** The attribute section never throws, and its result is the blocks applied
    in turn to the numbered channel. *)
Lemma parse_info_line_returns
  (settings : Settings) (hdr : M3uHeaderStrings) (channelName infoLine : str)
  (channel : Channel) (mediaEntry : MediaEntry) (groupIdList : list Z)
  (providers : Providers) (epgTimeShift catchupCorrectionSecs : Z)
  (xeevCatchup : bool) :
  exists numbered,
    same_but_number numbered channel /\
    let days :=
      siptv_timeshift_days (read infoLine CATCHUP_SIPTV) (read infoLine TVG_INFO_REC) in
    let provided :=
      set_provider settings
        (read infoLine PROVIDER) (read infoLine PROVIDER_TYPE)
        (read infoLine PROVIDER_LOGO) (read infoLine PROVIDER_COUNTRIES)
        (read infoLine PROVIDER_LANGUAGES) providers
        (set_siptv_timeshift days
           (set_catchup_days settings hdr (read infoLine CATCHUP_DAYS) days
              (set_xeev_catchup xeevCatchup channelName
                 (set_catchup_mode (effective_catchup hdr infoLine)
                    (set_identity_and_timing settings hdr channelName
                       (effective_tvg_id infoLine)
                       (UnknownToUTF8 (read infoLine TVG_INFO_NAME_MARKER))
                       (UnknownToUTF8 (read infoLine CATCHUP_SOURCE))
                       (read infoLine TVG_INFO_SHIFT_MARKER)
                       (read infoLine RADIO_MARKER)
                       (read infoLine TVG_INFO_LOGO_MARKER)
                       (read infoLine CATCHUP_CORRECTION)
                       epgTimeShift catchupCorrectionSecs numbered))))) in
    parse_info_line settings hdr channelName infoLine channel mediaEntry groupIdList
                    providers epgTimeShift catchupCorrectionSecs xeevCatchup
    = Returns {| groupNamesListString := read infoLine GROUP_NAME_MARKER;
                 p_channel := fst provided;
                 p_mediaEntry :=
                   set_media_fields (read infoLine MEDIA_DIR)
                                    (read infoLine MEDIA_SIZE) mediaEntry;
                 p_groupIdList := groupIdList;
                 p_providers := snd provided |}.
Proof.
  destruct (number_channel_returns settings (effective_channel_number infoLine) channel)
    as [numbered [Hn Hsame]].
  exists numbered. split; [exact Hsame|].
  unfold parse_info_line.
  repeat (rewrite ReadMarkerValue_returns; cbn [bind]).
  repeat (rewrite bind_if_Returns; cbn beta).
  unfold effective_channel_number in Hn. rewrite Hn. cbn [bind].
  unfold effective_catchup, effective_tvg_id. cbv zeta.
  now destruct (set_provider _ _ _ _ _ _ _ _) as [c ps].
Qed.

(** *** What each block leaves alone *)

Ltac split_ifs :=
  repeat match goal with
         | |- context [if ?b then _ else _] => destruct b
         end.

Ltac frame c := intros; cbv beta delta [
    set_identity_and_timing set_catchup_mode set_xeev_catchup set_catchup_days
    set_siptv_timeshift SetIconPathFromTvgLogo] zeta;
  split_ifs; destruct c; reflexivity.
Lemma channelName_set_identity_and_timing settings hdr name id tname src shift rad logo corr epg secs c :
  channelName (set_identity_and_timing settings hdr name id tname src shift rad logo corr epg secs c) = channelName c.
Proof. frame c. Qed.
Lemma hasCatchup_set_identity_and_timing settings hdr name id tname src shift rad logo corr epg secs c :
  hasCatchup (set_identity_and_timing settings hdr name id tname src shift rad logo corr epg secs c) = hasCatchup c.
Proof. frame c. Qed.
Lemma catchupMode_set_identity_and_timing settings hdr name id tname src shift rad logo corr epg secs c :
  catchupMode (set_identity_and_timing settings hdr name id tname src shift rad logo corr epg secs c) = catchupMode c.
Proof. frame c. Qed.
Lemma isCatchupTSStream_set_identity_and_timing settings hdr name id tname src shift rad logo corr epg secs c :
  isCatchupTSStream (set_identity_and_timing settings hdr name id tname src shift rad logo corr epg secs c) = isCatchupTSStream c.
Proof. frame c. Qed.
Lemma catchupDays_set_identity_and_timing settings hdr name id tname src shift rad logo corr epg secs c :
  catchupDays (set_identity_and_timing settings hdr name id tname src shift rad logo corr epg secs c) = catchupDays c.
Proof. frame c. Qed.
Lemma channelName_set_catchup_mode strCatchup c :
  channelName (set_catchup_mode strCatchup c) = channelName c.
Proof. frame c. Qed.
Lemma tvgShift_set_catchup_mode strCatchup c :
  tvgShift (set_catchup_mode strCatchup c) = tvgShift c.
Proof. frame c. Qed.
Lemma catchupDays_set_catchup_mode strCatchup c :
  catchupDays (set_catchup_mode strCatchup c) = catchupDays c.
Proof. frame c. Qed.
Lemma catchupSource_set_catchup_mode strCatchup c :
  catchupSource (set_catchup_mode strCatchup c) = catchupSource c.
Proof. frame c. Qed.
Lemma channelName_set_xeev_catchup xeevCatchup name c :
  channelName (set_xeev_catchup xeevCatchup name c) = channelName c.
Proof. frame c. Qed.
Lemma tvgShift_set_xeev_catchup xeevCatchup name c :
  tvgShift (set_xeev_catchup xeevCatchup name c) = tvgShift c.
Proof. frame c. Qed.
Lemma isCatchupTSStream_set_xeev_catchup xeevCatchup name c :
  isCatchupTSStream (set_xeev_catchup xeevCatchup name c) = isCatchupTSStream c.
Proof. frame c. Qed.
Lemma catchupDays_set_xeev_catchup xeevCatchup name c :
  catchupDays (set_xeev_catchup xeevCatchup name c) = catchupDays c.
Proof. frame c. Qed.
Lemma catchupSource_set_xeev_catchup xeevCatchup name c :
  catchupSource (set_xeev_catchup xeevCatchup name c) = catchupSource c.
Proof. frame c. Qed.
Lemma channelName_set_catchup_days settings hdr strCatchupDays days c :
  channelName (set_catchup_days settings hdr strCatchupDays days c) = channelName c.
Proof. frame c. Qed.
Lemma tvgShift_set_catchup_days settings hdr strCatchupDays days c :
  tvgShift (set_catchup_days settings hdr strCatchupDays days c) = tvgShift c.
Proof. frame c. Qed.
Lemma hasCatchup_set_catchup_days settings hdr strCatchupDays days c :
  hasCatchup (set_catchup_days settings hdr strCatchupDays days c) = hasCatchup c.
Proof. frame c. Qed.
Lemma catchupMode_set_catchup_days settings hdr strCatchupDays days c :
  catchupMode (set_catchup_days settings hdr strCatchupDays days c) = catchupMode c.
Proof. frame c. Qed.
Lemma isCatchupTSStream_set_catchup_days settings hdr strCatchupDays days c :
  isCatchupTSStream (set_catchup_days settings hdr strCatchupDays days c) = isCatchupTSStream c.
Proof. frame c. Qed.
Lemma catchupSource_set_catchup_days settings hdr strCatchupDays days c :
  catchupSource (set_catchup_days settings hdr strCatchupDays days c) = catchupSource c.
Proof. frame c. Qed.
Lemma channelName_set_siptv_timeshift days c :
  channelName (set_siptv_timeshift days c) = channelName c.
Proof. frame c. Qed.
Lemma tvgShift_set_siptv_timeshift days c :
  tvgShift (set_siptv_timeshift days c) = tvgShift c.
Proof. frame c. Qed.
Lemma isCatchupTSStream_set_siptv_timeshift days c :
  isCatchupTSStream (set_siptv_timeshift days c) = isCatchupTSStream c.
Proof. frame c. Qed.
Lemma catchupDays_set_siptv_timeshift days c :
  catchupDays (set_siptv_timeshift days c) = catchupDays c.
Proof. frame c. Qed.
Lemma catchupSource_set_siptv_timeshift days c :
  catchupSource (set_siptv_timeshift days c) = catchupSource c.
Proof. frame c. Qed.

Lemma set_provider_same (settings : Settings) (n t i cs ls : str) (ps : Providers)
  (c : Channel) :
  channelName (fst (set_provider settings n t i cs ls ps c)) = channelName c /\
  tvgShift (fst (set_provider settings n t i cs ls ps c)) = tvgShift c /\
  hasCatchup (fst (set_provider settings n t i cs ls ps c)) = hasCatchup c /\
  catchupMode (fst (set_provider settings n t i cs ls ps c)) = catchupMode c /\
  isCatchupTSStream (fst (set_provider settings n t i cs ls ps c)) = isCatchupTSStream c /\
  catchupDays (fst (set_provider settings n t i cs ls ps c)) = catchupDays c /\
  catchupSource (fst (set_provider settings n t i cs ls ps c)) = catchupSource c.
Proof.
  unfold set_provider. destruct (AddProvider _ ps) as [[r|] ps'];
    cbn [fst]; destruct c; repeat split.
Qed.

(** A channel that has catchup passes the xeev and the siptv blocks as it
    is. *)
Lemma set_xeev_catchup_has (xeevCatchup : bool) (name : str) (c : Channel) :
  hasCatchup c = true -> set_xeev_catchup xeevCatchup name c = c.
Proof. intros H. unfold set_xeev_catchup, HasCatchup. now rewrite H. Qed.

Lemma set_siptv_timeshift_has (days : Z) (c : Channel) :
  hasCatchup c = true -> set_siptv_timeshift days c = c.
Proof. intros H. unfold set_siptv_timeshift, HasCatchup. now rewrite H. Qed.

Create Rewrite HintDb channel_fields.

#[local] Hint Rewrite
  channelName_set_identity_and_timing
  hasCatchup_set_identity_and_timing
  catchupMode_set_identity_and_timing
  isCatchupTSStream_set_identity_and_timing
  catchupDays_set_identity_and_timing
  channelName_set_catchup_mode
  tvgShift_set_catchup_mode
  catchupDays_set_catchup_mode
  catchupSource_set_catchup_mode
  channelName_set_xeev_catchup
  tvgShift_set_xeev_catchup
  isCatchupTSStream_set_xeev_catchup
  catchupDays_set_xeev_catchup
  catchupSource_set_xeev_catchup
  channelName_set_catchup_days
  tvgShift_set_catchup_days
  hasCatchup_set_catchup_days
  catchupMode_set_catchup_days
  isCatchupTSStream_set_catchup_days
  catchupSource_set_catchup_days
  channelName_set_siptv_timeshift
  tvgShift_set_siptv_timeshift
  isCatchupTSStream_set_siptv_timeshift
  catchupDays_set_siptv_timeshift
  catchupSource_set_siptv_timeshift : channel_fields.

(** *** Well-formed lines *)

Lemma chosen_comma_lt (line : str) (comma : nat) :
  chosen_comma line = Some comma -> comma < length line.
Proof.
  unfold chosen_comma.
  destruct (rfind_char dq line) as [lq|] eqn:Hq.
  - apply rfind_char_lt in Hq.
    destruct (StartsWith _ _).
    + destruct (find_char ","%char (skipn (lq + 1) line)) as [k|] eqn:Hk;
        [|discriminate].
      apply find_char_lt in Hk. rewrite length_skipn in Hk.
      cbn [option_map]. intros H. injection H as <-. lia.
    + apply rfind_char_lt.
  - apply rfind_char_lt.
Qed.

Lemma ParseIntoChannel_well_formed
  (settings : Settings) (hdr : M3uHeaderStrings) (line : str) (colon comma : nat)
  (channel : Channel) (mediaEntry : MediaEntry) (groupIdList : list Z)
  (providers : Providers) (epgTimeShift catchupCorrectionSecs : Z)
  (xeevCatchup : bool) :
  well_formed line colon comma ->
  ParseIntoChannel settings hdr line channel mediaEntry groupIdList providers
                   epgTimeShift catchupCorrectionSecs xeevCatchup
  = parse_info_line settings hdr (display_name line comma)
      (info_line line colon comma)
      (SetChannelName (display_name line comma) channel)
      mediaEntry groupIdList providers epgTimeShift catchupCorrectionSecs xeevCatchup.
Proof.
  intros [Hc [Hm Hlt]]. unfold ParseIntoChannel.
  rewrite choose_comma_returns, Hc, Hm. cbn [bind].
  apply chosen_comma_lt in Hm.
  apply Nat.ltb_lt in Hlt as Hb. rewrite Hb.
  rewrite substr_in_range by lia. cbn [bind].
  rewrite substr_in_range by lia. cbn [bind].
  reflexivity.
Qed.

(** *** The display name *)

(** On a well-formed line the channel's name is the display name, whatever
    the attributes are. *)
Lemma ParseIntoChannel_name
  (settings : Settings) (hdr : M3uHeaderStrings) (line : str) (colon comma : nat)
  (channel : Channel) (mediaEntry : MediaEntry) (groupIdList : list Z)
  (providers : Providers) (epgTimeShift catchupCorrectionSecs : Z)
  (xeevCatchup : bool) :
  well_formed line colon comma ->
  exists parsed,
    ParseIntoChannel settings hdr line channel mediaEntry groupIdList providers
                     epgTimeShift catchupCorrectionSecs xeevCatchup
    = Returns parsed /\
    channelName (p_channel parsed) = display_name line comma.
Proof.
  intros Hwf. rewrite (ParseIntoChannel_well_formed _ _ _ _ _ _ _ _ _ Hwf).
  destruct (parse_info_line_returns settings hdr (display_name line comma)
              (info_line line colon comma)
              (SetChannelName (display_name line comma) channel)
              mediaEntry groupIdList providers epgTimeShift
              catchupCorrectionSecs xeevCatchup) as [numbered [Hsame Hp]].
  cbv zeta in Hp. rewrite Hp. eexists. split; [reflexivity|].
  cbn [p_channel].
  match goal with
  | |- channelName (fst (set_provider ?s ?n ?t ?i ?cs ?ls ?ps ?c)) = _ =>
      destruct (set_provider_same s n t i cs ls ps c) as [-> _]
  end.
  autorewrite with channel_fields.
  destruct Hsame as [-> _]. now destruct channel.
Qed.

Lemma rfind_char_nth (c : ascii) (s : str) (i : nat) :
  rfind_char c s = Some i -> nth i s zero = c.
Proof.
  revert i; induction s as [|x t IH]; intros i H; simpl in H; [discriminate|].
  destruct (rfind_char c t) as [j|].
  - injection H as <-. now apply IH.
  - destruct (Ascii.eqb x c) eqn:E; [|discriminate].
    injection H as <-. now apply Ascii.eqb_eq in E.
Qed.

(** In a line that begins with [#EXTINF:] the first colon is at position 7
    and every double quote is after it. *)
Lemma extinf_colon (rest : str) :
  find_char ":"%char (lit "#EXTINF:" ++ rest) = Some 7.
Proof. reflexivity. Qed.

Lemma extinf_quote (rest : str) (lastQuote : nat) :
  rfind_char dq (lit "#EXTINF:" ++ rest) = Some lastQuote -> 8 <= lastQuote.
Proof.
  intros H. apply rfind_char_nth in H.
  do 8 (destruct lastQuote as [|lastQuote]; [discriminate H|]). lia.
Qed.

(** C5. For every line that begins with [#EXTINF:], contains a double quote
    and whose text after the last double quote, trimmed, begins with a comma,
    [ParseIntoChannel] returns with the channel's name set to the text after
    the first comma that follows that last quote, trimmed and converted to
    UTF-8, whatever commas the quoted values contain. In particular the line
    [#EXTINF:-1 tvg-name="A,B",C] gives the name [C] (converted). *)
Theorem ParseIntoChannel_name_after_last_quote
  (settings : Settings) (hdr : M3uHeaderStrings)
  (channel : Channel) (mediaEntry : MediaEntry) (groupIdList : list Z)
  (providers : Providers) (epgTimeShift catchupCorrectionSecs : Z)
  (xeevCatchup : bool) :
  (forall (line rest : str) (lastQuote : nat),
      line = lit "#EXTINF:" ++ rest ->
      rfind_char dq line = Some lastQuote ->
      StartsWith (Trim (skipn (lastQuote + 1) line)) (lit ",") = true ->
      exists k parsed,
        find_char ","%char (skipn (lastQuote + 1) line) = Some k /\
        ParseIntoChannel settings hdr line channel mediaEntry groupIdList providers
                         epgTimeShift catchupCorrectionSecs xeevCatchup
        = Returns parsed /\
        channelName (p_channel parsed)
        = UnknownToUTF8 (Trim (skipn (lastQuote + 1 + k + 1) line)))
  /\
  (exists parsed,
      ParseIntoChannel settings hdr (q "#EXTINF:-1 tvg-name='A,B',C")
                       channel mediaEntry groupIdList providers
                       epgTimeShift catchupCorrectionSecs xeevCatchup
      = Returns parsed /\
      channelName (p_channel parsed) = UnknownToUTF8 (lit "C")).
Proof.
  split.
  - intros line rest lastQuote Hline Hq Hs.
    destruct (find_char ","%char (skipn (lastQuote + 1) line)) as [k|] eqn:Hk;
      [|now apply trimmed_comma_found in Hs].
    exists k.
    assert (Hwf : well_formed line 7 (lastQuote + 1 + k)).
    { repeat split.
      - rewrite Hline. apply extinf_colon.
      - unfold chosen_comma. now rewrite Hq, Hs, Hk.
      - rewrite Hline in Hq. apply extinf_quote in Hq. lia. }
    destruct (ParseIntoChannel_name settings hdr channel mediaEntry groupIdList
                providers epgTimeShift catchupCorrectionSecs xeevCatchup Hwf)
      as [parsed [Hp Hn]].
    exists parsed. repeat split; [exact Hp|exact Hn].
  - assert (Hwf : well_formed (q "#EXTINF:-1 tvg-name='A,B',C") 7 25)
      by (repeat split; lia).
    exact (ParseIntoChannel_name settings hdr channel mediaEntry groupIdList
             providers epgTimeShift catchupCorrectionSecs xeevCatchup Hwf).
Qed.

(** *** The catchup token *)

Lemma set_catchup_mode_recognised (token : str) (mode : CatchupMode) (c : Channel) :
  mode_of_token token = Some mode ->
  hasCatchup (set_catchup_mode token c) = true /\
  catchupMode (set_catchup_mode token c) = mode.
Proof.
  unfold mode_of_token, token_modes, set_catchup_mode. cbn [lookup_token].
  destruct (EqualsNoCase token (lit "default")),
           (EqualsNoCase token (lit "append")),
           (EqualsNoCase token (lit "shift")),
           (EqualsNoCase token (lit "flussonic")),
           (EqualsNoCase token (lit "flussonic-hls")),
           (EqualsNoCase token (lit "flussonic-ts")),
           (EqualsNoCase token (lit "fs")),
           (EqualsNoCase token (lit "xc")),
           (EqualsNoCase token (lit "vod"));
    intros H; try discriminate H; injection H as <-; destruct c; split; reflexivity.
Qed.

Lemma set_catchup_mode_ts (token : str) (c : Channel) :
  isCatchupTSStream (set_catchup_mode token c)
  = is_ts_token token || isCatchupTSStream c.
Proof.
  unfold is_ts_token, set_catchup_mode.
  destruct (EqualsNoCase token (lit "flussonic-ts") || EqualsNoCase token (lit "fs"));
    split_ifs; destruct c; reflexivity.
Qed.

(** C4. On a well-formed line, when the effective catchup token (the
    [catchup] attribute, else [catchup-type], else the header's default) is
    one of the nine tokens of the table, compared without regard to case,
    [ParseIntoChannel] returns with [hasCatchup] true and the mode the table
    gives for the token; the transport-stream flag is true when the token is
    [flussonic-ts] or [fs], and is what it was in the scratch channel
    otherwise (it is set, to true, exactly for those two tokens). *)
Theorem ParseIntoChannel_catchup_token
  (settings : Settings) (hdr : M3uHeaderStrings) (line : str) (colon comma : nat)
  (channel : Channel) (mediaEntry : MediaEntry) (groupIdList : list Z)
  (providers : Providers) (epgTimeShift catchupCorrectionSecs : Z)
  (xeevCatchup : bool) (mode : CatchupMode) :
  well_formed line colon comma ->
  mode_of_token (effective_catchup hdr (info_line line colon comma)) = Some mode ->
  exists parsed,
    ParseIntoChannel settings hdr line channel mediaEntry groupIdList providers
                     epgTimeShift catchupCorrectionSecs xeevCatchup
    = Returns parsed /\
    hasCatchup (p_channel parsed) = true /\
    catchupMode (p_channel parsed) = mode /\
    isCatchupTSStream (p_channel parsed)
    = if is_ts_token (effective_catchup hdr (info_line line colon comma))
      then true else isCatchupTSStream channel.
Proof.
  intros Hwf Hmode. rewrite (ParseIntoChannel_well_formed _ _ _ _ _ _ _ _ _ Hwf).
  destruct (parse_info_line_returns settings hdr (display_name line comma)
              (info_line line colon comma)
              (SetChannelName (display_name line comma) channel)
              mediaEntry groupIdList providers epgTimeShift
              catchupCorrectionSecs xeevCatchup) as [numbered [Hsame Hp]].
  cbv zeta in Hp. rewrite Hp. eexists. split; [reflexivity|].
  cbn [p_channel].
  match goal with
  | |- context [fst (set_provider ?s ?n ?t ?i ?cs ?ls ?ps ?c)] =>
      destruct (set_provider_same s n t i cs ls ps c)
        as [_ [_ [-> [-> [-> _]]]]]
  end.
  match goal with
  | |- context [set_catchup_mode ?tok ?c] =>
      destruct (set_catchup_mode_recognised tok c Hmode) as [Hhas Hm];
      pose proof (set_catchup_mode_ts tok c) as Hts
  end.
  rewrite set_xeev_catchup_has by exact Hhas.
  rewrite set_siptv_timeshift_has
    by (autorewrite with channel_fields; exact Hhas).
  autorewrite with channel_fields.
  rewrite Hhas, Hm, Hts. autorewrite with channel_fields.
  repeat split.
  destruct Hsame as [_ [_ [_ [_ [_ [_ [_ [_ [_ [_ [_ [-> _]]]]]]]]]]]].
  destruct (is_ts_token _); destruct channel; reflexivity.
Qed.

(** *** The header's catchup defaults *)

(** The channel's catchup source is the attribute of the line, converted;
    the header's catchup source does not reach it. *)
Lemma ParseIntoChannel_catchup_source
  (settings : Settings) (hdr : M3uHeaderStrings) (line : str) (colon comma : nat)
  (channel : Channel) (mediaEntry : MediaEntry) (groupIdList : list Z)
  (providers : Providers) (epgTimeShift catchupCorrectionSecs : Z)
  (xeevCatchup : bool) :
  well_formed line colon comma ->
  exists parsed,
    ParseIntoChannel settings hdr line channel mediaEntry groupIdList providers
                     epgTimeShift catchupCorrectionSecs xeevCatchup
    = Returns parsed /\
    catchupSource (p_channel parsed)
    = UnknownToUTF8 (read (info_line line colon comma) CATCHUP_SOURCE).
Proof.
  intros Hwf. rewrite (ParseIntoChannel_well_formed _ _ _ _ _ _ _ _ _ Hwf).
  destruct (parse_info_line_returns settings hdr (display_name line comma)
              (info_line line colon comma)
              (SetChannelName (display_name line comma) channel)
              mediaEntry groupIdList providers epgTimeShift
              catchupCorrectionSecs xeevCatchup) as [numbered [Hsame Hp]].
  cbv zeta in Hp. rewrite Hp. eexists. split; [reflexivity|].
  cbn [p_channel].
  match goal with
  | |- context [fst (set_provider ?s ?n ?t ?i ?cs ?ls ?ps ?c)] =>
      destruct (set_provider_same s n t i cs ls ps c)
        as [_ [_ [_ [_ [_ [_ ->]]]]]]
  end.
  autorewrite with channel_fields.
  unfold set_identity_and_timing, SetIconPathFromTvgLogo.
  split_ifs; destruct numbered; reflexivity.
Qed.

(** When the header has no catchup source, its catchup days have no effect
    on what [ParseIntoChannel] does. *)
Lemma header_catchup_days_need_source
  (settings : Settings) (catchup days days' : str) (line : str)
  (channel : Channel) (mediaEntry : MediaEntry) (groupIdList : list Z)
  (providers : Providers) (epgTimeShift catchupCorrectionSecs : Z)
  (xeevCatchup : bool) :
  ParseIntoChannel settings (mkM3uHeaderStrings catchup days []) line channel
                   mediaEntry groupIdList providers epgTimeShift
                   catchupCorrectionSecs xeevCatchup
  = ParseIntoChannel settings (mkM3uHeaderStrings catchup days' []) line channel
                     mediaEntry groupIdList providers epgTimeShift
                     catchupCorrectionSecs xeevCatchup.
Proof. reflexivity. Qed.

(** *** The EPG shift *)

Lemma read_absent (line markerName : str) :
  absent markerName line -> read line markerName = [].
Proof.
  intros Ha. unfold read.
  destruct (ReadMarkerValue_cases line markerName) as [[_ H]|[pre [rest [[Hl _] _]]]].
  - now rewrite H.
  - now apply Ha in Hl.
Qed.

(** The conversion to [int] cuts the fraction off: a finite double of
    magnitude [m * 2 ^ e] with [e] negative goes to the quotient of [m] by
    [2 ^ (- e)], with the sign of the double, as long as that fits [int]. *)
Lemma double_to_int_truncates (s : bool) (m e : positive) :
  let v := Z.quot (if s then Z.neg m else Z.pos m) (2 ^ Z.pos e) in
  (INT_MIN <= v <= INT_MAX)%Z ->
  double_to_int (S754_finite s m (Z.neg e)) = v.
Proof.
  intros v Hv. unfold double_to_int.
  change (- Z.neg e)%Z with (Z.pos e).
  rewrite Z.shiftr_div_pow2 by lia.
  assert (Hq : (if s then - (Z.pos m / 2 ^ Z.pos e) else Z.pos m / 2 ^ Z.pos e)%Z = v).
  { unfold v. destruct s.
    - change (Z.neg m) with (- Z.pos m)%Z.
      rewrite Z.quot_opp_l by (apply Z.pow_nonzero; lia).
      rewrite Z.quot_div_nonneg by (try apply Z.pow_pos_nonneg; lia). reflexivity.
    - rewrite Z.quot_div_nonneg by (try apply Z.pow_pos_nonneg; lia). reflexivity. }
  rewrite Hq.
  destruct Hv as [H1 H2]. apply Z.leb_le in H1, H2. now rewrite H1, H2.
Qed.

(** C7. On a well-formed line [ParseIntoChannel] returns with the channel's
    [tvgShift] equal to the [tvg-shift] attribute read as hours by [atof],
    multiplied by 3600.0 and converted to [int] (the fraction cut off), when
    the attribute has a value; equal to the [epgTimeShift] default when the
    attribute has none, in particular when it is absent. With [atof] taking
    [1.5] to one and a half, the attribute [tvg-shift="1.5"] gives 5400. *)
Theorem ParseIntoChannel_tvg_shift
  (settings : Settings) (hdr : M3uHeaderStrings)
  (channel : Channel) (mediaEntry : MediaEntry) (groupIdList : list Z)
  (providers : Providers) (epgTimeShift catchupCorrectionSecs : Z)
  (xeevCatchup : bool) :
  (forall (line : str) (colon comma : nat),
      well_formed line colon comma ->
      exists parsed,
        ParseIntoChannel settings hdr line channel mediaEntry groupIdList providers
                         epgTimeShift catchupCorrectionSecs xeevCatchup
        = Returns parsed /\
        tvgShift (p_channel parsed)
        = (if empty (read (info_line line colon comma) TVG_INFO_SHIFT_MARKER)
           then epgTimeShift
           else hours_to_secs
                  (atof (read (info_line line colon comma) TVG_INFO_SHIFT_MARKER))) /\
        (absent TVG_INFO_SHIFT_MARKER (info_line line colon comma) ->
         tvgShift (p_channel parsed) = epgTimeShift))
  /\
  (atof (lit "1.5") = one_and_a_half ->
   exists parsed,
     ParseIntoChannel settings hdr (q "#EXTINF:-1 tvg-shift='1.5',One")
                      channel mediaEntry groupIdList providers
                      epgTimeShift catchupCorrectionSecs xeevCatchup
     = Returns parsed /\
     tvgShift (p_channel parsed) = 5400%Z).
Proof.
  assert (Hgen : forall (line : str) (colon comma : nat),
      well_formed line colon comma ->
      exists parsed,
        ParseIntoChannel settings hdr line channel mediaEntry groupIdList providers
                         epgTimeShift catchupCorrectionSecs xeevCatchup
        = Returns parsed /\
        tvgShift (p_channel parsed)
        = (if empty (read (info_line line colon comma) TVG_INFO_SHIFT_MARKER)
           then epgTimeShift
           else hours_to_secs
                  (atof (read (info_line line colon comma) TVG_INFO_SHIFT_MARKER)))).
  { intros line colon comma Hwf.
    rewrite (ParseIntoChannel_well_formed _ _ _ _ _ _ _ _ _ Hwf).
    destruct (parse_info_line_returns settings hdr (display_name line comma)
                (info_line line colon comma)
                (SetChannelName (display_name line comma) channel)
                mediaEntry groupIdList providers epgTimeShift
                catchupCorrectionSecs xeevCatchup) as [numbered [Hsame Hp]].
    cbv zeta in Hp. rewrite Hp. eexists. split; [reflexivity|].
    cbn [p_channel].
    match goal with
    | |- context [fst (set_provider ?s ?n ?t ?i ?cs ?ls ?ps ?c)] =>
        destruct (set_provider_same s n t i cs ls ps c) as [_ [-> _]]
    end.
    autorewrite with channel_fields.
    unfold set_identity_and_timing, SetIconPathFromTvgLogo.
    split_ifs; destruct numbered; reflexivity. }
  split.
  - intros line colon comma Hwf.
    destruct (Hgen line colon comma Hwf) as [parsed [Hp Hshift]].
    exists parsed. repeat split; [exact Hp|exact Hshift|].
    intros Ha. rewrite Hshift, (read_absent Ha). reflexivity.
  - intros Hatof.
    assert (Hwf : well_formed (q "#EXTINF:-1 tvg-shift='1.5',One") 7 26)
      by (repeat split; lia).
    destruct (Hgen _ _ _ Hwf) as [parsed [Hp Hshift]].
    exists parsed. split; [exact Hp|].
    rewrite Hshift.
    replace (read (info_line (q "#EXTINF:-1 tvg-shift='1.5',One") 7 26)
                  TVG_INFO_SHIFT_MARKER)
      with (lit "1.5") by (vm_compute; reflexivity).
    rewrite Hatof. vm_compute. reflexivity.
Qed.

(** *** EPG-tag playability *)

Lemma wrap64_small (z : Z) : (- 2 ^ 63 <= z < 2 ^ 63)%Z -> wrap64 z = z.
Proof.
  intros H. unfold wrap64, wrap.
  change (2 ^ (64 - 1))%Z with (2 ^ 63)%Z.
  rewrite Z.mod_small; lia.
Qed.

Lemma unsigned_of_int (z : Z) : (0 <= z < 2 ^ 32)%Z -> (wrap32 z mod 2 ^ 32)%Z = z.
Proof.
  intros H. unfold wrap32, wrap.
  change (2 ^ (32 - 1))%Z with (2 ^ 31)%Z.
  rewrite Zminus_mod_idemp_l.
  replace (z + 2 ^ 31 - 2 ^ 31)%Z with z by lia.
  apply Z.mod_small. exact H.
Qed.

Lemma day_window_test (settings : Settings) (channel : Channel) (now : Z)
  (tag : PVREPGTag) :
  (- 2 ^ 62 <= now <= 2 ^ 62)%Z ->
  (INT_MIN <= catchupDays channel <= INT_MAX)%Z ->
  ((GetStartTime tag <? now)%Z &&
   (wrap64 (now - wrap64 (GetCatchupDaysInSeconds channel)) <=? GetStartTime tag)%Z &&
   (negb (CatchupOnlyOnFinishedProgrammes settings) || (GetEndTime tag <? now)%Z)
   = true)
  <-> in_day_window settings channel now tag.
Proof.
  intros Hnow Hdays. unfold GetCatchupDaysInSeconds, in_day_window.
  unfold INT_MIN, INT_MAX in Hdays.
  rewrite (wrap64_small (z := catchupDays channel * 86400)) by lia.
  rewrite wrap64_small by lia.
  rewrite !andb_true_iff, orb_true_iff, negb_true_iff, !Z.ltb_lt, Z.leb_le.
  destruct (CatchupOnlyOnFinishedProgrammes settings); cbn [negb]; split.
  - intros [[H1 H2] [H3|H3]]; [discriminate|]. repeat split; auto.
  - intros [H1 [H2 H3]]. repeat split; auto.
  - intros [[H1 H2] _]. repeat split; auto. discriminate.
  - intros [H1 [H2 _]]. repeat split; auto.
Qed.

Lemma catchup_id_test (controller : CatchupController) (channel : Channel)
  (tag : PVREPGTag) :
  match GetEPGEntry controller channel (GetStartTime tag) with
  | Some epgEntry => negb (empty (GetCatchupId epgEntry))
  | None => false
  end = true
  <-> has_catchup_id controller channel tag.
Proof.
  unfold has_catchup_id.
  destruct (GetEPGEntry controller channel (GetStartTime tag)) as [e|].
  - split.
    + intros H. exists e. split; [reflexivity|].
      destruct (GetCatchupId e); [discriminate|discriminate].
    + intros [e' [He Hid]]. injection He as <-.
      destruct (GetCatchupId e); [contradiction|reflexivity].
  - split; [discriminate|]. intros [e [He _]]. discriminate.
Qed.

Lemma playable_flag (flag : bool) (lookups : list Lookup) :
  reports_playable (PVR_ERROR_NO_ERROR, flag, lookups) = flag.
Proof. now destruct flag. Qed.

Lemma IsEPGTagPlayable_found (settings : Settings) (channels : Channels)
  (controller : CatchupController) (now : Z) (tag : PVREPGTag) (bIsPlayable : bool)
  (channel : Channel) :
  typed channels now tag ->
  supported_channel settings channels tag channel ->
  reports_playable
    (IsEPGTagPlayable settings channels controller now tag bIsPlayable) = true
  <-> (catchupDays channel = IGNORE_CATCHUP_DAYS /\
       has_catchup_id controller channel tag)
      \/ (catchupDays channel <> IGNORE_CATCHUP_DAYS /\
          in_day_window settings channel now tag).
Proof.
  intros [Hid [Hnow Hdays]] [Hch [Hen Hsup]].
  specialize (Hdays _ _ Hch).
  unfold IsEPGTagPlayable, GetChannel. rewrite Hen. cbn [negb].
  rewrite (unsigned_of_int Hid), Hch, Hsup. cbn [andb].
  unfold IgnoreCatchupDays.
  destruct (Z.eqb_spec (catchupDays channel) IGNORE_CATCHUP_DAYS) as [He|He].
  - rewrite <- catchup_id_test, playable_flag.
    split; [intros H; left; now split|].
    intros [[_ H]|[H _]]; [exact H|contradiction].
  - rewrite <- (day_window_test settings channel tag Hnow Hdays), playable_flag.
    split; [intros H; right; now split|].
    intros [[H _]|[_ H]]; [contradiction|exact H].
Qed.

Lemma IsEPGTagPlayable_not_found (settings : Settings) (channels : Channels)
  (controller : CatchupController) (now : Z) (tag : PVREPGTag) (bIsPlayable : bool) :
  typed channels now tag ->
  (forall channel, ~ supported_channel settings channels tag channel) ->
  reports_playable
    (IsEPGTagPlayable settings channels controller now tag bIsPlayable) = false.
Proof.
  intros [Hid _] Hno. unfold IsEPGTagPlayable, GetChannel.
  destruct (IsCatchupEnabled settings) eqn:Hen; [|reflexivity]. cbn [negb].
  rewrite (unsigned_of_int Hid).
  destruct (Channels_GetChannel channels (GetUniqueChannelId tag)) as [c|] eqn:Hch.
  - destruct (IsCatchupSupported settings c) eqn:Hsup.
    + exfalso. apply (Hno c). now repeat split.
    + now destruct (IgnoreCatchupDays c).
  - now destruct (IgnoreCatchupDays new_Channel).
Qed.

(** C3. [IsEPGTagPlayable] reports a tag playable exactly when the tag's
    channel exists and supports catchup and either the channel's
    [catchupDays] is the [IGNORE_CATCHUP_DAYS] sentinel and the EPG entry
    found for the tag's start has a catchup id, or it is not the sentinel and
    the tag starts before now, not earlier than [catchupDays] times 86400
    seconds before now, and, when only finished programmes are allowed, ends
    before now. With [catchupDays] 2 and now 1000000, a tag that starts at
    now minus 86400 is playable (ended, where that is asked) and a tag that
    starts at now minus 3 times 86400 is not. *)
Theorem IsEPGTagPlayable_iff (settings : Settings) (channels : Channels)
  (controller : CatchupController) (now : Z) (tag : PVREPGTag) (bIsPlayable : bool) :
  typed channels now tag ->
  (reports_playable
     (IsEPGTagPlayable settings channels controller now tag bIsPlayable) = true
   <-> exists channel,
         supported_channel settings channels tag channel /\
         ((catchupDays channel = IGNORE_CATCHUP_DAYS /\
           has_catchup_id controller channel tag)
          \/ (catchupDays channel <> IGNORE_CATCHUP_DAYS /\
              in_day_window settings channel now tag)))
  /\
  (forall channel,
      supported_channel settings channels tag channel ->
      catchupDays channel = 2%Z -> IGNORE_CATCHUP_DAYS <> 2%Z ->
      now = 1000000%Z ->
      (GetStartTime tag = (1000000 - 86400)%Z ->
       (CatchupOnlyOnFinishedProgrammes settings = true ->
        (GetEndTime tag < 1000000)%Z) ->
       reports_playable
         (IsEPGTagPlayable settings channels controller now tag bIsPlayable) = true)
      /\
      (GetStartTime tag = (1000000 - 3 * 86400)%Z ->
       reports_playable
         (IsEPGTagPlayable settings channels controller now tag bIsPlayable) = false)).
Proof.
  intros Htyped. split.
  - split.
    + intros H.
      destruct (Channels_GetChannel channels (GetUniqueChannelId tag)) as [c|] eqn:Hch.
      * destruct (IsCatchupEnabled settings) eqn:Hen.
        { destruct (IsCatchupSupported settings c) eqn:Hsup.
          - exists c. split; [now repeat split|].
            apply (IsEPGTagPlayable_found controller bIsPlayable Htyped); [|exact H].
            now repeat split.
          - rewrite IsEPGTagPlayable_not_found in H; [discriminate|exact Htyped|].
            intros c' [Hc' [_ Hs']]. congruence. }
        rewrite IsEPGTagPlayable_not_found in H; [discriminate|exact Htyped|].
        intros c' [_ [He' _]]. congruence.
      * rewrite IsEPGTagPlayable_not_found in H; [discriminate|exact Htyped|].
        intros c' [Hc' _]. congruence.
    + intros [c [Hsup Hc]].
      now apply (IsEPGTagPlayable_found controller bIsPlayable Htyped Hsup).
  - intros c Hsup Hdays Hign Hnow. subst now. split.
    + intros Hstart Hend.
      apply (IsEPGTagPlayable_found controller bIsPlayable Htyped Hsup).
      right. split; [congruence|]. unfold in_day_window.
      rewrite Hdays, Hstart. repeat split; try lia. exact Hend.
    + intros Hstart.
      destruct (reports_playable _) eqn:H; [|reflexivity].
      apply (IsEPGTagPlayable_found controller bIsPlayable Htyped Hsup) in H.
      destruct H as [[H _]|[_ [_ [H _]]]]; [congruence|].
      rewrite Hdays, Hstart in H. lia.
Qed.

(** C10. When catchup is not enabled in the settings, [IsEPGTagPlayable]
    returns [PVR_ERROR_NOT_IMPLEMENTED] for every tag, with the caller's flag
    as it was (it is not written) and without any lookup: not the clock, not
    the channel store, not the EPG. *)
Theorem IsEPGTagPlayable_catchup_disabled (settings : Settings) (channels : Channels)
  (controller : CatchupController) (now : Z) (tag : PVREPGTag) (bIsPlayable : bool) :
  IsCatchupEnabled settings = false ->
  IsEPGTagPlayable settings channels controller now tag bIsPlayable
  = (PVR_ERROR_NOT_IMPLEMENTED, bIsPlayable, []).
Proof.
  intros H. unfold IsEPGTagPlayable. now rewrite H.
Qed.

(** *** A playlist that is only a header *)

Lemma getlines_from_one (delim : ascii) (s cur : str) :
  ~ In delim s ->
  getlines_from delim s cur
  = match rev cur ++ s with [] => [] | _ => [rev cur ++ s] end
  /\ getlines_from delim (s ++ [delim]) cur = [rev cur ++ s].
Proof.
  revert cur; induction s as [|x t IH]; intros cur Hno.
  - cbn [getlines_from app]. rewrite Ascii.eqb_refl, app_nil_r. split.
    + destruct cur as [|c cur]; [reflexivity|].
      destruct (rev (c :: cur)) eqn:E; [|reflexivity].
      apply (f_equal (@length ascii)) in E. rewrite length_rev in E. discriminate.
    + reflexivity.
  - cbn [getlines_from app].
    destruct (Ascii.eqb x delim) eqn:E.
    + apply Ascii.eqb_eq in E. subst x. exfalso. apply Hno. now left.
    + destruct (IH (x :: cur)) as [H1 H2]; [intros H; apply Hno; now right|].
      rewrite H1, H2. cbn [rev]. rewrite <- !app_assoc. cbn [app]. split.
      * destruct (rev cur ++ x :: t) eqn:E'; [|reflexivity].
        apply (f_equal (@length ascii)) in E'. rewrite length_app in E'.
        simpl in E'. lia.
      * reflexivity.
Qed.

Lemma getlines_single (content raw : str) :
  single_line content raw -> getlines LF content = [raw].
Proof.
  intros [Hno [Hne [->| ->]]]; unfold getlines.
  - destruct (@getlines_from_one LF raw [] Hno) as [H _]. rewrite H.
    cbn [rev app]. now destruct raw.
  - destruct (@getlines_from_one LF raw [] Hno) as [_ H]. now rewrite H.
Qed.

Lemma read_header_returns (line : str) (l : Loader) (v : Locals) :
  exists l' v',
    read_header line l v = Returns (l', v') /\
    m_channels l' = m_channels l /\ m_media l' = m_media l /\
    m_channelGroups l' = m_channelGroups l /\ m_providers l' = m_providers l /\
    logged l' = logged l /\
    GetTvgUrl (settings l') = header_tvg_url line.
Proof.
  unfold read_header.
  repeat (rewrite ReadMarkerValue_returns; cbn [bind]).
  repeat (rewrite bind_if_Returns; cbn beta).
  do 2 eexists. split; [reflexivity|].
  unfold header_tvg_url. destruct l as [st loc logo hdr chs grps provs med lg].
  destruct st. cbn. repeat split.
Qed.

Lemma Log_channels (lv : LogLevel) (fmt : String.string) (l : Loader) :
  m_channels (Log lv fmt l) = m_channels l.
Proof. now destruct l. Qed.

Lemma Log_media (lv : LogLevel) (fmt : String.string) (l : Loader) :
  m_media (Log lv fmt l) = m_media l.
Proof. now destruct l. Qed.

Lemma Log_settings (lv : LogLevel) (fmt : String.string) (l : Loader) :
  settings (Log lv fmt l) = settings l.
Proof. now destruct l. Qed.

Lemma Log_logged (lv : LogLevel) (fmt : String.string) (l : Loader) :
  logged (Log lv fmt l) = logged l ++ [(lv, lit fmt)].
Proof. now destruct l. Qed.

Lemma process_header_line (raw : str) (l : Loader) (v : Locals) :
  isFirstLine v = true ->
  StartsWith (normalised raw) M3U_START_MARKER = true ->
  exists l' v',
    process_line (l, v) raw = Returns (l', v') /\
    m_channels l' = m_channels l /\ m_media l' = m_media l /\
    logged l' = logged l ++ [(LEVEL_DEBUG, lit "%s - M3U line read: '%s'")] /\
    GetTvgUrl (settings l') = header_tvg_url (normalised raw).
Proof.
  intros Hfirst Hstart. unfold process_line. cbv zeta.
  change (if str_eqb
               (Left (TrimLeftChars (TrimRightChars raw trim_right_chars)
                                    trim_left_chars) 3) BOM
          then skipn 3 (TrimLeftChars (TrimRightChars raw trim_right_chars)
                                      trim_left_chars)
          else TrimLeftChars (TrimRightChars raw trim_right_chars) trim_left_chars)
    with (normalised raw).
  assert (He : empty (TrimLeftChars (TrimRightChars raw trim_right_chars)
                                    trim_left_chars) = false).
  { unfold normalised in Hstart.
    destruct (TrimLeftChars (TrimRightChars raw trim_right_chars) trim_left_chars);
      [discriminate Hstart|reflexivity]. }
  rewrite He, Hfirst, Hstart.
  match goal with
  | |- context [read_header ?ln ?lo ?lc] =>
      destruct (read_header_returns ln lo lc)
        as [l' [v' [Hr [Hc [Hm [_ [_ [Hlog Hurl]]]]]]]]
  end.
  exists l', v'. split; [exact Hr|].
  rewrite Hc, Hm, Hlog, Hurl. destruct l. cbn. repeat split.
Qed.

(** C9. When the playlist location is configured and the fetched content is
    a single line that, trimmed and without byte order mark, begins with
    [#EXTM3U], [LoadPlayList] returns true without an exception; the channel
    store and the media store are what they were, so they have no entry when
    the load started with none; the settings hold the address read from the
    header's [x-tvg-url], or else its [url-tvg]; and the empty result is
    logged at error level, with no effect on the returned value. *)
Theorem LoadPlayList_header_only (l : Loader) (content raw : str) :
  m_m3uLocation l <> [] ->
  GetCachedFileContents M3U_CACHE_FILENAME (m_m3uLocation l)
    (if negb (RefreshMode_eqb (GetM3URefreshMode (settings l)) REFRESH_DISABLED)
     then false else UseM3UCache (settings l))
  = Some content ->
  single_line content raw ->
  StartsWith (normalised raw) M3U_START_MARKER = true ->
  exists l',
    LoadPlayList l = Returns (true, l') /\
    m_channels l' = m_channels l /\
    m_media l' = m_media l /\
    GetTvgUrl (settings l') = header_tvg_url (normalised raw) /\
    (GetChannelsAmount (m_channels l) = 0%Z ->
     GetNumMedia (m_media l) = 0%Z ->
     GetChannelsAmount (m_channels l') = 0%Z /\
     GetNumMedia (m_media l') = 0%Z /\
     In (LEVEL_ERROR, lit "%s - Unable to load channels or media from file '%s'")
        (logged l')).
Proof.
  intros Hloc Hfetch Hone Hstart. unfold LoadPlayList.
  assert (Hl : forall lv fmt,
             m_m3uLocation (Log lv fmt l) = m_m3uLocation l /\
             settings (Log lv fmt l) = settings l)
    by (intros; destruct l; split; reflexivity).
  destruct (Hl LEVEL_DEBUG "%s - Playlist Load Start"%string) as [-> ->].
  destruct (m_m3uLocation l) as [|c loc] eqn:Eloc; [contradiction|].
  cbn [empty]. rewrite Hfetch, (getlines_single Hone).
  cbn [process_lines].
  match goal with
  | |- context [process_line (?lo, ?lc) raw] =>
      destruct (@process_header_line raw lo lc eq_refl Hstart)
        as [l1 [v1 [Hp [Hc [Hm [_ Hurl]]]]]]
  end.
  rewrite Hp. cbn [bind]. cbv zeta.
  assert (Hc0 : m_channels l1 = m_channels l) by (rewrite Hc; now destruct l).
  assert (Hm0 : m_media l1 = m_media l) by (rewrite Hm; now destruct l).
  rewrite !Log_channels, !Log_media, Hc0, Hm0.
  eexists. split; [reflexivity|].
  split; [|split; [|split]].
  - destruct (_ && _); now rewrite !Log_channels.
  - destruct (_ && _); now rewrite !Log_media.
  - destruct (_ && _); now rewrite !Log_settings.
  - intros Hz1 Hz2. rewrite Hz1, Hz2. cbn [Z.eqb andb].
    rewrite !Log_channels, !Log_media, Hc0, Hm0.
    repeat split; try assumption.
    rewrite !Log_logged, !in_app_iff.
    left. left. left. left. right. now left.
Qed.

(** *** The refresh loop *)

Lemma to_unsigned_small (z : Z) : (0 <= z < 2 ^ 32)%Z -> to_unsigned z = z.
Proof. intros H. unfold to_unsigned. now apply Z.mod_small. Qed.

Lemma wrap32_small (z : Z) : (- 2 ^ 31 <= z < 2 ^ 31)%Z -> wrap32 z = z.
Proof.
  intros H. unfold wrap32, wrap.
  change (2 ^ (32 - 1))%Z with (2 ^ 31)%Z.
  rewrite Z.mod_small; lia.
Qed.





(** X3. In repeated-refresh mode, with the clock not behind the last turn,
    nothing pending and the instance running, a turn adds the seconds that
    passed to the timer; it reloads exactly when the sum reaches the interval
    in seconds, and then the timer is back at 0. *)
Theorem Process_repeated_refresh (settings : Settings) (now hour : Z) (v : ProcessVars) :
  GetM3URefreshMode settings = REPEATED_REFRESH ->
  m_reloadChannelsGroupsAndEPG v = false ->
  (0 <= refreshTimer v)%Z ->
  (0 <= now - lastRefreshTimeSeconds v)%Z ->
  (refreshTimer v + (now - lastRefreshTimeSeconds v) < 2 ^ 32)%Z ->
  (0 <= GetM3URefreshIntervalMins settings * 60 < 2 ^ 31)%Z ->
  Process_turn settings true now hour v
  = if (GetM3URefreshIntervalMins settings * 60
        <=? refreshTimer v + (now - lastRefreshTimeSeconds v))%Z
    then (mkProcessVars 0 now hour false, true)
    else (mkProcessVars (refreshTimer v + (now - lastRefreshTimeSeconds v)) now hour
                        false, false).
Proof.
  intros Hmode Hflag Ht Hd Hsum Hint. unfold Process_turn.
  rewrite Hmode, Hflag. cbn [RefreshMode_eqb andb].
  rewrite wrap64_small by lia.
  rewrite (to_unsigned_small (z := now - lastRefreshTimeSeconds v)) by lia.
  rewrite (to_unsigned_small (z := refreshTimer v + (now - lastRefreshTimeSeconds v)))
    by lia.
  rewrite wrap32_small by lia.
  rewrite (to_unsigned_small (z := GetM3URefreshIntervalMins settings * 60)) by lia.
  now destruct (_ <=? _)%Z.
Qed.

(** X4. A change of a setting makes the next turn of a running instance
    reload, in every refresh mode and at every clock value; after it the
    timer is 0 and nothing is pending. *)
Theorem SetSetting_reloads_next_turn (settings : Settings) (now hour : Z)
  (v : ProcessVars) :
  Process_turn settings true now hour (SetSetting v)
  = (mkProcessVars 0 now hour false, true).
Proof.
  assert (H : m_reloadChannelsGroupsAndEPG (SetSetting v) = true).
  { unfold SetSetting. now destruct (m_reloadChannelsGroupsAndEPG v) eqn:E. }
  unfold Process_turn. rewrite H. cbn [andb].
  now repeat match goal with
             | |- context [if ?b then true else true] =>
                 replace (if b then true else true) with true by now destruct b
             end.
Qed.



(** *** More of what each block leaves alone *)

Lemma channelNumber_set_catchup_mode strCatchup c :
  channelNumber (set_catchup_mode strCatchup c) = channelNumber c.
Proof. frame c. Qed.

Lemma subChannelNumber_set_catchup_mode strCatchup c :
  subChannelNumber (set_catchup_mode strCatchup c) = subChannelNumber c.
Proof. frame c. Qed.

Lemma tvgId_set_catchup_mode strCatchup c :
  tvgId (set_catchup_mode strCatchup c) = tvgId c.
Proof. frame c. Qed.

Lemma tvgName_set_catchup_mode strCatchup c :
  tvgName (set_catchup_mode strCatchup c) = tvgName c.
Proof. frame c. Qed.

Lemma radio_set_catchup_mode strCatchup c :
  radio (set_catchup_mode strCatchup c) = radio c.
Proof. frame c. Qed.

Lemma catchupCorrectionSecs_set_catchup_mode strCatchup c :
  catchupCorrectionSecs (set_catchup_mode strCatchup c) = catchupCorrectionSecs c.
Proof. frame c. Qed.

Lemma channelNumber_set_xeev_catchup xeevCatchup name c :
  channelNumber (set_xeev_catchup xeevCatchup name c) = channelNumber c.
Proof. frame c. Qed.

Lemma subChannelNumber_set_xeev_catchup xeevCatchup name c :
  subChannelNumber (set_xeev_catchup xeevCatchup name c) = subChannelNumber c.
Proof. frame c. Qed.

Lemma tvgId_set_xeev_catchup xeevCatchup name c :
  tvgId (set_xeev_catchup xeevCatchup name c) = tvgId c.
Proof. frame c. Qed.

Lemma tvgName_set_xeev_catchup xeevCatchup name c :
  tvgName (set_xeev_catchup xeevCatchup name c) = tvgName c.
Proof. frame c. Qed.

Lemma radio_set_xeev_catchup xeevCatchup name c :
  radio (set_xeev_catchup xeevCatchup name c) = radio c.
Proof. frame c. Qed.

Lemma catchupCorrectionSecs_set_xeev_catchup xeevCatchup name c :
  catchupCorrectionSecs (set_xeev_catchup xeevCatchup name c) = catchupCorrectionSecs c.
Proof. frame c. Qed.

Lemma channelNumber_set_catchup_days settings hdr strCatchupDays days c :
  channelNumber (set_catchup_days settings hdr strCatchupDays days c) = channelNumber c.
Proof. frame c. Qed.

Lemma subChannelNumber_set_catchup_days settings hdr strCatchupDays days c :
  subChannelNumber (set_catchup_days settings hdr strCatchupDays days c) = subChannelNumber c.
Proof. frame c. Qed.

Lemma tvgId_set_catchup_days settings hdr strCatchupDays days c :
  tvgId (set_catchup_days settings hdr strCatchupDays days c) = tvgId c.
Proof. frame c. Qed.

Lemma tvgName_set_catchup_days settings hdr strCatchupDays days c :
  tvgName (set_catchup_days settings hdr strCatchupDays days c) = tvgName c.
Proof. frame c. Qed.

Lemma radio_set_catchup_days settings hdr strCatchupDays days c :
  radio (set_catchup_days settings hdr strCatchupDays days c) = radio c.
Proof. frame c. Qed.

Lemma catchupCorrectionSecs_set_catchup_days settings hdr strCatchupDays days c :
  catchupCorrectionSecs (set_catchup_days settings hdr strCatchupDays days c) = catchupCorrectionSecs c.
Proof. frame c. Qed.

Lemma channelNumber_set_siptv_timeshift days c :
  channelNumber (set_siptv_timeshift days c) = channelNumber c.
Proof. frame c. Qed.

Lemma subChannelNumber_set_siptv_timeshift days c :
  subChannelNumber (set_siptv_timeshift days c) = subChannelNumber c.
Proof. frame c. Qed.

Lemma tvgId_set_siptv_timeshift days c :
  tvgId (set_siptv_timeshift days c) = tvgId c.
Proof. frame c. Qed.

Lemma tvgName_set_siptv_timeshift days c :
  tvgName (set_siptv_timeshift days c) = tvgName c.
Proof. frame c. Qed.

Lemma radio_set_siptv_timeshift days c :
  radio (set_siptv_timeshift days c) = radio c.
Proof. frame c. Qed.

Lemma catchupCorrectionSecs_set_siptv_timeshift days c :
  catchupCorrectionSecs (set_siptv_timeshift days c) = catchupCorrectionSecs c.
Proof. frame c. Qed.

Lemma channelNumber_set_identity_and_timing settings hdr name id tname src shift rad logo corr epg secs c :
  channelNumber (set_identity_and_timing settings hdr name id tname src shift rad logo corr epg secs c) = channelNumber c.
Proof. frame c. Qed.

Lemma subChannelNumber_set_identity_and_timing settings hdr name id tname src shift rad logo corr epg secs c :
  subChannelNumber (set_identity_and_timing settings hdr name id tname src shift rad logo corr epg secs c) = subChannelNumber c.
Proof. frame c. Qed.

Lemma set_provider_same_identity (settings : Settings) (n t i cs ls : str)
  (ps : Providers) (c : Channel) :
  channelNumber (fst (set_provider settings n t i cs ls ps c)) = channelNumber c /\
  subChannelNumber (fst (set_provider settings n t i cs ls ps c)) = subChannelNumber c /\
  tvgId (fst (set_provider settings n t i cs ls ps c)) = tvgId c /\
  tvgName (fst (set_provider settings n t i cs ls ps c)) = tvgName c /\
  radio (fst (set_provider settings n t i cs ls ps c)) = radio c /\
  catchupCorrectionSecs (fst (set_provider settings n t i cs ls ps c))
  = catchupCorrectionSecs c.
Proof.
  unfold set_provider. destruct (AddProvider _ ps) as [[r|] ps'];
    cbn [fst]; destruct c; repeat split.
Qed.

#[local] Hint Rewrite
  channelNumber_set_catchup_mode
  subChannelNumber_set_catchup_mode
  tvgId_set_catchup_mode
  tvgName_set_catchup_mode
  radio_set_catchup_mode
  catchupCorrectionSecs_set_catchup_mode
  channelNumber_set_xeev_catchup
  subChannelNumber_set_xeev_catchup
  tvgId_set_xeev_catchup
  tvgName_set_xeev_catchup
  radio_set_xeev_catchup
  catchupCorrectionSecs_set_xeev_catchup
  channelNumber_set_catchup_days
  subChannelNumber_set_catchup_days
  tvgId_set_catchup_days
  tvgName_set_catchup_days
  radio_set_catchup_days
  catchupCorrectionSecs_set_catchup_days
  channelNumber_set_siptv_timeshift
  subChannelNumber_set_siptv_timeshift
  tvgId_set_siptv_timeshift
  tvgName_set_siptv_timeshift
  radio_set_siptv_timeshift
  catchupCorrectionSecs_set_siptv_timeshift
  channelNumber_set_identity_and_timing
  subChannelNumber_set_identity_and_timing : channel_fields.

(** *** The fields of the parsed channel *)

Lemma ParseIntoChannel_returns
  (settings : Settings) (hdr : M3uHeaderStrings) (line : str)
  (channel : Channel) (mediaEntry : MediaEntry) (groupIdList : list Z)
  (providers : Providers) (epgTimeShift catchupCorrectionSecs : Z)
  (xeevCatchup : bool) :
  exists parsed,
    ParseIntoChannel settings hdr line channel mediaEntry groupIdList providers
                     epgTimeShift catchupCorrectionSecs xeevCatchup
    = Returns parsed /\
    p_groupIdList parsed = groupIdList.
Proof.
  destruct (find_char ":"%char line) as [colon|] eqn:Hc.
  - destruct (chosen_comma line) as [comma|] eqn:Hm.
    + destruct (Nat.ltb colon comma) eqn:Hlt.
      * apply Nat.ltb_lt in Hlt.
        rewrite (@ParseIntoChannel_well_formed settings hdr line colon comma channel
                   mediaEntry groupIdList providers epgTimeShift
                   catchupCorrectionSecs xeevCatchup (conj Hc (conj Hm Hlt))).
        destruct (parse_info_line_returns settings hdr (display_name line comma)
                    (info_line line colon comma)
                    (SetChannelName (display_name line comma) channel)
                    mediaEntry groupIdList providers epgTimeShift
                    catchupCorrectionSecs xeevCatchup) as [numbered [_ Hp]].
        cbv zeta in Hp. rewrite Hp. eexists. split; reflexivity.
      * unfold ParseIntoChannel. rewrite choose_comma_returns, Hc, Hm.
        cbn [bind]. rewrite Hlt. eexists. split; reflexivity.
    + unfold ParseIntoChannel. rewrite choose_comma_returns, Hc, Hm.
      cbn [bind]. eexists. split; reflexivity.
  - unfold ParseIntoChannel. rewrite choose_comma_returns, Hc.
    cbn [bind]. eexists. split; reflexivity.
Qed.

(** The attribute section with the numbering spelt out. *)
Lemma parse_info_line_blocks
  (settings : Settings) (hdr : M3uHeaderStrings) (channelName infoLine : str)
  (channel : Channel) (mediaEntry : MediaEntry) (groupIdList : list Z)
  (providers : Providers) (epgTimeShift catchupCorrectionSecs : Z)
  (xeevCatchup : bool) :
  exists numbered,
    number_channel settings (effective_channel_number infoLine) channel
    = Returns numbered /\
    same_but_number numbered channel /\
    let provided :=
      set_provider settings
        (read infoLine PROVIDER) (read infoLine PROVIDER_TYPE)
        (read infoLine PROVIDER_LOGO) (read infoLine PROVIDER_COUNTRIES)
        (read infoLine PROVIDER_LANGUAGES) providers
        (catchup_blocks settings hdr xeevCatchup channelName
           (effective_catchup hdr infoLine) (read infoLine CATCHUP_DAYS)
           (siptv_days_of infoLine)
           (set_identity_and_timing settings hdr channelName
              (effective_tvg_id infoLine)
              (UnknownToUTF8 (read infoLine TVG_INFO_NAME_MARKER))
              (UnknownToUTF8 (read infoLine CATCHUP_SOURCE))
              (read infoLine TVG_INFO_SHIFT_MARKER)
              (read infoLine RADIO_MARKER)
              (read infoLine TVG_INFO_LOGO_MARKER)
              (read infoLine CATCHUP_CORRECTION)
              epgTimeShift catchupCorrectionSecs numbered)) in
    parse_info_line settings hdr channelName infoLine channel mediaEntry groupIdList
                    providers epgTimeShift catchupCorrectionSecs xeevCatchup
    = Returns {| groupNamesListString := read infoLine GROUP_NAME_MARKER;
                 p_channel := fst provided;
                 p_mediaEntry :=
                   set_media_fields (read infoLine MEDIA_DIR)
                                    (read infoLine MEDIA_SIZE) mediaEntry;
                 p_groupIdList := groupIdList;
                 p_providers := snd provided |}.
Proof.
  destruct (number_channel_returns settings (effective_channel_number infoLine) channel)
    as [numbered [Hn Hsame]].
  exists numbered. split; [exact Hn|]. split; [exact Hsame|].
  unfold parse_info_line.
  repeat (rewrite ReadMarkerValue_returns; cbn [bind]).
  repeat (rewrite bind_if_Returns; cbn beta).
  unfold effective_channel_number in Hn. rewrite Hn. cbn [bind].
  unfold effective_catchup, effective_tvg_id, catchup_blocks, siptv_days_of. cbv zeta.
  now destruct (set_provider _ _ _ _ _ _ _ _) as [c ps].
Qed.

(** The catchup fields that a block leaves depend on the catchup fields it
    finds, and on nothing else of the channel. *)
Lemma catchup_view_inv (a b : Channel) :
  catchup_view a = catchup_view b ->
  hasCatchup a = hasCatchup b /\ catchupMode a = catchupMode b /\
  isCatchupTSStream a = isCatchupTSStream b /\ catchupDays a = catchupDays b.
Proof. unfold catchup_view. intros H. injection H as H1 H2 H3 H4. now repeat split. Qed.

Lemma view_SetHasCatchup (v : bool) (a b : Channel) :
  catchup_view a = catchup_view b ->
  catchup_view (SetHasCatchup v a) = catchup_view (SetHasCatchup v b).
Proof.
  intros H. apply catchup_view_inv in H as [H1 [H2 [H3 H4]]].
  destruct a, b. cbn in *. unfold catchup_view. cbn. congruence.
Qed.

Lemma view_SetCatchupMode (v : CatchupMode) (a b : Channel) :
  catchup_view a = catchup_view b ->
  catchup_view (SetCatchupMode v a) = catchup_view (SetCatchupMode v b).
Proof.
  intros H. apply catchup_view_inv in H as [H1 [H2 [H3 H4]]].
  destruct a, b. cbn in *. unfold catchup_view. cbn. congruence.
Qed.

Lemma view_SetCatchupTSStream (v : bool) (a b : Channel) :
  catchup_view a = catchup_view b ->
  catchup_view (SetCatchupTSStream v a) = catchup_view (SetCatchupTSStream v b).
Proof.
  intros H. apply catchup_view_inv in H as [H1 [H2 [H3 H4]]].
  destruct a, b. cbn in *. unfold catchup_view. cbn. congruence.
Qed.

Lemma view_SetCatchupDays (v : Z) (a b : Channel) :
  catchup_view a = catchup_view b ->
  catchup_view (SetCatchupDays v a) = catchup_view (SetCatchupDays v b).
Proof.
  intros H. apply catchup_view_inv in H as [H1 [H2 [H3 H4]]].
  destruct a, b. cbn in *. unfold catchup_view. cbn. congruence.
Qed.

Lemma view_set_catchup_mode (strCatchup : str) (a b : Channel) :
  catchup_view a = catchup_view b ->
  catchup_view (set_catchup_mode strCatchup a)
  = catchup_view (set_catchup_mode strCatchup b).
Proof.
  intros H. unfold set_catchup_mode. cbv zeta.
  assert (H1 : forall c : bool,
             catchup_view (if c then SetHasCatchup true a else a)
             = catchup_view (if c then SetHasCatchup true b else b))
    by (intros []; [now apply view_SetHasCatchup|exact H]).
  match goal with
  | |- context [if ?c then SetHasCatchup true a else a] =>
      specialize (H1 c);
      set (a1 := if c then SetHasCatchup true a else a) in *;
      set (b1 := if c then SetHasCatchup true b else b) in *
  end.
  assert (H2 : forall c : bool,
             forall x y, catchup_view x = catchup_view y ->
             catchup_view (if c then SetCatchupTSStream true x else x)
             = catchup_view (if c then SetCatchupTSStream true y else y))
    by (intros [] x y Hxy; [now apply view_SetCatchupTSStream|exact Hxy]).
  apply H2.
  repeat match goal with
         | |- catchup_view (if ?c then _ else _) = _ =>
             destruct c; [now apply view_SetCatchupMode|]
         end.
  exact H1.
Qed.

Lemma view_set_xeev_catchup (xeevCatchup : bool) (name : str) (a b : Channel) :
  catchup_view a = catchup_view b ->
  catchup_view (set_xeev_catchup xeevCatchup name a)
  = catchup_view (set_xeev_catchup xeevCatchup name b).
Proof.
  intros H. unfold set_xeev_catchup, HasCatchup.
  destruct (catchup_view_inv H) as [-> _].
  destruct (_ && _ && _); [|exact H].
  now apply view_SetCatchupMode, view_SetHasCatchup.
Qed.

Lemma view_set_catchup_days (settings : Settings) (hdr : M3uHeaderStrings)
  (strCatchupDays : str) (days : Z) (a b : Channel) :
  catchup_view a = catchup_view b ->
  catchup_view (set_catchup_days settings hdr strCatchupDays days a)
  = catchup_view (set_catchup_days settings hdr strCatchupDays days b).
Proof.
  intros H. unfold set_catchup_days, GetCatchupMode.
  destruct (catchup_view_inv H) as [_ [-> _]].
  repeat match goal with
         | |- catchup_view (if ?c then _ else _) = _ =>
             destruct c; [now apply view_SetCatchupDays|]
         end.
  now apply view_SetCatchupDays.
Qed.

Lemma view_set_siptv_timeshift (days : Z) (a b : Channel) :
  catchup_view a = catchup_view b ->
  catchup_view (set_siptv_timeshift days a) = catchup_view (set_siptv_timeshift days b).
Proof.
  intros H. unfold set_siptv_timeshift, HasCatchup.
  destruct (catchup_view_inv H) as [-> _].
  destruct (_ && _); [|exact H].
  now apply view_SetHasCatchup, view_SetCatchupMode.
Qed.

Lemma catchup_blocks_view (settings : Settings) (hdr : M3uHeaderStrings)
  (xeevCatchup : bool) (name strCatchup strCatchupDays : str) (days : Z)
  (a b : Channel) :
  catchup_view a = catchup_view b ->
  catchup_view (catchup_blocks settings hdr xeevCatchup name strCatchup
                               strCatchupDays days a)
  = catchup_view (catchup_blocks settings hdr xeevCatchup name strCatchup
                                 strCatchupDays days b).
Proof.
  intros H. unfold catchup_blocks.
  now apply view_set_siptv_timeshift, view_set_catchup_days, view_set_xeev_catchup,
    view_set_catchup_mode.
Qed.

Lemma set_identity_and_timing_view settings hdr name id tname src shift rad logo
  corr epg secs c :
  catchup_view (set_identity_and_timing settings hdr name id tname src shift rad
                                        logo corr epg secs c)
  = catchup_view c.
Proof. unfold catchup_view. now autorewrite with channel_fields. Qed.

(** *** What the channel builder always does *)

(** X5. [ParseIntoChannel] returns normally on every line: none of its
    [substr] calls can throw. It never changes the list of group
    identifiers it was given. *)
Theorem ParseIntoChannel_never_throws
  (settings : Settings) (hdr : M3uHeaderStrings) (line : str)
  (channel : Channel) (mediaEntry : MediaEntry) (groupIdList : list Z)
  (providers : Providers) (epgTimeShift catchupCorrectionSecs : Z)
  (xeevCatchup : bool) :
  exists parsed,
    ParseIntoChannel settings hdr line channel mediaEntry groupIdList providers
                     epgTimeShift catchupCorrectionSecs xeevCatchup
    = Returns parsed /\
    p_groupIdList parsed = groupIdList.
Proof.
  exact (ParseIntoChannel_returns settings hdr line channel mediaEntry groupIdList
           providers epgTimeShift catchupCorrectionSecs xeevCatchup).
Qed.

(** On a well-formed line: the catchup fields of the result are those the
    four catchup blocks leave when they start from the scratch channel. *)
Lemma ParseIntoChannel_catchup_view
  (settings : Settings) (hdr : M3uHeaderStrings) (line : str) (colon comma : nat)
  (channel : Channel) (mediaEntry : MediaEntry) (groupIdList : list Z)
  (providers : Providers) (epgTimeShift catchupCorrectionSecs : Z)
  (xeevCatchup : bool) :
  well_formed line colon comma ->
  exists parsed,
    ParseIntoChannel settings hdr line channel mediaEntry groupIdList providers
                     epgTimeShift catchupCorrectionSecs xeevCatchup
    = Returns parsed /\
    catchup_view (p_channel parsed)
    = catchup_view
        (catchup_blocks settings hdr xeevCatchup (display_name line comma)
           (effective_catchup hdr (info_line line colon comma))
           (read (info_line line colon comma) CATCHUP_DAYS)
           (siptv_days_of (info_line line colon comma)) channel).
Proof.
  intros Hwf. rewrite (ParseIntoChannel_well_formed _ _ _ _ _ _ _ _ _ Hwf).
  destruct (parse_info_line_blocks settings hdr (display_name line comma)
              (info_line line colon comma)
              (SetChannelName (display_name line comma) channel)
              mediaEntry groupIdList providers epgTimeShift
              catchupCorrectionSecs xeevCatchup) as [numbered [_ [Hsame Hp]]].
  cbv zeta in Hp. rewrite Hp. eexists. split; [reflexivity|].
  cbn [p_channel].
  match goal with
  | |- context [fst (set_provider ?s ?n ?t ?i ?cs ?ls ?ps ?c)] =>
      destruct (set_provider_same s n t i cs ls ps c)
        as [_ [_ [H1 [H2 [H3 [H4 _]]]]]];
      replace (catchup_view (fst (set_provider s n t i cs ls ps c)))
        with (catchup_view c) by (unfold catchup_view; congruence)
  end.
  apply catchup_blocks_view. rewrite set_identity_and_timing_view.
  destruct Hsame as [_ [_ [_ [_ [_ [_ [_ [Ha [Hb [Hc [_ [Hd _]]]]]]]]]]]].
  unfold catchup_view. rewrite Ha, Hb, Hc, Hd. now destruct channel.
Qed.

(** On a well-formed line: the identity fields of the result, the string
    returned and the media entry. *)
Lemma ParseIntoChannel_identity
  (settings : Settings) (hdr : M3uHeaderStrings) (line : str) (colon comma : nat)
  (channel : Channel) (mediaEntry : MediaEntry) (groupIdList : list Z)
  (providers : Providers) (epgTimeShift correction : Z)
  (xeevCatchup : bool) :
  well_formed line colon comma ->
  exists parsed numbered,
    ParseIntoChannel settings hdr line channel mediaEntry groupIdList providers
                     epgTimeShift correction xeevCatchup
    = Returns parsed /\
    number_channel settings (effective_channel_number (info_line line colon comma))
                   (SetChannelName (display_name line comma) channel)
    = Returns numbered /\
    channelNumber (p_channel parsed) = channelNumber numbered /\
    subChannelNumber (p_channel parsed) = subChannelNumber numbered /\
    tvgId (p_channel parsed) = effective_tvg_id (info_line line colon comma) /\
    tvgName (p_channel parsed)
    = UnknownToUTF8 (read (info_line line colon comma) TVG_INFO_NAME_MARKER) /\
    radio (p_channel parsed)
    = EqualsNoCase (read (info_line line colon comma) RADIO_MARKER) (lit "true") /\
    catchupCorrectionSecs (p_channel parsed)
    = (if empty (read (info_line line colon comma) CATCHUP_CORRECTION)
       then correction
       else hours_to_secs (atof (read (info_line line colon comma) CATCHUP_CORRECTION))) /\
    groupNamesListString parsed = read (info_line line colon comma) GROUP_NAME_MARKER /\
    p_mediaEntry parsed
    = set_media_fields (read (info_line line colon comma) MEDIA_DIR)
                       (read (info_line line colon comma) MEDIA_SIZE) mediaEntry.
Proof.
  intros Hwf. rewrite (ParseIntoChannel_well_formed _ _ _ _ _ _ _ _ _ Hwf).
  destruct (parse_info_line_blocks settings hdr (display_name line comma)
              (info_line line colon comma)
              (SetChannelName (display_name line comma) channel)
              mediaEntry groupIdList providers epgTimeShift
              correction xeevCatchup) as [numbered [Hn [Hsame Hp]]].
  cbv zeta in Hp. rewrite Hp. eexists. exists numbered. split; [reflexivity|].
  cbn [p_channel p_mediaEntry groupNamesListString].
  match goal with
  | |- context [fst (set_provider ?s ?n ?t ?i ?cs ?ls ?ps ?c)] =>
      destruct (set_provider_same_identity s n t i cs ls ps c)
        as [-> [-> [-> [-> [-> ->]]]]]
  end.
  unfold catchup_blocks. autorewrite with channel_fields.
  split; [exact Hn|].
  unfold set_identity_and_timing, SetIconPathFromTvgLogo.
  repeat split; split_ifs; destruct numbered; reflexivity.
Qed.

(** *** Catchup, block by block *)

Lemma mode_of_token_not_disabled (token : str) (mode : CatchupMode) :
  mode_of_token token = Some mode -> mode <> DISABLED.
Proof.
  unfold mode_of_token, token_modes. cbn [lookup_token].
  repeat match goal with
         | |- context [if ?b then _ else _] => destruct b
         end;
    intros H; try discriminate H; injection H as <-; discriminate.
Qed.

(** A token that is not in the table leaves the channel as it is. *)
Lemma set_catchup_mode_unrecognised (token : str) (c : Channel) :
  mode_of_token token = None -> set_catchup_mode token c = c.
Proof.
  unfold mode_of_token, token_modes, set_catchup_mode. cbn [lookup_token].
  destruct (EqualsNoCase token (lit "default")); [discriminate|].
  destruct (EqualsNoCase token (lit "append")); [discriminate|].
  destruct (EqualsNoCase token (lit "shift")); [discriminate|].
  destruct (EqualsNoCase token (lit "flussonic")); [discriminate|].
  destruct (EqualsNoCase token (lit "flussonic-hls")); [discriminate|].
  destruct (EqualsNoCase token (lit "flussonic-ts")); [discriminate|].
  destruct (EqualsNoCase token (lit "fs")); [discriminate|].
  destruct (EqualsNoCase token (lit "xc")); [discriminate|].
  destruct (EqualsNoCase token (lit "vod")); [discriminate|].
  reflexivity.
Qed.

Lemma catchup_blocks_consistent (settings : Settings) (hdr : M3uHeaderStrings)
  (xeevCatchup : bool) (name strCatchup strCatchupDays : str) (days : Z)
  (c : Channel) :
  catchup_consistent c ->
  catchup_consistent
    (catchup_blocks settings hdr xeevCatchup name strCatchup strCatchupDays days c).
Proof.
  intros Hc. unfold catchup_blocks.
  assert (H1 : catchup_consistent (set_catchup_mode strCatchup c)).
  { destruct (mode_of_token strCatchup) as [m|] eqn:Hm.
    - destruct (set_catchup_mode_recognised strCatchup c Hm) as [Hh Hmode].
      apply mode_of_token_not_disabled in Hm.
      unfold catchup_consistent. rewrite Hh, Hmode. split; [intros _; exact Hm|reflexivity].
    - now rewrite set_catchup_mode_unrecognised. }
  set (c1 := set_catchup_mode strCatchup c) in *.
  assert (H2 : catchup_consistent (set_xeev_catchup xeevCatchup name c1)).
  { unfold set_xeev_catchup. destruct (_ && _ && _); [|exact H1].
    unfold catchup_consistent. destruct c1. cbn.
    split; [intros _; discriminate|reflexivity]. }
  set (c2 := set_xeev_catchup xeevCatchup name c1) in *.
  assert (H3 : catchup_consistent (set_catchup_days settings hdr strCatchupDays days c2)).
  { unfold catchup_consistent.
    now rewrite hasCatchup_set_catchup_days, catchupMode_set_catchup_days. }
  set (c3 := set_catchup_days settings hdr strCatchupDays days c2) in *.
  unfold set_siptv_timeshift. destruct (_ && _); [|exact H3].
  unfold catchup_consistent. destruct c3. cbn.
  split; [intros _; discriminate|reflexivity].
Qed.

(** X6. [ParseIntoChannel] keeps the link between the catchup flag and the
    catchup mode: when the scratch channel has catchup exactly if its mode is
    not [DISABLED], so has the channel after a well-formed line, whatever the
    attributes and the header say. *)
Theorem ParseIntoChannel_catchup_consistent
  (settings : Settings) (hdr : M3uHeaderStrings) (line : str) (colon comma : nat)
  (channel : Channel) (mediaEntry : MediaEntry) (groupIdList : list Z)
  (providers : Providers) (epgTimeShift catchupCorrectionSecs : Z)
  (xeevCatchup : bool) :
  well_formed line colon comma ->
  catchup_consistent channel ->
  exists parsed,
    ParseIntoChannel settings hdr line channel mediaEntry groupIdList providers
                     epgTimeShift catchupCorrectionSecs xeevCatchup
    = Returns parsed /\
    catchup_consistent (p_channel parsed).
Proof.
  intros Hwf Hc.
  destruct (ParseIntoChannel_catchup_view settings hdr channel mediaEntry groupIdList
              providers epgTimeShift catchupCorrectionSecs xeevCatchup Hwf)
    as [parsed [Hp Hv]].
  exists parsed. split; [exact Hp|].
  apply catchup_view_inv in Hv as [Hh [Hm _]].
  unfold catchup_consistent. rewrite Hh, Hm.
  now apply catchup_blocks_consistent.
Qed.

Lemma CatchupMode_eqb_VOD (m : CatchupMode) :
  m <> VOD -> CatchupMode_eqb m VOD = false.
Proof. destruct m; intros H; try reflexivity. now contradiction H. Qed.

Lemma catchupDays_SetCatchupDays (v : Z) (c : Channel) :
  catchupDays (SetCatchupDays v c) = v.
Proof. now destruct c. Qed.

(** X7. The catchup days after a well-formed line, when the header has no
    catchup source: a [catchup-days] attribute with a value gives its integer
    value; without it, the token [vod] gives the [IGNORE_CATCHUP_DAYS]
    sentinel; and when the mode is not [VOD] (another token of the table, or
    no such token and a scratch channel that is not in [VOD] mode) a positive
    day count of [timeshift] or [tvg-rec] is taken, else the default of the
    settings. *)
Theorem ParseIntoChannel_catchup_days
  (settings : Settings) (hdr : M3uHeaderStrings) (line : str) (colon comma : nat)
  (channel : Channel) (mediaEntry : MediaEntry) (groupIdList : list Z)
  (providers : Providers) (epgTimeShift catchupCorrectionSecs : Z)
  (xeevCatchup : bool) :
  well_formed line colon comma ->
  m_catchupSource hdr = [] ->
  exists parsed,
    ParseIntoChannel settings hdr line channel mediaEntry groupIdList providers
                     epgTimeShift catchupCorrectionSecs xeevCatchup
    = Returns parsed /\
    (read (info_line line colon comma) CATCHUP_DAYS <> [] ->
     catchupDays (p_channel parsed)
     = atoi (read (info_line line colon comma) CATCHUP_DAYS)) /\
    (read (info_line line colon comma) CATCHUP_DAYS = [] ->
     mode_of_token (effective_catchup hdr (info_line line colon comma)) = Some VOD ->
     catchupDays (p_channel parsed) = IGNORE_CATCHUP_DAYS) /\
    (read (info_line line colon comma) CATCHUP_DAYS = [] ->
     mode_of_token (effective_catchup hdr (info_line line colon comma)) <> Some VOD ->
     (mode_of_token (effective_catchup hdr (info_line line colon comma)) = None ->
      catchupMode channel <> VOD) ->
     catchupDays (p_channel parsed)
     = if (0 <? siptv_days_of (info_line line colon comma))%Z
       then siptv_days_of (info_line line colon comma)
       else GetCatchupDays settings).
Proof.
  intros Hwf Hsrc.
  destruct (ParseIntoChannel_catchup_view settings hdr channel mediaEntry groupIdList
              providers epgTimeShift catchupCorrectionSecs xeevCatchup Hwf)
    as [parsed [Hp Hv]].
  exists parsed. split; [exact Hp|].
  apply catchup_view_inv in Hv as [_ [_ [_ ->]]].
  unfold catchup_blocks. rewrite catchupDays_set_siptv_timeshift.
  set (tok := effective_catchup hdr (info_line line colon comma)).
  set (attr := read (info_line line colon comma) CATCHUP_DAYS).
  set (days := siptv_days_of (info_line line colon comma)).
  unfold set_catchup_days. rewrite Hsrc. cbn [empty negb].
  split; [|split].
  - intros Hattr. destruct attr; [contradiction|]. cbn [empty negb].
    apply catchupDays_SetCatchupDays.
  - intros -> Htok. cbn [empty negb].
    destruct (set_catchup_mode_recognised tok channel Htok) as [Hh Hm].
    rewrite set_xeev_catchup_has by exact Hh.
    unfold GetCatchupMode. rewrite Hm. cbn [CatchupMode_eqb].
    apply catchupDays_SetCatchupDays.
  - intros -> Hnot Hscratch. cbn [empty negb].
    assert (Hmode : catchupMode (set_xeev_catchup xeevCatchup (display_name line comma)
                                   (set_catchup_mode tok channel)) <> VOD).
    { destruct (mode_of_token tok) as [m|] eqn:Htok.
      - destruct (set_catchup_mode_recognised tok channel Htok) as [Hh Hm].
        rewrite set_xeev_catchup_has by exact Hh. rewrite Hm.
        intros ->. now apply Hnot.
      - rewrite set_catchup_mode_unrecognised by exact Htok.
        unfold set_xeev_catchup. destruct (_ && _ && _).
        + destruct channel. discriminate.
        + now apply Hscratch. }
    unfold GetCatchupMode. rewrite (@CatchupMode_eqb_VOD _ Hmode).
    destruct (0 <? days)%Z; apply catchupDays_SetCatchupDays.
Qed.

(** The catchup blocks on a token that is not in the table. *)
Lemma catchup_blocks_unrecognised (settings : Settings) (hdr : M3uHeaderStrings)
  (xeevCatchup : bool) (name token strCatchupDays : str) (days : Z) (c : Channel) :
  mode_of_token token = None ->
  hasCatchup (catchup_blocks settings hdr xeevCatchup name token strCatchupDays days c)
  = hasCatchup c || xeev_applies xeevCatchup name || (0 <? days)%Z /\
  catchupMode (catchup_blocks settings hdr xeevCatchup name token strCatchupDays days c)
  = (if hasCatchup c then catchupMode c
     else if xeev_applies xeevCatchup name then XTREAM_CODES
     else if (0 <? days)%Z then TIMESHIFT else catchupMode c) /\
  isCatchupTSStream
    (catchup_blocks settings hdr xeevCatchup name token strCatchupDays days c)
  = isCatchupTSStream c.
Proof.
  intros Htok. unfold catchup_blocks.
  rewrite (set_catchup_mode_unrecognised token c Htok).
  rewrite isCatchupTSStream_set_siptv_timeshift, isCatchupTSStream_set_catchup_days,
    isCatchupTSStream_set_xeev_catchup.
  unfold set_siptv_timeshift, HasCatchup.
  rewrite hasCatchup_set_catchup_days.
  assert (Hx : hasCatchup (set_xeev_catchup xeevCatchup name c)
               = hasCatchup c || xeev_applies xeevCatchup name /\
               catchupMode (set_xeev_catchup xeevCatchup name c)
               = if hasCatchup c then catchupMode c
                 else if xeev_applies xeevCatchup name then XTREAM_CODES
                 else catchupMode c).
  { unfold set_xeev_catchup, xeev_applies, HasCatchup.
    destruct (hasCatchup c) eqn:Hh; cbn [negb andb orb].
    - now rewrite Hh.
    - destruct (xeevCatchup && _); [destruct c; split; reflexivity|].
      now rewrite Hh. }
  destruct Hx as [Hxh Hxm]. rewrite Hxh.
  destruct (hasCatchup c) eqn:Hh; cbn [negb andb orb].
  - rewrite hasCatchup_set_catchup_days, catchupMode_set_catchup_days, Hxh, Hxm.
    repeat split.
  - destruct (xeev_applies xeevCatchup name) eqn:Hxa; cbn [negb andb orb].
    + rewrite hasCatchup_set_catchup_days, catchupMode_set_catchup_days, Hxh, Hxm.
      repeat split.
    + destruct (0 <? days)%Z.
      * match goal with
        | |- context [SetCatchupMode TIMESHIFT ?x] => destruct x
        end. repeat split.
      * rewrite hasCatchup_set_catchup_days, catchupMode_set_catchup_days, Hxh, Hxm.
        repeat split.
Qed.

(** X8. When the effective catchup token is not one of the table and the
    scratch channel has no catchup, a well-formed line gives: mode
    [XTREAM_CODES] with catchup when the header's xeev flag is set and the
    name begins with [* ] or [[+] ]; otherwise mode [TIMESHIFT] with catchup
    when [timeshift] (or [tvg-rec]) has a positive day count; otherwise no
    catchup, and the mode of the scratch channel. The transport-stream flag
    is the scratch channel's in all three cases. *)
Theorem ParseIntoChannel_catchup_fallbacks
  (settings : Settings) (hdr : M3uHeaderStrings) (line : str) (colon comma : nat)
  (channel : Channel) (mediaEntry : MediaEntry) (groupIdList : list Z)
  (providers : Providers) (epgTimeShift catchupCorrectionSecs : Z)
  (xeevCatchup : bool) :
  well_formed line colon comma ->
  mode_of_token (effective_catchup hdr (info_line line colon comma)) = None ->
  hasCatchup channel = false ->
  exists parsed,
    ParseIntoChannel settings hdr line channel mediaEntry groupIdList providers
                     epgTimeShift catchupCorrectionSecs xeevCatchup
    = Returns parsed /\
    isCatchupTSStream (p_channel parsed) = isCatchupTSStream channel /\
    (hasCatchup (p_channel parsed), catchupMode (p_channel parsed))
    = (if xeev_applies xeevCatchup (display_name line comma)
       then (true, XTREAM_CODES)
       else if (0 <? siptv_days_of (info_line line colon comma))%Z
       then (true, TIMESHIFT)
       else (false, catchupMode channel)).
Proof.
  intros Hwf Htok Hh.
  destruct (ParseIntoChannel_catchup_view settings hdr channel mediaEntry groupIdList
              providers epgTimeShift catchupCorrectionSecs xeevCatchup Hwf)
    as [parsed [Hp Hv]].
  exists parsed. split; [exact Hp|].
  apply catchup_view_inv in Hv as [-> [-> [-> _]]].
  destruct (catchup_blocks_unrecognised settings hdr xeevCatchup
              (display_name line comma)
              (effective_catchup hdr (info_line line colon comma))
              (read (info_line line colon comma) CATCHUP_DAYS)
              (siptv_days_of (info_line line colon comma)) channel Htok)
    as [-> [-> ->]].
  rewrite Hh. cbn [orb]. split; [reflexivity|].
  destruct (xeev_applies _ _); [reflexivity|].
  now destruct (0 <? _)%Z.
Qed.

(** *** Identity, numbering and media *)

Lemma sprintf_d_not_empty (n : Z) : sprintf_d n <> [].
Proof.
  unfold sprintf_d. destruct (Z.to_int n) as [d|d]; cbn.
  - destruct d; discriminate.
  - discriminate.
Qed.

(** X9. After a well-formed line the channel's [tvgId] is never empty: it is
    the [tvg-id] attribute, else the [tvg-ID] attribute, else the decimal
    form of the integer that begins the attribute section (0 when there is
    none). *)
Theorem ParseIntoChannel_tvg_id
  (settings : Settings) (hdr : M3uHeaderStrings) (line : str) (colon comma : nat)
  (channel : Channel) (mediaEntry : MediaEntry) (groupIdList : list Z)
  (providers : Providers) (epgTimeShift catchupCorrectionSecs : Z)
  (xeevCatchup : bool) :
  well_formed line colon comma ->
  exists parsed,
    ParseIntoChannel settings hdr line channel mediaEntry groupIdList providers
                     epgTimeShift catchupCorrectionSecs xeevCatchup
    = Returns parsed /\
    tvgId (p_channel parsed) <> [] /\
    tvgId (p_channel parsed)
    = match read (info_line line colon comma) TVG_INFO_ID_MARKER,
            read (info_line line colon comma) TVG_INFO_ID_MARKER_UC with
      | [], [] => sprintf_d (atoi (info_line line colon comma))
      | [], upper => upper
      | lower, _ => lower
      end.
Proof.
  intros Hwf.
  destruct (ParseIntoChannel_identity settings hdr channel mediaEntry groupIdList
              providers epgTimeShift catchupCorrectionSecs xeevCatchup Hwf)
    as [parsed [numbered [Hp [_ [_ [_ [Hid _]]]]]]].
  exists parsed. split; [exact Hp|]. rewrite Hid. unfold effective_tvg_id.
  destruct (read (info_line line colon comma) TVG_INFO_ID_MARKER) as [|a lower].
  - destruct (read (info_line line colon comma) TVG_INFO_ID_MARKER_UC) as [|b upper].
    + cbn. split; [apply sprintf_d_not_empty|reflexivity].
    + cbn. split; [discriminate|reflexivity].
  - cbn. split; [discriminate|reflexivity].
Qed.

Lemma find_char_first (c : ascii) (a b : str) :
  ~ In c a -> find_char c (a ++ c :: b) = Some (length a).
Proof.
  induction a as [|x a IH]; cbn; intros H.
  - now rewrite Ascii.eqb_refl.
  - destruct (Ascii.eqb x c) eqn:E.
    + apply Ascii.eqb_eq in E. exfalso. apply H. now left.
    + rewrite IH; [reflexivity|]. intros Hin. apply H. now right.
Qed.

(** X10. Channel numbers after a well-formed line. When the settings number
    channels by playlist order only, or the line has neither [tvg-chno] nor
    [channel-number], the numbers of the scratch channel stay. Otherwise a
    value [major.minor] gives the integer of [major] as channel number and
    that of [minor] as sub-channel number (the value is cut at its first
    dot), and a value without dot gives its integer as channel number and
    leaves the sub-channel number. *)
Theorem ParseIntoChannel_numbering
  (settings : Settings) (hdr : M3uHeaderStrings) (line : str) (colon comma : nat)
  (channel : Channel) (mediaEntry : MediaEntry) (groupIdList : list Z)
  (providers : Providers) (epgTimeShift catchupCorrectionSecs : Z)
  (xeevCatchup : bool) :
  well_formed line colon comma ->
  exists parsed,
    ParseIntoChannel settings hdr line channel mediaEntry groupIdList providers
                     epgTimeShift catchupCorrectionSecs xeevCatchup
    = Returns parsed /\
    (NumberChannelsByM3uOrderOnly settings = true \/
     effective_channel_number (info_line line colon comma) = [] ->
     channelNumber (p_channel parsed) = channelNumber channel /\
     subChannelNumber (p_channel parsed) = subChannelNumber channel) /\
    (NumberChannelsByM3uOrderOnly settings = false ->
     forall major minor,
       effective_channel_number (info_line line colon comma)
       = major ++ "."%char :: minor ->
       ~ In "."%char major ->
       channelNumber (p_channel parsed) = atoi major /\
       subChannelNumber (p_channel parsed) = atoi minor) /\
    (NumberChannelsByM3uOrderOnly settings = false ->
     effective_channel_number (info_line line colon comma) <> [] ->
     ~ In "."%char (effective_channel_number (info_line line colon comma)) ->
     channelNumber (p_channel parsed)
     = atoi (effective_channel_number (info_line line colon comma)) /\
     subChannelNumber (p_channel parsed) = subChannelNumber channel).
Proof.
  intros Hwf.
  destruct (ParseIntoChannel_identity settings hdr channel mediaEntry groupIdList
              providers epgTimeShift catchupCorrectionSecs xeevCatchup Hwf)
    as [parsed [numbered [Hp [Hn [Hc [Hs _]]]]]].
  exists parsed. split; [exact Hp|]. rewrite Hc, Hs. clear Hc Hs.
  set (s := effective_channel_number (info_line line colon comma)) in *.
  unfold number_channel in Hn.
  split; [|split].
  - intros [Hord|Hempty].
    + rewrite Hord, andb_false_r in Hn. injection Hn as <-. now destruct channel.
    + rewrite Hempty in Hn. cbn in Hn. injection Hn as <-. now destruct channel.
  - intros Hord major minor Hs Hdot. rewrite Hord, Hs in Hn.
    replace (empty (major ++ "."%char :: minor)) with false in Hn
      by now destruct major.
    cbn [negb andb] in Hn. rewrite (@find_char_first "."%char major minor Hdot) in Hn.
    rewrite !substr_in_range in Hn by (rewrite length_app; cbn; lia).
    cbn [bind] in Hn. injection Hn as <-.
    cbn [skipn]. rewrite firstn_app, Nat.sub_diag, firstn_all, app_nil_r.
    replace (length major + 1) with (length major + length ["."%char]) by (cbn; lia).
    replace (major ++ "."%char :: minor) with (major ++ ["."%char] ++ minor)
      by reflexivity.
    rewrite skipn_past. now destruct channel.
  - intros Hord Hne Hdot. rewrite Hord in Hn.
    replace (empty s) with false in Hn by now destruct s.
    cbn [negb andb] in Hn. rewrite (find_char_absent _ _ Hdot) in Hn.
    injection Hn as <-. now destruct channel.
Qed.

(** X11. After a well-formed line the channel's catchup correction is the
    [catchup-correction] attribute read as hours by [atof], multiplied by
    3600.0 and converted to [int], when the attribute has a value, and the
    default that was passed in otherwise; the radio flag is written whether
    the attribute is there or not: true exactly when [radio] is [true] in
    any case of letters. *)
Theorem ParseIntoChannel_correction_and_radio
  (settings : Settings) (hdr : M3uHeaderStrings) (line : str) (colon comma : nat)
  (channel : Channel) (mediaEntry : MediaEntry) (groupIdList : list Z)
  (providers : Providers) (epgTimeShift correction : Z) (xeevCatchup : bool) :
  well_formed line colon comma ->
  exists parsed,
    ParseIntoChannel settings hdr line channel mediaEntry groupIdList providers
                     epgTimeShift correction xeevCatchup
    = Returns parsed /\
    catchupCorrectionSecs (p_channel parsed)
    = (if empty (read (info_line line colon comma) CATCHUP_CORRECTION)
       then correction
       else hours_to_secs (atof (read (info_line line colon comma) CATCHUP_CORRECTION))) /\
    radio (p_channel parsed)
    = EqualsNoCase (read (info_line line colon comma) RADIO_MARKER) (lit "true").
Proof.
  intros Hwf.
  destruct (ParseIntoChannel_identity settings hdr channel mediaEntry groupIdList
              providers epgTimeShift correction xeevCatchup Hwf)
    as [parsed [numbered [Hp [_ [_ [_ [_ [_ [Hr [Hc _]]]]]]]]]].
  exists parsed. now repeat split.
Qed.

(** X12. A well-formed line returns its [group-title] attribute as it is
    read, without splitting it. Of the media entry it writes the directory,
    when [media-dir] has a value, and the size, when [media-size] has one
    (read by [strtoll]); every other part of the media entry stays. *)
Theorem ParseIntoChannel_group_and_media
  (settings : Settings) (hdr : M3uHeaderStrings) (line : str) (colon comma : nat)
  (channel : Channel) (mediaEntry : MediaEntry) (groupIdList : list Z)
  (providers : Providers) (epgTimeShift catchupCorrectionSecs : Z)
  (xeevCatchup : bool) :
  well_formed line colon comma ->
  exists parsed,
    ParseIntoChannel settings hdr line channel mediaEntry groupIdList providers
                     epgTimeShift catchupCorrectionSecs xeevCatchup
    = Returns parsed /\
    groupNamesListString parsed = read (info_line line colon comma) GROUP_NAME_MARKER /\
    directory (p_mediaEntry parsed)
    = (if empty (read (info_line line colon comma) MEDIA_DIR)
       then directory mediaEntry
       else read (info_line line colon comma) MEDIA_DIR) /\
    sizeInBytes (p_mediaEntry parsed)
    = (if empty (read (info_line line colon comma) MEDIA_SIZE)
       then sizeInBytes mediaEntry
       else strtoll (read (info_line line colon comma) MEDIA_SIZE)) /\
    mediaStreamURL (p_mediaEntry parsed) = mediaStreamURL mediaEntry /\
    mediaFrom (p_mediaEntry parsed) = mediaFrom mediaEntry.
Proof.
  intros Hwf.
  destruct (ParseIntoChannel_identity settings hdr channel mediaEntry groupIdList
              providers epgTimeShift catchupCorrectionSecs xeevCatchup Hwf)
    as [parsed [numbered [Hp [_ [_ [_ [_ [_ [_ [_ [Hg Hm]]]]]]]]]]].
  exists parsed. split; [exact Hp|]. split; [exact Hg|].
  rewrite Hm. unfold set_media_fields.
  destruct (empty (read (info_line line colon comma) MEDIA_DIR)),
           (empty (read (info_line line colon comma) MEDIA_SIZE));
    destruct mediaEntry; repeat split.
Qed.

(** *** Writing an attribute and reading it back *)

Lemma find_str_first (marker line pre rest : str) :
  first_occurrence marker line pre rest -> find_str marker line = Some (length pre).
Proof.
  intros [Hline Hmin].
  destruct (find_str marker line) as [i|] eqn:Hfind.
  - destruct (@find_str_Some marker line i Hfind) as [rest' [[Hline' Hmin'] Hlen]].
    apply Hmin in Hline' as H1. apply Hmin' in Hline as H2.
    f_equal. lia.
  - exfalso. exact (@find_str_None marker line Hfind pre rest Hline).
Qed.

Lemma ReadMarkerValue_first (marker line pre rest : str) :
  first_occurrence marker line pre rest ->
  ReadMarkerValue line marker = Returns (marker_value rest).
Proof.
  intros Hocc. pose proof (find_str_first Hocc) as Hfind.
  destruct Hocc as [Hline _]. subst line. now apply ReadMarkerValue_at.
Qed.

Lemma up_to_stop (c : ascii) (value post : str) :
  ~ In c value -> up_to c (value ++ c :: post) = value.
Proof.
  induction value as [|x t IH]; cbn; intros H.
  - now rewrite Ascii.eqb_refl.
  - destruct (Ascii.eqb x c) eqn:E.
    + apply Ascii.eqb_eq in E. exfalso. apply H. now left.
    + rewrite IH; [reflexivity|]. intros Hin. apply H. now right.
Qed.

Lemma up_to_end (c : ascii) (value : str) : ~ In c value -> up_to c value = value.
Proof.
  induction value as [|x t IH]; cbn; intros H; [reflexivity|].
  destruct (Ascii.eqb x c) eqn:E.
  - apply Ascii.eqb_eq in E. exfalso. apply H. now left.
  - rewrite IH; [reflexivity|]. intros Hin. apply H. now right.
Qed.

(** X13. A value without double quote that is written between double quotes
    right after the first occurrence of the marker is read back as it was
    written, whatever follows the closing quote; so is one whose closing
    quote is missing, when it runs to the end of the line. *)
Theorem ReadMarkerValue_quoted (line marker pre value rest : str) :
  ~ In dq value ->
  first_occurrence marker line pre (dq :: value ++ rest) ->
  rest = [] \/ (exists post, rest = dq :: post) ->
  ReadMarkerValue line marker = Returns value.
Proof.
  intros Hno Hocc Hrest. rewrite (ReadMarkerValue_first Hocc).
  unfold marker_value. rewrite Ascii.eqb_refl. f_equal.
  destruct Hrest as [->|[post ->]].
  - rewrite app_nil_r. now apply up_to_end.
  - now apply up_to_stop.
Qed.

(** X14. A value without blank that does not begin with a double quote and
    is written bare right after the first occurrence of the marker is read
    back as it was written when a blank or the end of the line follows it;
    double quotes inside such a value are kept. *)
Theorem ReadMarkerValue_bare (line marker pre value rest : str) :
  ~ In " "%char value ->
  (forall tail, value <> dq :: tail) ->
  first_occurrence marker line pre (value ++ rest) ->
  rest = [] \/ (exists post, rest = " "%char :: post) ->
  ReadMarkerValue line marker = Returns value.
Proof.
  intros Hno Hbare Hocc Hrest. rewrite (ReadMarkerValue_first Hocc).
  f_equal. unfold marker_value.
  destruct Hrest as [->|[post ->]].
  - rewrite app_nil_r. destruct value as [|c t]; [reflexivity|].
    destruct (Ascii.eqb c dq) eqn:E.
    + apply Ascii.eqb_eq in E. subst c. now contradiction (Hbare t).
    + now apply up_to_end.
  - destruct value as [|c t].
    + cbn. reflexivity.
    + cbn [app]. destruct (Ascii.eqb c dq) eqn:E.
      * apply Ascii.eqb_eq in E. subst c. now contradiction (Hbare t).
      * exact (@up_to_stop " "%char (c :: t) post Hno).
Qed.

Lemma up_to_split (c : ascii) (s : str) :
  exists tail, s = up_to c s ++ tail /\ ~ In c (up_to c s).
Proof.
  induction s as [|x t [tail [Ht Hno]]]; cbn.
  - exists []. split; [reflexivity|intros []].
  - destruct (Ascii.eqb x c) eqn:E.
    + exists (x :: t). split; [reflexivity|intros []].
    + exists tail. split; [cbn; now rewrite <- Ht|].
      intros [->|Hin]; [|now apply Hno].
      now rewrite Ascii.eqb_refl in E.
Qed.

(** X15. Whatever the line and the marker, [ReadMarkerValue] returns
    normally. A value that is not empty is a piece of the line that stands
    right after an occurrence of the marker, or after the double quote that
    follows it; and the value has no double quote in it, or no blank. *)
Theorem ReadMarkerValue_piece (line marker : str) :
  exists value,
    ReadMarkerValue line marker = Returns value /\
    (~ In dq value \/ ~ In " "%char value) /\
    (value <> [] ->
     exists before opening after,
       line = before ++ marker ++ opening ++ value ++ after /\
       (opening = [] \/ opening = [dq])).
Proof.
  destruct (ReadMarkerValue_cases line marker) as [[_ H]|[pre [rest [[Hline _] H]]]].
  - exists []. split; [exact H|]. split; [left; intros []|]. now intros Hne.
  - rewrite H. destruct rest as [|c r].
    + exists []. split; [reflexivity|]. split; [left; intros []|]. now intros Hne.
    + destruct (Ascii.eqb c dq) eqn:E.
      * apply Ascii.eqb_eq in E. subst c.
        destruct (up_to_split dq r) as [tail [Hr Hno]].
        exists (up_to dq r). split; [reflexivity|]. split; [now left|].
        intros _. exists pre, [dq], tail. split; [|now right].
        cbn [app]. now rewrite <- Hr.
      * destruct (up_to_split " "%char (c :: r)) as [tail [Hr Hno]].
        exists (up_to " "%char (c :: r)). split; [reflexivity|]. split; [now right|].
        intros _. exists pre, [], tail. split; [|now left].
        cbn [app]. now rewrite <- Hr.
Qed.

(** *** Single properties *)

Lemma str_eqb_eq (a b : str) : str_eqb a b = true <-> a = b.
Proof.
  unfold str_eqb. destruct (list_eq_dec ascii_dec a b) as [E|E]; split; intros H;
    try assumption; try reflexivity; [discriminate|contradiction].
Qed.

Lemma str_eqb_neq (a b : str) : str_eqb a b = false <-> a <> b.
Proof.
  unfold str_eqb. destruct (list_eq_dec ascii_dec a b) as [E|E]; split; intros H;
    try assumption; try reflexivity; [discriminate|contradiction].
Qed.

Lemma same_but_log_Log (lv : LogLevel) (fmt : String.string) (l : Loader) :
  same_but_log l (Log lv fmt l).
Proof. destruct l. unfold same_but_log. cbn. repeat split. Qed.

Lemma same_but_log_refl (l : Loader) : same_but_log l l.
Proof. unfold same_but_log. repeat split. Qed.

(** The property reader with the marker value spelt out. *)
Lemma ParseSinglePropertyIntoChannel_cases (line : str) (channel : Channel)
  (markerName : str) (l : Loader) :
  (find_char "="%char (read line markerName) = None /\
   ParseSinglePropertyIntoChannel line channel markerName l = Returns (channel, l))
  \/
  (exists key value,
      read line markerName = key ++ "="%char :: value /\ ~ In "="%char key /\
      ParseSinglePropertyIntoChannel line channel markerName l
      = Returns
          ((if str_eqb markerName EXTVLCOPT_DASH_MARKER then
              if str_eqb (ToLower key) (lit "http-reconnect")
              then AddProperty (ToLower key) value channel else channel
            else if str_eqb markerName EXTVLCOPT_MARKER then
              if str_eqb (ToLower key) (lit "http-user-agent") ||
                 str_eqb (ToLower key) (lit "http-referrer") ||
                 str_eqb (ToLower key) (lit "program")
              then AddProperty (ToLower key) value channel else channel
            else if str_eqb markerName KODIPROP_MARKER
            then AddProperty (kodiprop_key key) value channel
            else AddProperty (ToLower key) value channel),
           Log LEVEL_DEBUG "%s - Found %s property: '%s' value: '%s' added: %s" l)).
Proof.
  unfold ParseSinglePropertyIntoChannel.
  rewrite ReadMarkerValue_returns. cbn [bind].
  destruct (find_char "="%char (read line markerName)) as [pos|] eqn:Hpos.
  - right.
    pose proof (find_char_lt _ _ Hpos) as Hlt.
    rewrite !substr_in_range by lia. cbn [bind].
    exists (firstn pos (read line markerName)),
           (skipn (pos + 1) (read line markerName)).
    assert (Hsplit : read line markerName
                     = firstn pos (read line markerName)
                       ++ "="%char :: skipn (pos + 1) (read line markerName)
                     /\ ~ In "="%char (firstn pos (read line markerName))).
    { revert pos Hpos Hlt. generalize (read line markerName) as s.
      induction s as [|x t IH]; intros pos Hpos Hlt; [discriminate|].
      cbn [find_char] in Hpos. destruct (Ascii.eqb x "="%char) eqn:E.
      - injection Hpos as <-. apply Ascii.eqb_eq in E. subst x.
        cbn. split; [reflexivity|intros []].
      - destruct (find_char "="%char t) as [j|] eqn:Hj; [|discriminate].
        injection Hpos as <-. cbn in Hlt.
        destruct (IH j eq_refl ltac:(lia)) as [H1 H2].
        cbn [firstn skipn Nat.add app]. split; [now rewrite <- H1|].
        intros [->|Hin]; [|now apply H2].
        now rewrite Ascii.eqb_refl in E. }
    destruct Hsplit as [Hs Hno]. split; [exact Hs|]. split; [exact Hno|].
    cbn [skipn]. unfold kodiprop_key.
    destruct (str_eqb markerName EXTVLCOPT_DASH_MARKER).
    + cbn [andb]. now destruct (str_eqb _ (lit "http-reconnect")).
    + destruct (str_eqb markerName EXTVLCOPT_MARKER).
      * cbn [andb]. now destruct (_ || _ || _).
      * destruct (str_eqb markerName KODIPROP_MARKER); cbn [andb]; [|reflexivity].
        now destruct (_ || _).
  - left. split; reflexivity.
Qed.

(** X16. [ParseSinglePropertyIntoChannel] returns normally on every line.
    It leaves the loader as it is but for the log, and the channel as it is
    or with one property more. When the value of the marker has no [=],
    nothing changes, not even the log. A property added for [#EXTVLCOPT--]
    is [http-reconnect]; one added for [#EXTVLCOPT:] is [http-user-agent],
    [http-referrer] or [program]; one added for [#KODIPROP:] is never
    [inputstreamaddon] or [inputstreamclass]. *)
Theorem ParseSinglePropertyIntoChannel_filter (line : str) (channel : Channel)
  (markerName : str) (l : Loader) :
  exists channel' l',
    ParseSinglePropertyIntoChannel line channel markerName l = Returns (channel', l') /\
    same_but_log l l' /\
    (find_char "="%char (read line markerName) = None -> channel' = channel /\ l' = l) /\
    (channel' = channel \/
     exists prop value,
       channel' = AddProperty prop value channel /\
       (markerName = EXTVLCOPT_DASH_MARKER -> prop = lit "http-reconnect") /\
       (markerName = EXTVLCOPT_MARKER ->
        prop = lit "http-user-agent" \/ prop = lit "http-referrer" \/
        prop = lit "program") /\
       (markerName = KODIPROP_MARKER ->
        prop <> lit "inputstreamaddon" /\ prop <> lit "inputstreamclass")).
Proof.
  destruct (ParseSinglePropertyIntoChannel_cases line channel markerName l)
    as [[Hnone H]|[key [value [Hread [Hno H]]]]]; rewrite H.
  - exists channel, l. split; [reflexivity|]. split; [apply same_but_log_refl|].
    split; [intros _; now split|now left].
  - eexists. eexists. split; [reflexivity|]. split; [apply same_but_log_Log|].
    split.
    { intros Hnone. rewrite Hread in Hnone.
      rewrite (@find_char_first "="%char key value Hno) in Hnone. discriminate. }
    destruct (str_eqb markerName EXTVLCOPT_DASH_MARKER) eqn:Ed.
    { apply str_eqb_eq in Ed. subst markerName.
      destruct (str_eqb (ToLower key) (lit "http-reconnect")) eqn:Ek; [|now left].
      apply str_eqb_eq in Ek. right. exists (ToLower key), value.
      split; [reflexivity|]. split; [intros _; exact Ek|].
      split; intros Hm; discriminate Hm. }
    destruct (str_eqb markerName EXTVLCOPT_MARKER) eqn:Ev.
    { apply str_eqb_eq in Ev. subst markerName.
      destruct (str_eqb (ToLower key) (lit "http-user-agent")) eqn:E1;
        [|destruct (str_eqb (ToLower key) (lit "http-referrer")) eqn:E2;
          [|destruct (str_eqb (ToLower key) (lit "program")) eqn:E3]];
        cbn [orb]; try (now left);
        right; exists (ToLower key), value; (split; [reflexivity|]);
        (split; [intros Hm; discriminate Hm|]);
        (split; [intros _|intros Hm; discriminate Hm]).
      - left. now apply str_eqb_eq.
      - right. left. now apply str_eqb_eq.
      - right. right. now apply str_eqb_eq. }
    apply str_eqb_neq in Ed. apply str_eqb_neq in Ev.
    destruct (str_eqb markerName KODIPROP_MARKER) eqn:Ek.
    + right. exists (kodiprop_key key), value. split; [reflexivity|].
      split; [intros Hm; contradiction|]. split; [intros Hm; contradiction|].
      intros _. unfold kodiprop_key.
      destruct (str_eqb (ToLower key) (lit "inputstreamaddon")) eqn:E1;
        [cbn [orb]; split; discriminate|].
      destruct (str_eqb (ToLower key) (lit "inputstreamclass")) eqn:E2;
        [cbn [orb]; split; discriminate|].
      cbn [orb]. apply str_eqb_neq in E1. apply str_eqb_neq in E2. now split.
    + apply str_eqb_neq in Ek. right. exists (ToLower key), value.
      split; [reflexivity|]. repeat split; intros Hm; contradiction.
Qed.

Lemma up_to_app (c : ascii) (a b : str) :
  ~ In c a -> up_to c (a ++ b) = a ++ up_to c b.
Proof.
  induction a as [|x t IH]; cbn; intros H; [reflexivity|].
  destruct (Ascii.eqb x c) eqn:E.
  - apply Ascii.eqb_eq in E. exfalso. apply H. now left.
  - rewrite IH; [reflexivity|]. intros Hin. apply H. now right.
Qed.

(** X17. A line [#KODIPROP:key=value], where the key has no [=], no blank
    and no double quote at its start, adds one property to the channel: its
    key is the key of the line in lower case, or [inputstream] when that is
    [inputstreamaddon] or [inputstreamclass]; its value is the value of the
    line with its case kept, cut at the first blank. *)
Theorem ParseSinglePropertyIntoChannel_kodiprop (key value : str) (channel : Channel)
  (l : Loader) :
  ~ In "="%char key ->
  ~ In " "%char key ->
  (forall tail, key <> dq :: tail) ->
  ParseSinglePropertyIntoChannel (KODIPROP_MARKER ++ key ++ "="%char :: value)
                                 channel KODIPROP_MARKER l
  = Returns (AddProperty (kodiprop_key key) (up_to " "%char value) channel,
             Log LEVEL_DEBUG "%s - Found %s property: '%s' value: '%s' added: %s" l).
Proof.
  intros Heq Hblank Hbare.
  assert (Hread : read (KODIPROP_MARKER ++ key ++ "="%char :: value) KODIPROP_MARKER
                  = key ++ "="%char :: up_to " "%char value).
  { unfold read.
    rewrite (@ReadMarkerValue_first KODIPROP_MARKER
               (KODIPROP_MARKER ++ key ++ "="%char :: value) []
               (key ++ "="%char :: value)).
    - cbn [result_or]. unfold marker_value.
      destruct key as [|c t].
      + reflexivity.
      + cbn [app]. destruct (Ascii.eqb c dq) eqn:E.
        * apply Ascii.eqb_eq in E. subst c. now contradiction (Hbare t).
        * change (c :: t ++ "="%char :: value) with ((c :: t) ++ "="%char :: value).
          rewrite (@up_to_app " "%char (c :: t) ("="%char :: value) Hblank).
          reflexivity.
    - split; [reflexivity|]. intros pre' rest' _. cbn. lia. }
  destruct (ParseSinglePropertyIntoChannel_cases
              (KODIPROP_MARKER ++ key ++ "="%char :: value) channel KODIPROP_MARKER l)
    as [[Hnone _]|[key' [value' [Hread' [Hno' H]]]]].
  - rewrite Hread in Hnone.
    rewrite (@find_char_first "="%char key (up_to " "%char value) Heq) in Hnone.
    discriminate.
  - rewrite H. rewrite Hread in Hread'.
    assert (Hk : key' = key /\ value' = up_to " "%char value).
    { clear - Hread' Heq Hno'. revert key' Hread' Hno'.
      induction key as [|x t IH]; intros key' Hread' Hno'.
      - destruct key' as [|y t']; cbn in Hread'.
        + injection Hread' as <-. now split.
        + injection Hread' as <- _. exfalso. apply Hno'. now left.
      - destruct key' as [|y t']; cbn in Hread'.
        + injection Hread' as -> _. exfalso. apply Heq. now left.
        + injection Hread' as <- Ht.
          destruct (IH (fun H => Heq (or_intror H)) t' Ht
                       (fun H => Hno' (or_intror H))) as [-> ->].
          now split. }
    destruct Hk as [-> ->]. reflexivity.
Qed.

(** *** Channel groups *)

Lemma same_but_groups_refl (l : Loader) : same_but_groups l l.
Proof. unfold same_but_groups. repeat split. Qed.

Lemma same_but_groups_set (l l' : Loader) (groups : ChannelGroups) :
  same_but_groups l l' -> same_but_groups l (set_channelGroups groups l').
Proof. destruct l'. unfold same_but_groups. cbn. intros H. exact H. Qed.

(** The loop of [ParseAndAddChannelGroups] over the pieces that are left. *)
Lemma add_groups_appends (isRadio : bool) (pieces : list str) (ids : list Z)
  (l : Loader) :
  let step := fun '(groupIdList, l) groupName =>
                let groupName := UnknownToUTF8 groupName in
                let group := mkChannelGroup groupName isRadio in
                if CheckChannelGroupAllowed (settings l) group (m_channelGroups l) then
                  let '(uniqueGroupId, groups) :=
                    AddChannelGroup group (m_channelGroups l) in
                  (groupIdList ++ [uniqueGroupId], set_channelGroups groups l)
                else (groupIdList, l) in
  exists added,
    fst (fold_left step pieces (ids, l)) = ids ++ added /\
    length added <= length pieces /\
    same_but_groups l (snd (fold_left step pieces (ids, l))) /\
    ((forall g gs, CheckChannelGroupAllowed (settings l) g gs = false) ->
     fold_left step pieces (ids, l) = (ids, l)) /\
    ((forall g gs, CheckChannelGroupAllowed (settings l) g gs = true) ->
     length added = length pieces).
Proof.
  intros step. revert ids l. induction pieces as [|p rest IH]; intros ids l.
  - exists []. cbn. rewrite app_nil_r.
    repeat split; try reflexivity; try lia.
  - cbn [fold_left].
    assert (Hstep : step (ids, l) p
                    = if CheckChannelGroupAllowed (settings l)
                           (mkChannelGroup (UnknownToUTF8 p) isRadio) (m_channelGroups l)
                      then (ids ++ [fst (AddChannelGroup
                                           (mkChannelGroup (UnknownToUTF8 p) isRadio)
                                           (m_channelGroups l))],
                            set_channelGroups
                              (snd (AddChannelGroup
                                      (mkChannelGroup (UnknownToUTF8 p) isRadio)
                                      (m_channelGroups l))) l)
                      else (ids, l)).
    { unfold step. cbv zeta. now destruct (AddChannelGroup _ _). }
    rewrite Hstep. clear Hstep.
    destruct (CheckChannelGroupAllowed (settings l)
                (mkChannelGroup (UnknownToUTF8 p) isRadio) (m_channelGroups l)) eqn:Hc.
    + destruct (AddChannelGroup (mkChannelGroup (UnknownToUTF8 p) isRadio)
                                (m_channelGroups l)) as [id groups].
      cbn [fst snd].
      destruct (IH (ids ++ [id]) (set_channelGroups groups l))
        as [added [H1 [H2 [H3 [_ H5]]]]].
      exists (id :: added). rewrite H1, <- app_assoc. cbn [app length].
      split; [reflexivity|]. split; [lia|]. split.
      * destruct H3 as [A [B [C [D [E [F [G H]]]]]]].
        destruct l. cbn in *. unfold same_but_groups. cbn. now repeat split.
      * split.
        { intros Hnone. rewrite Hnone in Hc. discriminate. }
        intros Hall. f_equal. apply H5. intros g gs.
        destruct l. cbn in *. apply Hall.
    + destruct (IH ids l) as [added [H1 [H2 [H3 [H4 H5]]]]].
      exists added. cbn [length].
      split; [exact H1|]. split; [lia|]. split; [exact H3|]. split; [exact H4|].
      intros Hall. rewrite Hall in Hc. discriminate.
Qed.

(** X18. [ParseAndAddChannelGroups] only appends to the list of group
    identifiers, at most one identifier for each piece between semicolons;
    of the loader it changes nothing but the group store. When no group is
    allowed, nothing changes at all; when every group is allowed, there is
    one identifier for each piece. *)
Theorem ParseAndAddChannelGroups_appends (groupNamesListString : str)
  (groupIdList : list Z) (isRadio : bool) (l : Loader) :
  exists added,
    fst (ParseAndAddChannelGroups groupNamesListString groupIdList isRadio l)
    = groupIdList ++ added /\
    length added <= length (getlines ";"%char groupNamesListString) /\
    same_but_groups
      l (snd (ParseAndAddChannelGroups groupNamesListString groupIdList isRadio l)) /\
    ((forall g gs, CheckChannelGroupAllowed (settings l) g gs = false) ->
     ParseAndAddChannelGroups groupNamesListString groupIdList isRadio l
     = (groupIdList, l)) /\
    ((forall g gs, CheckChannelGroupAllowed (settings l) g gs = true) ->
     length added = length (getlines ";"%char groupNamesListString)).
Proof.
  exact (add_groups_appends isRadio (getlines ";"%char groupNamesListString)
                            groupIdList l).
Qed.

(** *** The loop of the loader *)

Lemma ParseSinglePropertyIntoChannel_returns (line : str) (channel : Channel)
  (markerName : str) (l : Loader) :
  exists channel' l',
    ParseSinglePropertyIntoChannel line channel markerName l = Returns (channel', l') /\
    same_but_log l l'.
Proof.
  destruct (ParseSinglePropertyIntoChannel_cases line channel markerName l)
    as [[_ H]|[key [value [_ [_ H]]]]]; rewrite H.
  - exists channel, l. split; [reflexivity|apply same_but_log_refl].
  - eexists. eexists. split; [reflexivity|apply same_but_log_Log].
Qed.

Lemma ParseAndAddChannelGroups_frame (groupNamesListString : str)
  (groupIdList : list Z) (isRadio : bool) (l : Loader) :
  same_but_groups
    l (snd (ParseAndAddChannelGroups groupNamesListString groupIdList isRadio l)).
Proof.
  destruct (add_groups_appends isRadio (getlines ";"%char groupNamesListString)
              groupIdList l) as [added [_ [_ [H _]]]].
  exact H.
Qed.

Lemma read_header_location (line : str) (l : Loader) (v : Locals) :
  exists l' v',
    read_header line l v = Returns (l', v') /\
    m_m3uLocation l' = m_m3uLocation l /\
    m_channels l' = m_channels l /\ m_media l' = m_media l.
Proof.
  unfold read_header.
  repeat (rewrite ReadMarkerValue_returns; cbn [bind]).
  repeat (rewrite bind_if_Returns; cbn beta).
  do 2 eexists. split; [reflexivity|].
  destruct l as [st loc logo hdr chs grps provs med lg]. cbn. repeat split.
Qed.

Ltac kept l :=
  do 2 eexists; (split; [reflexivity|]); destruct l; cbn in *;
  split; [congruence|intros _; split; congruence].

Lemma dispatch_returns (line : str) (l : Loader) (v : Locals) :
  exists l' v',
    dispatch line l v = Returns (l', v') /\
    m_m3uLocation l' = m_m3uLocation l /\
    ((exists rest, line = "#"%char :: rest) ->
     m_channels l' = m_channels l /\ m_media l' = m_media l).
Proof.
  destruct v as [first rt me shift corr ids had xeev ch med].
  unfold dispatch.
  destruct (StartsWith line M3U_INFO_MARKER).
  { cbv zeta.
    match goal with
    | |- context [ParseIntoChannel ?s ?h ?ln ?c ?m ?g ?p ?e ?k ?x] =>
        destruct (ParseIntoChannel_returns s h ln c m g p e k x) as [parsed [Hp _]]
    end.
    rewrite Hp. cbn [bind].
    destruct (negb (empty (groupNamesListString parsed))).
    - match goal with
      | |- context [ParseAndAddChannelGroups ?n ?i ?r ?lo] =>
          pose proof (ParseAndAddChannelGroups_frame n i r lo) as Hf;
          destruct (ParseAndAddChannelGroups n i r lo) as [ids' l']
      end.
      cbn [snd] in Hf. destruct Hf as [_ [Hloc [_ [_ [Hch [_ [Hmed _]]]]]]].
      kept l.
    - kept l. }
  destruct (StartsWith line KODIPROP_MARKER).
  { destruct (ParseSinglePropertyIntoChannel_returns line ch KODIPROP_MARKER l)
      as [c' [l' [Hp [_ [Hloc [_ [_ [Hch [_ [_ Hmed]]]]]]]]]].
    rewrite Hp. cbn [bind]. kept l. }
  destruct (StartsWith line EXTVLCOPT_MARKER).
  { destruct (ParseSinglePropertyIntoChannel_returns line ch EXTVLCOPT_MARKER l)
      as [c' [l' [Hp [_ [Hloc [_ [_ [Hch [_ [_ Hmed]]]]]]]]]].
    rewrite Hp. cbn [bind]. kept l. }
  destruct (StartsWith line EXTVLCOPT_DASH_MARKER).
  { destruct (ParseSinglePropertyIntoChannel_returns line ch EXTVLCOPT_DASH_MARKER l)
      as [c' [l' [Hp [_ [Hloc [_ [_ [Hch [_ [_ Hmed]]]]]]]]]].
    rewrite Hp. cbn [bind]. kept l. }
  destruct (StartsWith line M3U_GROUP_MARKER).
  { rewrite ReadMarkerValue_returns. cbn [bind].
    destruct (negb (empty (read line M3U_GROUP_MARKER))).
    - match goal with
      | |- context [ParseAndAddChannelGroups ?n ?i ?r ?lo] =>
          pose proof (ParseAndAddChannelGroups_frame n i r lo) as Hf;
          destruct (ParseAndAddChannelGroups n i r lo) as [ids' l']
      end.
      cbn [snd] in Hf. destruct Hf as [_ [Hloc [_ [_ [Hch [_ [Hmed _]]]]]]].
      kept l.
    - kept l. }
  destruct (StartsWith line PLAYLIST_TYPE_MARKER).
  { rewrite ReadMarkerValue_returns. cbn [bind]. kept l. }
  destruct (negb (Ascii.eqb (nth 0 line zero) "#"%char)) eqn:Efirst.
  - assert (Hno : ~ exists rest, line = "#"%char :: rest).
    { intros [rest ->]. cbn in Efirst. discriminate. }
    destruct ((rt || negb (IsMediaEnabled (settings (Log LEVEL_DEBUG _ l))) ||
               negb (ShowVodAsRecordings (settings (Log LEVEL_DEBUG _ l)))) && negb me).
    + destruct (AddChannel _ _ _ _ _ _) as [[[] chs] grps];
        do 2 eexists; (split; [reflexivity|]); destruct l; cbn;
        (split; [reflexivity|intros H; contradiction]).
    + destruct (AddMediaEntry _ _) as [[] media];
        do 2 eexists; (split; [reflexivity|]); destruct l; cbn;
        (split; [reflexivity|intros H; contradiction]).
  - kept l.
Qed.

Lemma process_line_returns (l : Loader) (v : Locals) (raw : str) :
  exists l' v',
    process_line (l, v) raw = Returns (l', v') /\
    m_m3uLocation l' = m_m3uLocation l /\
    (no_address raw -> m_channels l' = m_channels l /\ m_media l' = m_media l).
Proof.
  unfold process_line, no_address. cbv zeta. fold (trimmed raw).
  set (l0 := Log LEVEL_DEBUG "%s - M3U line read: '%s'" l).
  assert (H0 : m_m3uLocation l0 = m_m3uLocation l /\ m_channels l0 = m_channels l /\
               m_media l0 = m_media l) by (destruct l; repeat split).
  destruct H0 as [Hloc0 [Hch0 Hmed0]].
  destruct (trimmed raw) as [|c t] eqn:Ht; cbn [empty].
  - exists l0, v. split; [reflexivity|]. split; [exact Hloc0|]. intros _. now split.
  - assert (Hd : forall ln lo vo,
               m_m3uLocation lo = m_m3uLocation l -> m_channels lo = m_channels l ->
               m_media lo = m_media l ->
               ((exists rest, c :: t = "#"%char :: rest) ->
                exists rest, ln = "#"%char :: rest) ->
               exists l' v',
                 dispatch ln lo vo = Returns (l', v') /\
                 m_m3uLocation l' = m_m3uLocation l /\
                 (c :: t = [] \/ (exists rest, c :: t = "#"%char :: rest) ->
                  m_channels l' = m_channels l /\ m_media l' = m_media l)).
    { intros ln lo vo Hl Hc Hm Hsharp.
      destruct (dispatch_returns ln lo vo) as [l' [v' [Hp [Hl' Hk]]]].
      exists l', v'. split; [exact Hp|]. split; [congruence|].
      intros [Hnil|Hs]; [discriminate|].
      destruct (Hk (Hsharp Hs)) as [A B]. split; congruence. }
    destruct (isFirstLine v).
    + destruct (str_eqb (Left (c :: t) 3) BOM) eqn:Eb.
      * assert (Hno : ~ exists rest, c :: t = "#"%char :: rest).
        { intros [rest Hr]. injection Hr as -> _.
          apply str_eqb_eq in Eb. cbn in Eb. discriminate. }
        destruct (StartsWith (skipn 3 (c :: t)) M3U_START_MARKER).
        -- match goal with
           | |- context [read_header ?ln ?lo ?vo] =>
               destruct (read_header_location ln lo vo) as [l' [v' [Hp [Hl' _]]]]
           end.
           exists l', v'. split; [exact Hp|]. split; [congruence|].
           intros [Hnil|Hs]; [discriminate|contradiction].
        -- apply Hd; try (destruct l; reflexivity). intros Hs. contradiction.
      * destruct (StartsWith (c :: t) M3U_START_MARKER).
        -- match goal with
           | |- context [read_header ?ln ?lo ?vo] =>
               destruct (read_header_location ln lo vo) as [l' [v' [Hp [Hl' [Hc' Hm']]]]]
           end.
           exists l', v'. split; [exact Hp|]. split; [congruence|].
           intros _. split; congruence.
        -- apply Hd; try (destruct l; reflexivity). intros Hs. exact Hs.
    + apply Hd; try assumption. intros Hs. exact Hs.
Qed.

Lemma process_lines_returns (lines : list str) (l : Loader) (v : Locals) :
  exists l' v',
    process_lines lines (l, v) = Returns (l', v') /\
    m_m3uLocation l' = m_m3uLocation l /\
    (Forall no_address lines ->
     m_channels l' = m_channels l /\ m_media l' = m_media l).
Proof.
  revert l v. induction lines as [|raw rest IH]; intros l v.
  - exists l, v. split; [reflexivity|]. split; [reflexivity|]. intros _. now split.
  - cbn [process_lines].
    destruct (process_line_returns l v raw) as [l1 [v1 [Hp [Hl Hk]]]].
    rewrite Hp. cbn [bind].
    destruct (IH l1 v1) as [l2 [v2 [Hp2 [Hl2 Hk2]]]].
    exists l2, v2. split; [exact Hp2|]. split; [congruence|].
    intros Hall. inversion Hall as [|x xs Hx Hxs]; subst.
    destruct (Hk Hx) as [A B]. destruct (Hk2 Hxs) as [C D]. split; congruence.
Qed.

(** The two ways [LoadPlayList] ends. *)
Lemma LoadPlayList_cases (l : Loader) :
  ((m_m3uLocation l = [] \/ fetched l = None) /\
   exists l', LoadPlayList l = Returns (false, l') /\ same_but_log l l')
  \/
  (exists content l',
      m_m3uLocation l <> [] /\ fetched l = Some content /\
      LoadPlayList l = Returns (true, l') /\
      m_m3uLocation l' = m_m3uLocation l /\
      (Forall no_address (getlines LF content) ->
       m_channels l' = m_channels l /\ m_media l' = m_media l)).
Proof.
  unfold LoadPlayList, fetched.
  assert (Hl : forall lv fmt,
             m_m3uLocation (Log lv fmt l) = m_m3uLocation l /\
             settings (Log lv fmt l) = settings l)
    by (intros; destruct l; split; reflexivity).
  destruct (Hl LEVEL_DEBUG "%s - Playlist Load Start"%string) as [-> ->].
  destruct (m_m3uLocation l) as [|c loc] eqn:Eloc; cbn [empty].
  - left. split; [now left|]. eexists. split; [reflexivity|].
    destruct l. cbn in *. unfold same_but_log. cbn. repeat split.
  - destruct (GetCachedFileContents _ _ _) as [content|] eqn:Hf.
    + right. exists content.
      match goal with
      | |- context [process_lines ?ls (?lo, ?vo)] =>
          destruct (process_lines_returns ls lo vo) as [l1 [v1 [Hp [Hl1 Hk]]]]
      end.
      rewrite Hp. cbn [bind]. cbv zeta.
      eexists. split; [discriminate|]. split; [reflexivity|].
      split; [reflexivity|].
      assert (Hloc1 : m_m3uLocation l1 = c :: loc)
        by (rewrite Hl1; destruct l; cbn in *; congruence).
      split.
      * destruct (_ && _); destruct l1; cbn in *; exact Hloc1.
      * intros Hall. destruct (Hk Hall) as [A B].
        assert (A' : m_channels l1 = m_channels l) by (rewrite A; now destruct l).
        assert (B' : m_media l1 = m_media l) by (rewrite B; now destruct l).
        destruct (_ && _); destruct l1; cbn in *; now split.
    + left. split; [now right|]. eexists. split; [reflexivity|].
      destruct l. cbn in *. unfold same_but_log. cbn. repeat split.
Qed.

(** X19. [LoadPlayList] returns normally on every playlist text: no line
    can make it throw. It returns true exactly when the location is
    configured and the file could be fetched, whether or not a channel or
    a media entry was found; when it returns false, the loader is as it was
    but for the log. The location is never changed. *)
Theorem LoadPlayList_result (l : Loader) :
  exists loaded l',
    LoadPlayList l = Returns (loaded, l') /\
    m_m3uLocation l' = m_m3uLocation l /\
    (loaded = true <-> m_m3uLocation l <> [] /\ fetched l <> None) /\
    (loaded = false -> same_but_log l l').
Proof.
  destruct (LoadPlayList_cases l)
    as [[Hwhy [l' [Hp Hsame]]]|[content [l' [Hloc [Hf [Hp [Hl _]]]]]]].
  - exists false, l'. split; [exact Hp|].
    split; [symmetry; exact (proj1 (proj2 Hsame))|]. split.
    + split; [discriminate|]. intros [H1 H2]. destruct Hwhy; contradiction.
    + intros _. exact Hsame.
  - exists true, l'. split; [exact Hp|]. split; [exact Hl|]. split.
    + split; [|reflexivity]. intros _. split; [exact Hloc|]. rewrite Hf. discriminate.
    + discriminate.
Qed.

(** X20. A playlist in which every line, trimmed, is blank or begins with
    [#] (header, [#EXTINF], properties, groups, comments: no address) is
    loaded with true, and leaves the channel store and the media store as
    they were: only an address line adds a channel or a media entry. *)
Theorem LoadPlayList_no_address_lines (l : Loader) (content : str) :
  m_m3uLocation l <> [] ->
  fetched l = Some content ->
  Forall no_address (getlines LF content) ->
  exists l',
    LoadPlayList l = Returns (true, l') /\
    m_channels l' = m_channels l /\ m_media l' = m_media l.
Proof.
  intros Hloc Hf Hall.
  destruct (LoadPlayList_cases l)
    as [[Hwhy _]|[content' [l' [_ [Hf' [Hp [_ Hk]]]]]]].
  - destruct Hwhy as [H|H]; [contradiction|]. rewrite H in Hf. discriminate.
  - rewrite Hf in Hf'. injection Hf' as <-.
    exists l'. split; [exact Hp|]. exact (Hk Hall).
Qed.

(** *** Reloading *)

(** X21. [ReloadPlayList] returns normally. It takes the location from the
    settings and asks the client for the four updates, in the order
    channels, groups, providers, recordings, exactly when that location is
    not empty and the file could be fetched; otherwise it asks for none,
    and leaves the channel and group stores cleared and marked as failed,
    the provider registry empty and the media store cleared. *)
Theorem ReloadPlayList_updates (l : Loader) :
  exists l' calls,
    ReloadPlayList l = Returns (l', calls) /\
    m_m3uLocation l' = GetM3ULocation (settings l) /\
    (calls = all_updates \/ calls = []) /\
    (calls = all_updates <->
     GetM3ULocation (settings l) <> [] /\
     fetched (set_m3uLocation (GetM3ULocation (settings l)) l) <> None) /\
    (calls = [] ->
     m_channels l' = ChannelsLoadFailed (Channels_Clear (m_channels l)) /\
     m_channelGroups l' = ChannelGroupsLoadFailed (ChannelGroups_Clear (m_channelGroups l)) /\
     m_providers l' = [] /\
     m_media l' = Media_Clear (m_media l)).
Proof.
  unfold ReloadPlayList. cbv zeta.
  match goal with
  | |- context [LoadPlayList ?lo] => set (l0 := lo)
  end.
  assert (H0 : m_m3uLocation l0 = GetM3ULocation (settings l) /\
               fetched l0 = fetched (set_m3uLocation (GetM3ULocation (settings l)) l) /\
               m_channels l0 = Channels_Clear (m_channels l) /\
               m_channelGroups l0 = ChannelGroups_Clear (m_channelGroups l) /\
               m_providers l0 = [] /\
               m_media l0 = Media_Clear (m_media l)).
  { subst l0. destruct l. unfold fetched. cbn. repeat split. }
  destruct H0 as [Hloc0 [Hf0 [Hc0 [Hg0 [Hp0 Hm0]]]]].
  destruct (LoadPlayList_cases l0)
    as [[Hwhy [l' [Hp Hsame]]]|[content [l' [Hloc [Hf [Hp [Hl _]]]]]]];
    rewrite Hp; cbn [bind].
  - do 2 eexists. split; [reflexivity|].
    destruct Hsame as [_ [Sloc [_ [_ [Sch [Sgr [Spr Sme]]]]]]].
    split; [destruct l'; cbn in *; congruence|].
    split; [now right|]. split.
    + split; [discriminate|]. intros [H1 H2].
      rewrite <- Hloc0 in H1. rewrite <- Hf0 in H2. destruct Hwhy; contradiction.
    + intros _. destruct l'; cbn in *. repeat split; congruence.
  - do 2 eexists. split; [reflexivity|]. split; [congruence|].
    split; [now left|]. split.
    + split; [|reflexivity]. intros _.
      split; [rewrite <- Hloc0; exact Hloc|]. rewrite <- Hf0, Hf. discriminate.
    + discriminate.
Qed.

(** *** Entries of the playlist *)

Lemma StartsWith_sharp (c : ascii) (rest marker : str) :
  c <> "#"%char -> StartsWith (c :: rest) ("#"%char :: marker) = false.
Proof.
  intros H. cbn [StartsWith]. destruct (Ascii.eqb c "#"%char) eqn:E; [|reflexivity].
  apply Ascii.eqb_eq in E. contradiction.
Qed.

(** A line that is taken for an address in the loop: an address, or the
    empty line that is left of a first line that was only a byte order mark
    (the character at index 0 of an empty [std::string] is the null
    character, not [#]). *)
Lemma dispatch_entry (url : str) (l : Loader) (v : Locals) :
  url = [] \/ address url ->
  exists l' v',
    dispatch url l v = Returns (l', v') /\
    settings l' = settings l /\ m_m3uLocation l' = m_m3uLocation l /\
    m_m3uHeaderStrings l' = m_m3uHeaderStrings l /\
    m_providers l' = m_providers l /\
    isFirstLine v' = isFirstLine v /\ isRealTime v' = true /\
    isMediaEntry v' = false /\ channelHadGroups v' = false /\
    epgTimeShift v' = epgTimeShift v /\
    catchupCorrectionSecs_ v' = catchupCorrectionSecs_ v /\
    xeevCatchup v' = xeevCatchup v /\
    currentChannelGroupIdList v' = currentChannelGroupIdList v /\
    tmpMediaEntry v' = MediaEntry_Reset (tmpMediaEntry v) /\
    (becomes_channel (settings l) (isRealTime v) (isMediaEntry v) = true ->
     tmpChannel v'
     = Channel_Reset (AddProperty PVR_STREAM_PROPERTY_ISREALTIMESTREAM (lit "true")
                                  (tmpChannel v)) /\
     m_media l' = m_media l /\
     (m_channels l', m_channelGroups l')
     = stores_after_AddChannel (settings l)
         (ConfigureCatchupMode (settings l)
            (SetStreamURL url
               (AddProperty PVR_STREAM_PROPERTY_ISREALTIMESTREAM (lit "true")
                            (tmpChannel v))))
         (currentChannelGroupIdList v) (m_channelGroups l) (channelHadGroups v)
         (m_channels l)) /\
    (becomes_channel (settings l) (isRealTime v) (isMediaEntry v) = false ->
     tmpChannel v' = Channel_Reset (tmpChannel v) /\
     m_channels l' = m_channels l /\ m_channelGroups l' = m_channelGroups l /\
     m_media l'
     = snd (AddMediaEntry
              (SetMediaStreamURL url (UpdateFrom (tmpChannel v) (tmpMediaEntry v)))
              (m_media l))).
Proof.
  intros Hurl.
  assert (Hm : forall marker, StartsWith url ("#"%char :: marker) = false).
  { intros marker. destruct Hurl as [->|[c [rest [-> Hc]]]]; [reflexivity|].
    now apply StartsWith_sharp. }
  assert (Hn : negb (Ascii.eqb (nth 0 url zero) "#"%char) = true).
  { destruct Hurl as [->|[c [rest [-> Hc]]]]; [reflexivity|].
    cbn [nth]. destruct (Ascii.eqb c "#"%char) eqn:E; [|reflexivity].
    apply Ascii.eqb_eq in E. contradiction. }
  destruct v as [first rt me shift corr ids had xeev ch med].
  unfold dispatch, becomes_channel, stores_after_AddChannel.
  unfold M3U_INFO_MARKER, KODIPROP_MARKER, EXTVLCOPT_MARKER, EXTVLCOPT_DASH_MARKER,
    M3U_GROUP_MARKER, PLAYLIST_TYPE_MARKER.
  cbn [lit String.list_ascii_of_string].
  rewrite !Hm, Hn.
  cbv zeta. cbn [isFirstLine isRealTime isMediaEntry channelHadGroups epgTimeShift
                 catchupCorrectionSecs_ xeevCatchup currentChannelGroupIdList
                 tmpMediaEntry tmpChannel].
  rewrite Log_settings.
  destruct ((rt || negb (IsMediaEnabled (settings l)) ||
             negb (ShowVodAsRecordings (settings l))) && negb me).
  - match goal with
    | |- context [AddChannel ?a ?b ?c ?d ?e ?f] =>
        replace d with (m_channelGroups l) by (now destruct l);
        replace f with (m_channels l) by (now destruct l);
        destruct (AddChannel a b c (m_channelGroups l) e (m_channels l))
          as [[[] chs] grps]
    end;
      do 2 eexists; (split; [reflexivity|]); destruct l; cbn;
      repeat match goal with |- _ /\ _ => split end; try reflexivity;
      try (intros Hx; discriminate Hx); intros _; repeat split.
  - match goal with
    | |- context [AddMediaEntry ?a ?b] =>
        replace b with (m_media l) by (now destruct l);
        destruct (AddMediaEntry a (m_media l)) as [[] media]
    end;
      do 2 eexists; (split; [reflexivity|]); destruct l; cbn;
      repeat match goal with |- _ /\ _ => split end; try reflexivity;
      try (intros Hx; discriminate Hx); intros _; repeat split.
Qed.

Lemma dispatch_address (url : str) (l : Loader) (v : Locals) :
  address url ->
  exists l' v',
    dispatch url l v = Returns (l', v') /\
    settings l' = settings l /\ m_m3uLocation l' = m_m3uLocation l /\
    m_m3uHeaderStrings l' = m_m3uHeaderStrings l /\
    m_providers l' = m_providers l /\
    isFirstLine v' = isFirstLine v /\ isRealTime v' = true /\
    isMediaEntry v' = false /\ channelHadGroups v' = false /\
    epgTimeShift v' = epgTimeShift v /\
    catchupCorrectionSecs_ v' = catchupCorrectionSecs_ v /\
    xeevCatchup v' = xeevCatchup v /\
    currentChannelGroupIdList v' = currentChannelGroupIdList v /\
    tmpMediaEntry v' = MediaEntry_Reset (tmpMediaEntry v) /\
    (becomes_channel (settings l) (isRealTime v) (isMediaEntry v) = true ->
     tmpChannel v'
     = Channel_Reset (AddProperty PVR_STREAM_PROPERTY_ISREALTIMESTREAM (lit "true")
                                  (tmpChannel v)) /\
     m_media l' = m_media l /\
     (m_channels l', m_channelGroups l')
     = stores_after_AddChannel (settings l)
         (ConfigureCatchupMode (settings l)
            (SetStreamURL url
               (AddProperty PVR_STREAM_PROPERTY_ISREALTIMESTREAM (lit "true")
                            (tmpChannel v))))
         (currentChannelGroupIdList v) (m_channelGroups l) (channelHadGroups v)
         (m_channels l)) /\
    (becomes_channel (settings l) (isRealTime v) (isMediaEntry v) = false ->
     tmpChannel v' = Channel_Reset (tmpChannel v) /\
     m_channels l' = m_channels l /\ m_channelGroups l' = m_channelGroups l /\
     m_media l'
     = snd (AddMediaEntry
              (SetMediaStreamURL url (UpdateFrom (tmpChannel v) (tmpMediaEntry v)))
              (m_media l))).
Proof. intros H. exact (dispatch_entry l v (or_intror H)). Qed.


(** An [#EXTINF] line in the loop. *)
Lemma dispatch_info (info : str) (l : Loader) (v : Locals) :
  StartsWith info M3U_INFO_MARKER = true ->
  exists parsed ids l',
    ParseIntoChannel (settings l) (m_m3uHeaderStrings l) info
      (SetChannelNumber (GetCurrentChannelNumber (m_channels l)) (tmpChannel v))
      (tmpMediaEntry v) [] (m_providers l) (epgTimeShift v)
      (catchupCorrectionSecs_ v) (xeevCatchup v)
    = Returns parsed /\
    dispatch info l v
    = Returns (l', mkLocals (isFirstLine v) (isRealTime v) (mentions_media info)
                            (epgTimeShift v) (catchupCorrectionSecs_ v) ids
                            (if negb (empty (groupNamesListString parsed))
                             then true else channelHadGroups v)
                            (xeevCatchup v) (p_channel parsed) (p_mediaEntry parsed)) /\
    settings l' = settings l /\ m_m3uLocation l' = m_m3uLocation l /\
    m_channels l' = m_channels l /\ m_media l' = m_media l /\
    m_providers l' = p_providers parsed.
Proof.
  intros Hstart. destruct v as [first rt me shift corr ids had xeev ch med].
  unfold dispatch. rewrite Hstart. cbv zeta.
  cbn [isFirstLine isRealTime isMediaEntry channelHadGroups epgTimeShift
       catchupCorrectionSecs_ xeevCatchup currentChannelGroupIdList
       tmpMediaEntry tmpChannel].
  match goal with
  | |- context [ParseIntoChannel ?s ?h ?ln ?c ?m ?g ?p ?e ?k ?x] =>
      destruct (ParseIntoChannel_returns s h ln c m g p e k x) as [parsed [Hp Hids]]
  end.
  exists parsed. rewrite Hp. cbn [bind]. fold (mentions_media info).
  destruct (negb (empty (groupNamesListString parsed))).
  - match goal with
    | |- context [ParseAndAddChannelGroups ?n ?i ?r ?lo] =>
        pose proof (ParseAndAddChannelGroups_frame n i r lo) as Hf;
        destruct (ParseAndAddChannelGroups n i r lo) as [ids' l']
    end.
    cbn [snd] in Hf. destruct Hf as [Hs [Hloc [_ [_ [Hch [Hpr [Hmed _]]]]]]].
    exists ids', l'. split; [reflexivity|]. split; [reflexivity|].
    destruct l; cbn in *. repeat split; congruence.
  - eexists. eexists. split; [reflexivity|]. split; [reflexivity|].
    destruct l; cbn in *. repeat split.
Qed.

Lemma process_line_later (l : Loader) (v : Locals) (raw : str) :
  isFirstLine v = false ->
  trimmed raw <> [] ->
  process_line (l, v) raw
  = dispatch (trimmed raw) (Log LEVEL_DEBUG "%s - M3U line read: '%s'" l) v.
Proof.
  intros Hfirst Hne. unfold process_line. cbv zeta. fold (trimmed raw).
  rewrite Hfirst. destruct (trimmed raw); [contradiction|reflexivity].
Qed.

Lemma process_line_first (l : Loader) (v : Locals) (raw rest : str) :
  isFirstLine v = true ->
  trimmed raw = "#"%char :: rest ->
  StartsWith (trimmed raw) M3U_START_MARKER = false ->
  process_line (l, v) raw
  = dispatch (trimmed raw)
      (Log LEVEL_ERROR
         "%s - URL '%s' missing %s descriptor on line 1, attempting to parse it anyway."
         (Log LEVEL_DEBUG "%s - M3U line read: '%s'" l))
      (mkLocals false (isRealTime v) (isMediaEntry v) (epgTimeShift v)
                (catchupCorrectionSecs_ v) (currentChannelGroupIdList v)
                (channelHadGroups v) (xeevCatchup v) (tmpChannel v) (tmpMediaEntry v)).
Proof.
  intros Hfirst Hsharp Hstart. unfold process_line. cbv zeta. fold (trimmed raw).
  rewrite Hfirst. rewrite Hsharp in *. cbn [empty].
  replace (str_eqb (Left ("#"%char :: rest) 3) BOM) with false.
  - now rewrite Hstart.
  - symmetry. apply str_eqb_neq. cbn. discriminate.
Qed.

(** The end of [LoadPlayList], once the loop has returned. *)
Lemma LoadPlayList_after_loop (l : Loader) (content : str) (l1 : Loader) (v1 : Locals) :
  m_m3uLocation l <> [] ->
  fetched l = Some content ->
  process_lines (getlines LF content)
                (Log LEVEL_DEBUG "%s - Playlist Load Start" l, start_locals l)
  = Returns (l1, v1) ->
  exists l',
    LoadPlayList l = Returns (true, l') /\
    m_channels l' = m_channels l1 /\ m_channelGroups l' = m_channelGroups l1 /\
    m_providers l' = m_providers l1 /\ m_media l' = m_media l1 /\
    settings l' = settings l1.
Proof.
  intros Hloc Hf Hp. unfold LoadPlayList. unfold fetched in Hf.
  assert (Hl : forall lv fmt,
             m_m3uLocation (Log lv fmt l) = m_m3uLocation l /\
             settings (Log lv fmt l) = settings l)
    by (intros; destruct l; split; reflexivity).
  destruct (Hl LEVEL_DEBUG "%s - Playlist Load Start"%string) as [-> ->].
  destruct (m_m3uLocation l) as [|c loc] eqn:Eloc; [contradiction|].
  cbn [empty]. rewrite Hf. unfold start_locals in Hp. rewrite Hp.
  cbn [bind]. cbv zeta. eexists. split; [reflexivity|].
  destruct (_ && _); destruct l1; cbn; repeat split.
Qed.

Lemma info_is_no_header (info : str) :
  StartsWith info M3U_INFO_MARKER = true ->
  (exists rest, info = "#"%char :: rest) /\
  StartsWith info M3U_START_MARKER = false.
Proof.
  intros H. apply StartsWith_inv in H as [rest ->]. split.
  - eexists. reflexivity.
  - reflexivity.
Qed.

(** X22. A playlist of two lines, an [#EXTINF] line and an address, adds
    one entry, built from a fresh channel by [ParseIntoChannel]. When the
    [#EXTINF] line contains [media=], [media-dir=] or [media-size=]
    anywhere, whatever the value and whatever the settings, the entry goes
    to the media store, with the address as its stream URL, and the channel
    store stays; otherwise it goes to the channel store, with the address
    and the property [isrealtimestream] set to [true], and the media store
    stays. *)
Theorem LoadPlayList_entry (l : Loader) (content raw1 raw2 : str) :
  m_m3uLocation l <> [] ->
  fetched l = Some content ->
  getlines LF content = [raw1; raw2] ->
  StartsWith (trimmed raw1) M3U_INFO_MARKER = true ->
  address (trimmed raw2) ->
  exists parsed l',
    ParseIntoChannel (settings l) (m_m3uHeaderStrings l) (trimmed raw1)
      (SetChannelNumber (GetCurrentChannelNumber (m_channels l)) new_Channel)
      new_MediaEntry [] (m_providers l) 0 (GetCatchupCorrectionSecs (settings l)) false
    = Returns parsed /\
    LoadPlayList l = Returns (true, l') /\
    m_providers l' = p_providers parsed /\
    (mentions_media (trimmed raw1) = true ->
     m_channels l' = m_channels l /\
     m_media l'
     = snd (AddMediaEntry
              (SetMediaStreamURL (trimmed raw2)
                 (UpdateFrom (p_channel parsed) (p_mediaEntry parsed)))
              (m_media l))) /\
    (mentions_media (trimmed raw1) = false ->
     m_media l' = m_media l /\
     exists ids groups,
       (m_channels l', m_channelGroups l')
       = stores_after_AddChannel (settings l)
           (ConfigureCatchupMode (settings l)
              (SetStreamURL (trimmed raw2)
                 (AddProperty PVR_STREAM_PROPERTY_ISREALTIMESTREAM (lit "true")
                              (p_channel parsed))))
           ids groups (negb (empty (groupNamesListString parsed))) (m_channels l)).
Proof.
  intros Hloc Hf Hlines Hinfo Haddr.
  destruct (info_is_no_header _ Hinfo) as [[rest Hsharp] Hnohdr].
  set (l0 := Log LEVEL_DEBUG "%s - Playlist Load Start" l).
  pose proof (@process_line_first l0 (start_locals l) raw1 rest eq_refl Hsharp Hnohdr)
    as H1.
  cbn [start_locals isRealTime isMediaEntry epgTimeShift catchupCorrectionSecs_
       currentChannelGroupIdList channelHadGroups xeevCatchup tmpChannel
       tmpMediaEntry] in H1.
  match type of H1 with
  | _ = dispatch ?ln ?lo ?vo =>
      destruct (@dispatch_info ln lo vo Hinfo)
        as [parsed [ids [l1 [Hp [Hd [Hs1 [_ [Hc1 [Hm1 Hpr1]]]]]]]]]
  end.
  rewrite Hd in H1.
  cbn [isFirstLine isRealTime isMediaEntry epgTimeShift catchupCorrectionSecs_
       currentChannelGroupIdList channelHadGroups xeevCatchup tmpChannel
       tmpMediaEntry] in Hp, H1.
  assert (Hl0 : settings l0 = settings l /\ m_channels l0 = m_channels l /\
                m_media l0 = m_media l /\ m_providers l0 = m_providers l /\
                m_m3uHeaderStrings l0 = m_m3uHeaderStrings l)
    by (subst l0; destruct l; repeat split).
  destruct Hl0 as [Hs0 [Hc0 [Hm0 [Hpr0 Hh0]]]].
  rewrite !Log_settings, !Log_channels in Hp.
  assert (Hprov : forall lv fmt lo, m_providers (Log lv fmt lo) = m_providers lo)
    by (intros ? ? []; reflexivity).
  assert (Hhdr : forall lv fmt lo,
             m_m3uHeaderStrings (Log lv fmt lo) = m_m3uHeaderStrings lo)
    by (intros ? ? []; reflexivity).
  rewrite !Hprov, !Hhdr, Hs0, Hc0, Hpr0, Hh0 in Hp.
  rewrite !Log_settings, Hs0 in Hs1.
  rewrite !Log_channels, Hc0 in Hc1. rewrite !Log_media, Hm0 in Hm1.
  assert (Hne : trimmed raw2 <> []).
  { destruct Haddr as [c [t [-> _]]]. discriminate. }
  match type of H1 with
  | _ = Returns (_, ?v1) =>
      pose proof (@process_line_later l1 v1 raw2 eq_refl Hne) as H2;
      destruct (@dispatch_address (trimmed raw2)
                  (Log LEVEL_DEBUG "%s - M3U line read: '%s'" l1) v1 Haddr)
        as (l2 & v2 & Hd2 & Hs2 & _ & _ & Hpr2 & _ & _ & _ & _ & _ & _ & _ & _ & _ & Hch & Hme)
  end.
  rewrite Hd2 in H2.
  cbn [isRealTime isMediaEntry tmpChannel tmpMediaEntry currentChannelGroupIdList
       channelHadGroups] in Hch, Hme.
  rewrite !Log_settings, Hs1 in Hch, Hme.
  rewrite !Log_channels, !Log_media, Hc1, Hm1 in Hch, Hme.
  rewrite Hprov in Hpr2.
  assert (Hrun : process_lines (getlines LF content) (l0, start_locals l)
                 = Returns (l2, v2)).
  { rewrite Hlines. cbn [process_lines]. rewrite H1. cbn [bind].
    rewrite H2. reflexivity. }
  destruct (@LoadPlayList_after_loop l content l2 v2 Hloc Hf Hrun)
    as [l' [Hload [Hc' [Hg' [Hp' [Hm' _]]]]]].
  exists parsed, l'. split; [exact Hp|]. split; [exact Hload|].
  split; [congruence|].
  unfold becomes_channel in Hch, Hme. cbn [orb andb] in Hch, Hme. split.
  - intros Hmedia. rewrite Hmedia in Hme. cbn [negb] in Hme.
    destruct (Hme eq_refl) as [_ [A [_ B]]]. split; congruence.
  - intros Hmedia. rewrite Hmedia in Hch. cbn [negb] in Hch.
    destruct (Hch eq_refl) as [_ [A B]]. split; [congruence|].
    do 2 eexists. rewrite Hc', Hg'.
    match type of B with
    | _ = stores_after_AddChannel _ _ _ _ (if ?b then true else false) _ =>
        replace (if b then true else false) with b in B by now destruct b
    end.
    exact B.
Qed.

Lemma dispatch_vod_line (l : Loader) (v : Locals) :
  dispatch vod_line l v
  = Returns (l, mkLocals (isFirstLine v) false (isMediaEntry v) (epgTimeShift v)
                         (catchupCorrectionSecs_ v) (currentChannelGroupIdList v)
                         (channelHadGroups v) (xeevCatchup v) (tmpChannel v)
                         (tmpMediaEntry v)).
Proof.
  destruct v as [first rt me shift corr ids had xeev ch med].
  unfold dispatch.
  assert (H1 : StartsWith vod_line M3U_INFO_MARKER = false) by reflexivity.
  assert (H2 : StartsWith vod_line KODIPROP_MARKER = false) by reflexivity.
  assert (H3 : StartsWith vod_line EXTVLCOPT_MARKER = false) by reflexivity.
  assert (H4 : StartsWith vod_line EXTVLCOPT_DASH_MARKER = false) by reflexivity.
  assert (H5 : StartsWith vod_line M3U_GROUP_MARKER = false) by reflexivity.
  assert (H6 : StartsWith vod_line PLAYLIST_TYPE_MARKER = true) by reflexivity.
  assert (H7 : ReadMarkerValue vod_line PLAYLIST_TYPE_MARKER = Returns (lit "VOD"))
    by reflexivity.
  assert (H8 : str_eqb (lit "VOD") (lit "VOD") = true) by now apply str_eqb_eq.
  rewrite H1, H2, H3, H4, H5, H6, H7. cbn [bind]. rewrite H8. reflexivity.
Qed.

(** X23. [#EXT-X-PLAYLIST-TYPE:VOD] holds for one entry only. With media
    enabled and VOD shown as recordings, a playlist of that line and two
    addresses puts the first address into the media store and the second
    into the channel store: the address line sets the real-time flag
    again. *)
Theorem LoadPlayList_vod_marker (l : Loader) (content raw1 raw2 raw3 : str) :
  m_m3uLocation l <> [] ->
  fetched l = Some content ->
  getlines LF content = [raw1; raw2; raw3] ->
  trimmed raw1 = vod_line ->
  address (trimmed raw2) ->
  address (trimmed raw3) ->
  IsMediaEnabled (settings l) = true ->
  ShowVodAsRecordings (settings l) = true ->
  exists l',
    LoadPlayList l = Returns (true, l') /\
    m_media l'
    = snd (AddMediaEntry
             (SetMediaStreamURL (trimmed raw2) (UpdateFrom new_Channel new_MediaEntry))
             (m_media l)) /\
    (m_channels l', m_channelGroups l')
    = stores_after_AddChannel (settings l)
        (ConfigureCatchupMode (settings l)
           (SetStreamURL (trimmed raw3)
              (AddProperty PVR_STREAM_PROPERTY_ISREALTIMESTREAM (lit "true")
                           (Channel_Reset new_Channel))))
        [] (m_channelGroups l) false (m_channels l).
Proof.
  intros Hloc Hf Hlines Hvod Ha2 Ha3 Hmedia Hshow.
  assert (Hsharp : trimmed raw1 = "#"%char :: tl vod_line) by (rewrite Hvod; reflexivity).
  assert (Hnohdr : StartsWith (trimmed raw1) M3U_START_MARKER = false)
    by (rewrite Hvod; reflexivity).
  pose proof (@process_line_first (Log LEVEL_DEBUG "%s - Playlist Load Start" l)
                (start_locals l) raw1 _ eq_refl Hsharp Hnohdr) as H1.
  rewrite Hvod, dispatch_vod_line in H1.
  cbn [start_locals isFirstLine isRealTime isMediaEntry epgTimeShift
       catchupCorrectionSecs_ currentChannelGroupIdList channelHadGroups xeevCatchup
       tmpChannel tmpMediaEntry] in H1.
  assert (Hne2 : trimmed raw2 <> []) by (destruct Ha2 as [c [t [-> _]]]; discriminate).
  assert (Hne3 : trimmed raw3 <> []) by (destruct Ha3 as [c [t [-> _]]]; discriminate).
  match type of H1 with
  | _ = Returns (?l1, ?v1) =>
      pose proof (@process_line_later l1 v1 raw2 eq_refl Hne2) as H2;
      destruct (@dispatch_address (trimmed raw2)
                  (Log LEVEL_DEBUG "%s - M3U line read: '%s'" l1) v1 Ha2)
        as (l2 & v2 & Hd2 & Hs2 & _ & _ & _ & Hf2 & Hr2 & Hm2 & Hg2 & _ & _ & _ & Hi2 & Ht2 & _ & Hme)
  end.
  rewrite Hd2 in H2.
  cbn [isFirstLine isRealTime isMediaEntry tmpChannel tmpMediaEntry
       currentChannelGroupIdList channelHadGroups] in Hf2, Hi2, Ht2, Hme.
  rewrite !Log_settings in Hs2, Hme.
  unfold becomes_channel in Hme. rewrite Hmedia, Hshow in Hme.
  destruct (Hme eq_refl) as [Htmp [Hc2 [Hgr2 Hmd2]]].
  rewrite !Log_channels in Hc2. rewrite !Log_media in Hmd2.
  assert (Hgrp : forall lv fmt lo, m_channelGroups (Log lv fmt lo) = m_channelGroups lo)
    by (intros ? ? []; reflexivity).
  rewrite !Hgrp in Hgr2.
  pose proof (@process_line_later l2 v2 raw3 Hf2 Hne3) as H3.
  destruct (@dispatch_address (trimmed raw3)
              (Log LEVEL_DEBUG "%s - M3U line read: '%s'" l2) v2 Ha3)
    as (l3 & v3 & Hd3 & _ & _ & _ & _ & _ & _ & _ & _ & _ & _ & _ & _ & _ & Hch & _).
  rewrite Hd3 in H3.
  rewrite Hr2, Hm2, Hg2, Hi2, Htmp in Hch.
  rewrite !Log_settings, Hs2, !Log_channels, !Log_media, !Hgrp, Hc2, Hgr2 in Hch.
  destruct (Hch eq_refl) as [_ [Hmd3 Hst3]].
  assert (Hrun : process_lines (getlines LF content)
                   (Log LEVEL_DEBUG "%s - Playlist Load Start" l, start_locals l)
                 = Returns (l3, v3)).
  { rewrite Hlines. cbn [process_lines]. rewrite H1. cbn [bind].
    rewrite H2. cbn [bind]. rewrite H3. reflexivity. }
  destruct (@LoadPlayList_after_loop l content l3 v3 Hloc Hf Hrun)
    as [l' [Hload [Hc' [Hg' [_ [Hm' _]]]]]].
  exists l'. split; [exact Hload|]. split.
  - rewrite Hm', Hmd3, Hmd2. reflexivity.
  - rewrite Hc', Hg', Hst3. reflexivity.
Qed.

(** *** Tags of unknown channels *)

(** X24. With catchup enabled, [IsEPGTagPlayable] returns
    [PVR_ERROR_NO_ERROR] for every tag and overwrites the caller's flag:
    what it writes does not depend on what the flag was. For a tag whose
    channel identifier is not in the channel store it writes false, whatever
    the clock and the EPG say. *)
Theorem IsEPGTagPlayable_unknown_channel (settings : Settings) (channels : Channels)
  (controller : CatchupController) (now : Z) (tag : PVREPGTag) (bIsPlayable : bool) :
  IsCatchupEnabled settings = true ->
  (exists flag lookups,
      IsEPGTagPlayable settings channels controller now tag bIsPlayable
      = (PVR_ERROR_NO_ERROR, flag, lookups) /\
      IsEPGTagPlayable settings channels controller now tag (negb bIsPlayable)
      = (PVR_ERROR_NO_ERROR, flag, lookups) /\
      (Channels_GetChannel channels (converted_id tag) = None -> flag = false)).
Proof.
  intros Hen. unfold IsEPGTagPlayable, GetChannel, converted_id. rewrite Hen.
  cbn [negb].
  destruct (Channels_GetChannel channels _) as [c|].
  - destruct (IgnoreCatchupDays c); do 2 eexists;
      (split; [reflexivity|]); (split; [reflexivity|]); intros H; discriminate H.
  - destruct (IgnoreCatchupDays new_Channel); do 2 eexists;
      (split; [reflexivity|]); (split; [reflexivity|]); intros _; reflexivity.
Qed.

(** *** The byte order mark *)

(** X25. A byte order mark before the first line that is not blank makes
    no difference to what the loop does with that line. But a first line
    that is only the mark is not skipped as a blank line: it is taken for
    an address line with an empty address, and so adds an entry whose
    stream URL is empty. *)
Theorem process_line_bom (l : Loader) (v : Locals) (raw marked : str) :
  isFirstLine v = true ->
  trimmed marked = BOM ++ trimmed raw ->
  Left (trimmed raw) 3 <> BOM ->
  (trimmed raw <> [] -> process_line (l, v) marked = process_line (l, v) raw) /\
  (trimmed raw = [] ->
   process_line (l, v) raw = Returns (Log LEVEL_DEBUG "%s - M3U line read: '%s'" l, v) /\
   exists l' v',
     process_line (l, v) marked = Returns (l', v') /\
     (becomes_channel (settings l) (isRealTime v) (isMediaEntry v) = true ->
      (m_channels l', m_channelGroups l')
      = stores_after_AddChannel (settings l)
          (ConfigureCatchupMode (settings l)
             (SetStreamURL []
                (AddProperty PVR_STREAM_PROPERTY_ISREALTIMESTREAM (lit "true")
                             (tmpChannel v))))
          (currentChannelGroupIdList v) (m_channelGroups l) (channelHadGroups v)
          (m_channels l)) /\
     (becomes_channel (settings l) (isRealTime v) (isMediaEntry v) = false ->
      m_media l'
      = snd (AddMediaEntry
               (SetMediaStreamURL [] (UpdateFrom (tmpChannel v) (tmpMediaEntry v)))
               (m_media l)))).
Proof.
  intros Hfirst Hmarked Hnobom.
  assert (Hskip : skipn 3 (BOM ++ trimmed raw) = trimmed raw) by reflexivity.
  assert (Hleft : str_eqb (Left (BOM ++ trimmed raw) 3) BOM = true)
    by now apply str_eqb_eq.
  apply str_eqb_neq in Hnobom.
  split.
  - intros Hne. unfold process_line. cbv zeta. fold (trimmed marked) (trimmed raw).
    rewrite Hmarked, Hfirst, Hleft, Hskip, Hnobom.
    destruct (trimmed raw); [contradiction|reflexivity].
  - intros Hnil. split.
    + unfold process_line. cbv zeta. fold (trimmed raw). now rewrite Hnil.
    + unfold process_line. cbv zeta. fold (trimmed marked).
      rewrite Hmarked, Hfirst, Hleft, Hskip, Hnil.
      cbn [app empty BOM].
      replace (StartsWith [] M3U_START_MARKER) with false by reflexivity.
      match goal with
      | |- context [dispatch [] ?lo ?vo] =>
          destruct (@dispatch_entry [] lo vo (or_introl eq_refl))
            as (l' & v' & Hd & _ & _ & _ & _ & _ & _ & _ & _ & _ & _ & _ & _ & _ & Hch & Hme)
      end.
      exists l', v'. split; [exact Hd|].
      cbn [isRealTime isMediaEntry tmpChannel tmpMediaEntry currentChannelGroupIdList
           channelHadGroups] in Hch, Hme.
      assert (Hgrp : forall lv fmt lo, m_channelGroups (Log lv fmt lo) = m_channelGroups lo)
        by (intros ? ? []; reflexivity).
      rewrite !Log_settings, !Log_channels, !Log_media, !Hgrp in Hch, Hme.
      split.
      * intros H. now destruct (Hch H) as [_ [_ B]].
      * intros H. now destruct (Hme H) as [_ [_ [_ B]]].
Qed.

(** *** The header and the entries after it *)

Lemma read_header_result (line : str) (l : Loader) (v : Locals) :
  read_header line l v
  = Returns
      (set_settings (SetTvgUrl (header_tvg_url line) (settings l))
                    (set_header (header_strings line) l),
       mkLocals (isFirstLine v) (isRealTime v) (isMediaEntry v) (header_shift line)
                (header_correction line (catchupCorrectionSecs_ v))
                (currentChannelGroupIdList v) (channelHadGroups v)
                (if header_xeev line then true else xeevCatchup v)
                (tmpChannel v) (tmpMediaEntry v)).
Proof.
  unfold read_header.
  repeat (rewrite ReadMarkerValue_returns; cbn [bind]).
  repeat (rewrite bind_if_Returns; cbn beta).
  unfold header_tvg_url, header_strings, header_shift, header_correction, header_xeev.
  destruct l as [st loc logo hdr chs grps provs med lg]. cbn [set_header settings].
  do 3 f_equal.
  now destruct (empty (read line CATCHUP_CORRECTION)).
Qed.

Lemma process_line_header (l : Loader) (v : Locals) (raw : str) :
  isFirstLine v = true ->
  StartsWith (normalised raw) M3U_START_MARKER = true ->
  process_line (l, v) raw
  = read_header (normalised raw) (Log LEVEL_DEBUG "%s - M3U line read: '%s'" l)
      (mkLocals false (isRealTime v) (isMediaEntry v) (epgTimeShift v)
                (catchupCorrectionSecs_ v) (currentChannelGroupIdList v)
                (channelHadGroups v) (xeevCatchup v) (tmpChannel v) (tmpMediaEntry v)).
Proof.
  intros Hfirst Hstart. unfold process_line. cbv zeta.
  change (if str_eqb
               (Left (TrimLeftChars (TrimRightChars raw trim_right_chars)
                                    trim_left_chars) 3) BOM
          then skipn 3 (TrimLeftChars (TrimRightChars raw trim_right_chars)
                                      trim_left_chars)
          else TrimLeftChars (TrimRightChars raw trim_right_chars) trim_left_chars)
    with (normalised raw).
  assert (He : empty (TrimLeftChars (TrimRightChars raw trim_right_chars)
                                    trim_left_chars) = false).
  { unfold normalised in Hstart.
    destruct (TrimLeftChars (TrimRightChars raw trim_right_chars) trim_left_chars);
      [discriminate Hstart|reflexivity]. }
  now rewrite He, Hfirst, Hstart.
Qed.

(** X26. A playlist of a header, an [#EXTINF] line without media
    attributes and an address adds one channel, and what the header says
    reaches it: [ParseIntoChannel] builds the channel with the header's
    catchup strings ([catchup], else [catchup-type]; [catchup-days];
    [catchup-source]), with the header's [tvg-shift] in seconds as the
    default EPG shift, with the header's [catchup-correction] in seconds,
    or else the one of the settings, as the default correction, and with
    the xeev flag set exactly when the header's [catchup] is [xc]. *)
Theorem LoadPlayList_header_defaults (l : Loader) (content raw0 raw1 raw2 : str) :
  m_m3uLocation l <> [] ->
  fetched l = Some content ->
  getlines LF content = [raw0; raw1; raw2] ->
  StartsWith (normalised raw0) M3U_START_MARKER = true ->
  StartsWith (trimmed raw1) M3U_INFO_MARKER = true ->
  mentions_media (trimmed raw1) = false ->
  address (trimmed raw2) ->
  exists parsed l' ids groups,
    ParseIntoChannel
      (SetTvgUrl (header_tvg_url (normalised raw0)) (settings l))
      (header_strings (normalised raw0)) (trimmed raw1)
      (SetChannelNumber (GetCurrentChannelNumber (m_channels l)) new_Channel)
      new_MediaEntry [] (m_providers l)
      (header_shift (normalised raw0))
      (header_correction (normalised raw0) (GetCatchupCorrectionSecs (settings l)))
      (header_xeev (normalised raw0))
    = Returns parsed /\
    LoadPlayList l = Returns (true, l') /\
    m_media l' = m_media l /\
    (m_channels l', m_channelGroups l')
    = stores_after_AddChannel
        (SetTvgUrl (header_tvg_url (normalised raw0)) (settings l))
        (ConfigureCatchupMode
           (SetTvgUrl (header_tvg_url (normalised raw0)) (settings l))
           (SetStreamURL (trimmed raw2)
              (AddProperty PVR_STREAM_PROPERTY_ISREALTIMESTREAM (lit "true")
                           (p_channel parsed))))
        ids groups (negb (empty (groupNamesListString parsed))) (m_channels l).
Proof.
  intros Hloc Hf Hlines Hhdr Hinfo Hnomedia Haddr.
  pose proof (@process_line_header (Log LEVEL_DEBUG "%s - Playlist Load Start" l)
                (start_locals l) raw0 eq_refl Hhdr) as H0.
  rewrite read_header_result in H0.
  cbn [start_locals isFirstLine isRealTime isMediaEntry epgTimeShift
       catchupCorrectionSecs_ currentChannelGroupIdList channelHadGroups xeevCatchup
       tmpChannel tmpMediaEntry] in H0.
  assert (Hne1 : trimmed raw1 <> []).
  { intros E. rewrite E in Hinfo. discriminate Hinfo. }
  assert (Hne2 : trimmed raw2 <> []).
  { destruct Haddr as [c [t [-> _]]]. discriminate. }
  match type of H0 with
  | _ = Returns (?l1, ?v1) =>
      pose proof (@process_line_later l1 v1 raw1 eq_refl Hne1) as H1;
      destruct (@dispatch_info (trimmed raw1)
                  (Log LEVEL_DEBUG "%s - M3U line read: '%s'" l1) v1 Hinfo)
        as (parsed & ids & l2 & Hp & Hd & Hs2 & _ & Hc2 & Hm2 & _)
  end.
  rewrite Hd in H1.
  cbn [isFirstLine isRealTime isMediaEntry epgTimeShift catchupCorrectionSecs_
       currentChannelGroupIdList channelHadGroups xeevCatchup tmpChannel
       tmpMediaEntry] in Hp, H1.
  assert (Hprov : forall lv fmt lo, m_providers (Log lv fmt lo) = m_providers lo)
    by (intros ? ? []; reflexivity).
  assert (Hhd : forall lv fmt lo,
             m_m3uHeaderStrings (Log lv fmt lo) = m_m3uHeaderStrings lo)
    by (intros ? ? []; reflexivity).
  assert (Hgrp : forall lv fmt lo, m_channelGroups (Log lv fmt lo) = m_channelGroups lo)
    by (intros ? ? []; reflexivity).
  assert (Es : forall s h (lo : Loader), settings (set_settings s (set_header h lo)) = s)
    by (intros ? ? []; reflexivity).
  assert (Eh : forall s h (lo : Loader),
             m_m3uHeaderStrings (set_settings s (set_header h lo)) = h)
    by (intros ? ? []; reflexivity).
  assert (Ec : forall s h (lo : Loader),
             m_channels (set_settings s (set_header h lo)) = m_channels lo)
    by (intros ? ? []; reflexivity).
  assert (Ep : forall s h (lo : Loader),
             m_providers (set_settings s (set_header h lo)) = m_providers lo)
    by (intros ? ? []; reflexivity).
  assert (Em : forall s h (lo : Loader),
             m_media (set_settings s (set_header h lo)) = m_media lo)
    by (intros ? ? []; reflexivity).
  do 3 rewrite ?Log_settings, ?Log_channels, ?Hprov, ?Hhd, ?Es, ?Eh, ?Ec, ?Ep in Hp.
  do 3 rewrite ?Log_settings, ?Es in Hs2.
  do 3 rewrite ?Log_channels, ?Ec in Hc2.
  do 3 rewrite ?Log_media, ?Em in Hm2.
  replace (if header_xeev (normalised raw0) then true else false)
    with (header_xeev (normalised raw0)) in Hp, H0, H1
    by now destruct (header_xeev (normalised raw0)).
  match type of H1 with
  | _ = Returns (_, ?v2) =>
      pose proof (@process_line_later l2 v2 raw2 eq_refl Hne2) as H2;
      destruct (@dispatch_address (trimmed raw2)
                  (Log LEVEL_DEBUG "%s - M3U line read: '%s'" l2) v2 Haddr)
        as (l3 & v3 & Hd3 & _ & _ & _ & _ & _ & _ & _ & _ & _ & _ & _ & _ & _ & Hch & _)
  end.
  rewrite Hd3 in H2.
  cbn [isRealTime isMediaEntry tmpChannel tmpMediaEntry currentChannelGroupIdList
       channelHadGroups] in Hch.
  rewrite !Log_settings, Hs2, !Log_channels, !Log_media, Hc2, Hm2, Hnomedia in Hch.
  destruct (Hch eq_refl) as [_ [Hm3 Hst3]].
  assert (Hrun : process_lines (getlines LF content)
                   (Log LEVEL_DEBUG "%s - Playlist Load Start" l, start_locals l)
                 = Returns (l3, v3)).
  { rewrite Hlines. cbn [process_lines]. rewrite H0. cbn [bind].
    rewrite H1. cbn [bind]. rewrite H2. reflexivity. }
  destruct (@LoadPlayList_after_loop l content l3 v3 Hloc Hf Hrun)
    as [l' [Hload [Hc' [Hg' [_ [Hm' _]]]]]].
  exists parsed, l'. do 2 eexists. split; [exact Hp|]. split; [exact Hload|].
  split; [congruence|]. rewrite Hc', Hg'.
  match type of Hst3 with
  | _ = stores_after_AddChannel _ _ _ _ (if ?b then true else false) _ =>
      replace (if b then true else false) with b in Hst3 by now destruct b
  end.
  exact Hst3.
Qed.

End Addon.

(** * Examples *)

(** [ParseIntoChannel] at the sample host, on a fresh scratch channel. *)
Abbreviation sample_parse hdr line :=
  (ParseIntoChannel (fun s => s) atof_decimal sample_icon (-1) (sample_settings true)
                    hdr line sample_channel sample_media [] [] 0 0 false).

(** [LoadPlayList] at the sample host, with the four stores empty. *)
Abbreviation fresh_loader :=
  (mkLoader (sample_settings true) (lit "http://h/list.m3u") []
            (mkM3uHeaderStrings [] [] []) (@nil Channel) (@nil ChannelGroup) []
            (@nil MediaEntry) []).

Abbreviation sample_load :=
  (LoadPlayList (fun s => s) atof_decimal sample_icon (-1)
     (fun cs => count cs + 1)%Z count add_channel (fun _ _ _ => true) add_group
     add_media count (fun _ c => c) (fun _ => sample_channel) (fun _ => sample_media)
     sample_channel sample_media fetch_header (lit "iptv.m3u.cache") fresh_loader).

(** C1, on the code. The header gave [catchup-days="5"] and no
    [catchup-source]; the line has no [catchup-days]. The channel gets the
    7 days of the settings, not the 5 of the header: the header's day count
    is used only when the header has a catchup source. *)
Theorem header_catchup_days_not_used :
  atoi (lit "5") = 5%Z /\
  exists parsed,
    sample_parse (mkM3uHeaderStrings [] (lit "5") []) (q "#EXTINF:-1,Chan")
    = Returns parsed /\
    catchupDays (p_channel parsed) = 7%Z.
Proof.
  split; [reflexivity|]. eexists. split; [vm_compute; reflexivity|reflexivity].
Qed.

(** The other side of the same test: with a catchup source and no day count
    in the header, a [vod] channel gets the days of an empty string, 0,
    where the sentinel was due. *)
Theorem header_catchup_source_sets_days :
  exists parsed,
    sample_parse (mkM3uHeaderStrings [] [] (lit "http://h/c"))
                 (q "#EXTINF:-1 catchup='vod',Film")
    = Returns parsed /\
    catchupMode (p_channel parsed) = VOD /\
    catchupDays (p_channel parsed) = 0%Z.
Proof.
  eexists. split; [vm_compute; reflexivity|split; reflexivity].
Qed.

(** C2, on the code. The header gave a catchup source and the line has
    none: the channel's [catchupSource] stays empty. The header's value
    goes to the local string after the channel's field was set. *)
Theorem header_catchup_source_not_stored :
  exists parsed,
    sample_parse (mkM3uHeaderStrings [] [] (lit "http://h/c?utc={utc}"))
                 (q "#EXTINF:-1 catchup='default',Chan")
    = Returns parsed /\
    catchupSource (p_channel parsed) = [].
Proof.
  eexists. split; [vm_compute; reflexivity|reflexivity].
Qed.

(** A line without colon is malformed, and inert. *)
Lemma ParseIntoChannel_malformed_witness :
  malformed (lit "#EXTINF -1,Name") /\
  sample_parse (mkM3uHeaderStrings [] [] []) (lit "#EXTINF -1,Name")
  = Returns (mkParsed [] sample_channel sample_media [] []).
Proof.
  assert (H : malformed (lit "#EXTINF -1,Name")).
  { left. vm_compute. intros H.
    repeat (destruct H as [H|H]; [discriminate H|]). exact H. }
  split; [exact H|].
  exact (@ParseIntoChannel_malformed (fun s => s) atof_decimal sample_icon (-1)
           (sample_settings true) (mkM3uHeaderStrings [] [] [])
           (lit "#EXTINF -1,Name") sample_channel sample_media [] [] 0 0 false H).
Defined.

(** A line with commas inside quoted values and blanks around the comma that
    starts the name. *)
Lemma ParseIntoChannel_name_witness :
  rfind_char dq (q "#EXTINF:0 tvg-name='A,B' group-title='X, Y' , Two ") = Some 42 /\
  exists parsed,
    sample_parse (mkM3uHeaderStrings [] [] [])
                 (q "#EXTINF:0 tvg-name='A,B' group-title='X, Y' , Two ")
    = Returns parsed /\
    channelName (p_channel parsed) = lit "Two".
Proof.
  split; [reflexivity|].
  destruct (proj1 (@ParseIntoChannel_name_after_last_quote (fun s => s) atof_decimal
                     sample_icon (-1) (sample_settings true)
                     (mkM3uHeaderStrings [] [] []) sample_channel sample_media
                     [] [] 0 0 false)
                  (q "#EXTINF:0 tvg-name='A,B' group-title='X, Y' , Two ")
                  (q "0 tvg-name='A,B' group-title='X, Y' , Two ")
                  42 eq_refl eq_refl eq_refl)
    as [k [parsed [Hk [Hp Hn]]]].
  exists parsed. split; [exact Hp|].
  injection Hk as <-. exact Hn.
Defined.

(** A token in mixed case. *)
Lemma ParseIntoChannel_catchup_token_witness :
  well_formed (q "#EXTINF:-1 catchup='Flussonic-TS',News") 7 33 /\
  mode_of_token
    (effective_catchup (mkM3uHeaderStrings [] [] [])
       (info_line (q "#EXTINF:-1 catchup='Flussonic-TS',News") 7 33))
  = Some FLUSSONIC /\
  exists parsed,
    sample_parse (mkM3uHeaderStrings [] [] [])
                 (q "#EXTINF:-1 catchup='Flussonic-TS',News")
    = Returns parsed /\
    hasCatchup (p_channel parsed) = true /\
    catchupMode (p_channel parsed) = FLUSSONIC /\
    isCatchupTSStream (p_channel parsed) = true.
Proof.
  assert (Hwf : well_formed (q "#EXTINF:-1 catchup='Flussonic-TS',News") 7 33).
  { split; [reflexivity|]. split; [reflexivity|]. apply Nat.ltb_lt. reflexivity. }
  assert (Hm : mode_of_token
                 (effective_catchup (mkM3uHeaderStrings [] [] [])
                    (info_line (q "#EXTINF:-1 catchup='Flussonic-TS',News") 7 33))
               = Some FLUSSONIC) by reflexivity.
  split; [exact Hwf|]. split; [exact Hm|].
  exact (@ParseIntoChannel_catchup_token (fun s => s) atof_decimal sample_icon (-1)
           (sample_settings true) (mkM3uHeaderStrings [] [] [])
           _ _ _ sample_channel sample_media [] [] 0 0 false _ Hwf Hm).
Defined.

(** The hour and a half of the specification, with [atof_decimal]. *)
Lemma ParseIntoChannel_tvg_shift_witness :
  atof_decimal (lit "1.5") = one_and_a_half /\
  exists parsed,
    sample_parse (mkM3uHeaderStrings [] [] []) (q "#EXTINF:-1 tvg-shift='1.5',One")
    = Returns parsed /\
    tvgShift (p_channel parsed) = 5400%Z.
Proof.
  assert (H : atof_decimal (lit "1.5") = one_and_a_half) by reflexivity.
  split; [exact H|].
  exact (proj2 (@ParseIntoChannel_tvg_shift (fun s => s) atof_decimal sample_icon (-1)
                  (sample_settings true) (mkM3uHeaderStrings [] [] [])
                  sample_channel sample_media [] [] 0 0 false) H).
Defined.

(** The tag of the specification's scenario: it started a day ago and has
    ended. *)
Lemma IsEPGTagPlayable_iff_witness :
  typed one_channel tt 1000000 yesterday /\
  reports_playable
    (IsEPGTagPlayable (-1) sample_channel one_channel no_epg has_it
                      (sample_settings true) tt tt 1000000 yesterday false) = true.
Proof.
  assert (H : typed one_channel tt 1000000 yesterday).
  { split; [split; [discriminate|reflexivity]|].
    split; [split; discriminate|].
    intros id c Hc. unfold one_channel in Hc.
    destruct (id =? 1)%Z; [|discriminate Hc].
    injection Hc as <-. split; discriminate. }
  split; [exact H|].
  apply (proj1 (proj2 (@IsEPGTagPlayable_iff (-1) unit sample_channel one_channel unit
                         no_epg has_it (sample_settings true) tt tt 1000000
                         yesterday false H)
                      two_day_channel
                      (conj eq_refl (conj eq_refl eq_refl))
                      eq_refl
                      ltac:(discriminate)
                      eq_refl)
               eq_refl (fun _ => eq_refl)).
Defined.

(** The same tag with catchup disabled, the flag true before the call. *)
Lemma IsEPGTagPlayable_catchup_disabled_witness :
  IsCatchupEnabled (sample_settings false) = false /\
  IsEPGTagPlayable (-1) sample_channel one_channel no_epg has_it
                   (sample_settings false) tt tt 1000000 yesterday true
  = (PVR_ERROR_NOT_IMPLEMENTED, true, []).
Proof.
  split; [reflexivity|].
  exact (@IsEPGTagPlayable_catchup_disabled (-1) unit sample_channel one_channel unit
           no_epg has_it (sample_settings false) tt tt 1000000 yesterday true
           eq_refl).
Defined.

(** A playlist that is one header line with its line feed. *)
Lemma LoadPlayList_header_only_witness :
  single_line (header_text ++ [LF]) header_text /\
  exists l',
    sample_load = Returns (true, l') /\
    m_channels l' = [] /\ m_media l' = [] /\
    GetTvgUrl (settings l') = lit "http://epg/guide.xml".
Proof.
  assert (Hone : single_line (header_text ++ [LF]) header_text).
  { split; [|split; [discriminate|right; reflexivity]].
    vm_compute. intros H.
    repeat (destruct H as [H|H]; [discriminate H|]). exact H. }
  split; [exact Hone|].
  destruct (@LoadPlayList_header_only (fun s => s) atof_decimal sample_icon (-1)
              (list Channel) (list ChannelGroup) (list MediaEntry)
              (fun cs => count cs + 1)%Z count add_channel (fun _ _ _ => true) add_group
              add_media count (fun _ c => c) (fun _ => sample_channel)
              (fun _ => sample_media) sample_channel sample_media fetch_header
              (lit "iptv.m3u.cache") fresh_loader (header_text ++ [LF]) header_text
              ltac:(discriminate) eq_refl Hone eq_refl)
    as [l' [Hl [Hc [Hm [Hu _]]]]].
  exists l'. repeat split; assumption.
Defined.

(** [LoadPlayList] at the sample host, for a playlist text. *)
Abbreviation sample_load_of text :=
  (LoadPlayList (fun s => s) atof_decimal sample_icon (-1)
     (fun cs => count cs + 1)%Z count add_channel (fun _ _ _ => true) add_group
     add_media count (fun _ c => c) (fun _ => sample_channel) (fun _ => sample_media)
     sample_channel sample_media (fetch_text text) (lit "iptv.m3u.cache") fresh_loader).



(** The turn at which the timer reaches the 1800 seconds of the interval. *)
Lemma Process_repeated_refresh_witness :
  Process_turn every_30_minutes at_four (refresh_settings REPEATED_REFRESH) true
               1010 4 (mkProcessVars 1790 1000 4 false)
  = (mkProcessVars 0 1010 4 false, true).
Proof.
  exact (@Process_repeated_refresh every_30_minutes at_four
           (refresh_settings REPEATED_REFRESH) 1010 4 (mkProcessVars 1790 1000 4 false)
           eq_refl eq_refl ltac:(discriminate) ltac:(discriminate)
           ltac:(reflexivity) ltac:(split; [discriminate|reflexivity])).
Defined.

(** A line with siptv's [timeshift]. *)
Lemma ParseIntoChannel_catchup_consistent_witness :
  well_formed (q "#EXTINF:-1 timeshift='3',News") 7 24 /\
  catchup_consistent sample_channel /\
  exists parsed,
    sample_parse (mkM3uHeaderStrings [] [] []) (q "#EXTINF:-1 timeshift='3',News")
    = Returns parsed /\
    catchup_consistent (p_channel parsed).
Proof.
  assert (Hwf : well_formed (q "#EXTINF:-1 timeshift='3',News") 7 24).
  { split; [reflexivity|]. split; [reflexivity|]. apply Nat.ltb_lt. reflexivity. }
  assert (Hc : catchup_consistent sample_channel).
  { split; [discriminate|]. intros H. now contradiction H. }
  split; [exact Hwf|]. split; [exact Hc|].
  exact (@ParseIntoChannel_catchup_consistent (fun s => s) atof_decimal sample_icon (-1)
           (sample_settings true) (mkM3uHeaderStrings [] [] [])
           _ _ _ sample_channel sample_media [] [] 0 0 false Hwf Hc).
Defined.

(** A [vod] channel without [catchup-days] gets the sentinel. *)
Lemma ParseIntoChannel_catchup_days_witness :
  well_formed (q "#EXTINF:-1 catchup='vod',Film") 7 24 /\
  exists parsed,
    sample_parse (mkM3uHeaderStrings [] [] []) (q "#EXTINF:-1 catchup='vod',Film")
    = Returns parsed /\
    catchupDays (p_channel parsed) = (-1)%Z.
Proof.
  assert (Hwf : well_formed (q "#EXTINF:-1 catchup='vod',Film") 7 24).
  { split; [reflexivity|]. split; [reflexivity|]. apply Nat.ltb_lt. reflexivity. }
  split; [exact Hwf|].
  destruct (@ParseIntoChannel_catchup_days (fun s => s) atof_decimal sample_icon (-1)
              (sample_settings true) (mkM3uHeaderStrings [] [] [])
              _ _ _ sample_channel sample_media [] [] 0 0 false Hwf eq_refl)
    as [parsed [Hp [_ [Hvod _]]]].
  exists parsed. split; [exact Hp|]. exact (Hvod eq_refl eq_refl).
Defined.

(** No catchup token, and a [timeshift] of three days. *)
Lemma ParseIntoChannel_catchup_fallbacks_witness :
  well_formed (q "#EXTINF:-1 timeshift='3',News") 7 24 /\
  exists parsed,
    sample_parse (mkM3uHeaderStrings [] [] []) (q "#EXTINF:-1 timeshift='3',News")
    = Returns parsed /\
    isCatchupTSStream (p_channel parsed) = false /\
    (hasCatchup (p_channel parsed), catchupMode (p_channel parsed)) = (true, TIMESHIFT).
Proof.
  assert (Hwf : well_formed (q "#EXTINF:-1 timeshift='3',News") 7 24).
  { split; [reflexivity|]. split; [reflexivity|]. apply Nat.ltb_lt. reflexivity. }
  split; [exact Hwf|].
  exact (@ParseIntoChannel_catchup_fallbacks (fun s => s) atof_decimal sample_icon (-1)
           (sample_settings true) (mkM3uHeaderStrings [] [] [])
           _ _ _ sample_channel sample_media [] [] 0 0 false Hwf eq_refl eq_refl).
Defined.

(** A line without attributes: the identifier is the duration. *)
Lemma ParseIntoChannel_tvg_id_witness :
  well_formed (lit "#EXTINF:-1,Chan") 7 10 /\
  exists parsed,
    sample_parse (mkM3uHeaderStrings [] [] []) (lit "#EXTINF:-1,Chan")
    = Returns parsed /\
    tvgId (p_channel parsed) = lit "-1".
Proof.
  assert (Hwf : well_formed (lit "#EXTINF:-1,Chan") 7 10).
  { split; [reflexivity|]. split; [reflexivity|]. apply Nat.ltb_lt. reflexivity. }
  split; [exact Hwf|].
  destruct (@ParseIntoChannel_tvg_id (fun s => s) atof_decimal sample_icon (-1)
              (sample_settings true) (mkM3uHeaderStrings [] [] [])
              _ _ _ sample_channel sample_media [] [] 0 0 false Hwf)
    as [parsed [Hp [_ Hid]]].
  exists parsed. split; [exact Hp|exact Hid].
Defined.

(** A channel number with a sub-channel. *)
Lemma ParseIntoChannel_numbering_witness :
  well_formed (q "#EXTINF:-1 tvg-chno='12.3',News") 7 26 /\
  exists parsed,
    sample_parse (mkM3uHeaderStrings [] [] []) (q "#EXTINF:-1 tvg-chno='12.3',News")
    = Returns parsed /\
    channelNumber (p_channel parsed) = 12%Z /\
    subChannelNumber (p_channel parsed) = 3%Z.
Proof.
  assert (Hwf : well_formed (q "#EXTINF:-1 tvg-chno='12.3',News") 7 26).
  { split; [reflexivity|]. split; [reflexivity|]. apply Nat.ltb_lt. reflexivity. }
  split; [exact Hwf|].
  destruct (@ParseIntoChannel_numbering (fun s => s) atof_decimal sample_icon (-1)
              (sample_settings true) (mkM3uHeaderStrings [] [] [])
              _ _ _ sample_channel sample_media [] [] 0 0 false Hwf)
    as [parsed [Hp [_ [Hdot _]]]].
  exists parsed. split; [exact Hp|].
  apply (Hdot eq_refl (lit "12") (lit "3") eq_refl).
  intros [H|[H|[]]]; discriminate H.
Defined.

(** A radio channel with a correction of an hour and a half. *)
Lemma ParseIntoChannel_correction_and_radio_witness :
  well_formed (q "#EXTINF:-1 radio='TRUE' catchup-correction='1.5',R") 7 48 /\
  exists parsed,
    sample_parse (mkM3uHeaderStrings [] [] [])
                 (q "#EXTINF:-1 radio='TRUE' catchup-correction='1.5',R")
    = Returns parsed /\
    catchupCorrectionSecs (p_channel parsed) = 5400%Z /\
    radio (p_channel parsed) = true.
Proof.
  assert (Hwf : well_formed (q "#EXTINF:-1 radio='TRUE' catchup-correction='1.5',R") 7 48).
  { split; [reflexivity|]. split; [reflexivity|]. apply Nat.ltb_lt. reflexivity. }
  split; [exact Hwf|].
  exact (@ParseIntoChannel_correction_and_radio (fun s => s) atof_decimal sample_icon
           (-1) (sample_settings true) (mkM3uHeaderStrings [] [] [])
           _ _ _ sample_channel sample_media [] [] 0 0 false Hwf).
Defined.

(** Two groups and the media attributes. *)
Lemma ParseIntoChannel_group_and_media_witness :
  well_formed (q "#EXTINF:-1 group-title='A;B' media-dir='films' media-size='12',X")
              7 62 /\
  exists parsed,
    sample_parse (mkM3uHeaderStrings [] [] [])
                 (q "#EXTINF:-1 group-title='A;B' media-dir='films' media-size='12',X")
    = Returns parsed /\
    groupNamesListString parsed = lit "A;B" /\
    directory (p_mediaEntry parsed) = lit "films" /\
    sizeInBytes (p_mediaEntry parsed) = 12%Z.
Proof.
  assert (Hwf : well_formed
                  (q "#EXTINF:-1 group-title='A;B' media-dir='films' media-size='12',X")
                  7 62).
  { split; [reflexivity|]. split; [reflexivity|]. apply Nat.ltb_lt. reflexivity. }
  split; [exact Hwf|].
  destruct (@ParseIntoChannel_group_and_media (fun s => s) atof_decimal sample_icon
              (-1) (sample_settings true) (mkM3uHeaderStrings [] [] [])
              _ _ _ sample_channel sample_media [] [] 0 0 false Hwf)
    as [parsed [Hp [Hg [Hd [Hs _]]]]].
  exists parsed. split; [exact Hp|]. split; [exact Hg|]. split; [exact Hd|exact Hs].
Defined.

(** A quoted value with a blank in it. *)
Lemma ReadMarkerValue_quoted_witness :
  ReadMarkerValue (q "tvg-id='x y' b") TVG_INFO_ID_MARKER = Returns (lit "x y").
Proof.
  apply (@ReadMarkerValue_quoted (q "tvg-id='x y' b") TVG_INFO_ID_MARKER []
           (lit "x y") (dq :: lit " b")).
  - intros [H|[H|[H|[]]]]; discriminate H.
  - split; [reflexivity|]. intros pre' rest' _. apply Nat.le_0_l.
  - right. exists (lit " b"). reflexivity.
Defined.

(** A bare value that a blank ends. *)
Lemma ReadMarkerValue_bare_witness :
  ReadMarkerValue (lit "tvg-id=abc def") TVG_INFO_ID_MARKER = Returns (lit "abc").
Proof.
  apply (@ReadMarkerValue_bare (lit "tvg-id=abc def") TVG_INFO_ID_MARKER []
           (lit "abc") (lit " def")).
  - intros [H|[H|[H|[]]]]; discriminate H.
  - intros tail H. discriminate H.
  - split; [reflexivity|]. intros pre' rest' _. apply Nat.le_0_l.
  - right. exists (lit "def"). reflexivity.
Defined.

(** The input stream add-on of a channel. *)
Lemma ParseSinglePropertyIntoChannel_kodiprop_witness :
  ParseSinglePropertyIntoChannel
    (lit "#KODIPROP:InputStreamAddon=inputstream.adaptive extra")
    sample_channel KODIPROP_MARKER fresh_loader
  = Returns (AddProperty (lit "inputstream") (lit "inputstream.adaptive") sample_channel,
             Log LEVEL_DEBUG "%s - Found %s property: '%s' value: '%s' added: %s"%string
                 fresh_loader).
Proof.
  apply (@ParseSinglePropertyIntoChannel_kodiprop (list Channel) (list ChannelGroup)
           (list MediaEntry) (lit "InputStreamAddon") (lit "inputstream.adaptive extra")
           sample_channel fresh_loader).
  - vm_compute. intros H. repeat (destruct H as [H|H]; [discriminate H|]). exact H.
  - vm_compute. intros H. repeat (destruct H as [H|H]; [discriminate H|]). exact H.
  - intros tail H. discriminate H.
Defined.

(** A playlist of a header, an [#EXTINF] line, a property, a blank line and
    a comment. *)
Lemma LoadPlayList_no_address_lines_witness :
  Forall no_address (getlines LF directives_text) /\
  exists l',
    sample_load_of directives_text = Returns (true, l') /\
    m_channels l' = [] /\ m_media l' = [].
Proof.
  assert (H : Forall no_address (getlines LF directives_text)).
  { let lines := eval vm_compute in (getlines LF directives_text) in
    change (getlines LF directives_text) with lines.
    repeat (apply Forall_cons;
            [first [left; reflexivity|right; eexists; reflexivity]|]).
    apply Forall_nil. }
  split; [exact H|].
  exact (@LoadPlayList_no_address_lines (fun s => s) atof_decimal sample_icon (-1)
           (list Channel) (list ChannelGroup) (list MediaEntry)
           (fun cs => count cs + 1)%Z count add_channel (fun _ _ _ => true) add_group
           add_media count (fun _ c => c) (fun _ => sample_channel)
           (fun _ => sample_media) sample_channel sample_media
           (fetch_text directives_text) (lit "iptv.m3u.cache") fresh_loader
           directives_text ltac:(discriminate) eq_refl H).
Defined.

(** One entry without media attributes. *)
Lemma LoadPlayList_entry_witness :
  getlines LF entry_text = [q "#EXTINF:-1 tvg-id='a',One"; lit "http://h/1"] /\
  mentions_media (trimmed (q "#EXTINF:-1 tvg-id='a',One")) = false /\
  exists parsed l',
    sample_load_of entry_text = Returns (true, l') /\
    m_media l' = [] /\
    m_channels l'
    = [SetStreamURL (trimmed (lit "http://h/1"))
         (AddProperty PVR_STREAM_PROPERTY_ISREALTIMESTREAM (lit "true")
                      (p_channel parsed))].
Proof.
  assert (H1 : m_m3uLocation fresh_loader <> []) by discriminate.
  assert (H2 : fetched (fetch_text entry_text) (lit "iptv.m3u.cache") fresh_loader
               = Some entry_text) by reflexivity.
  assert (H3 : getlines LF entry_text
               = [q "#EXTINF:-1 tvg-id='a',One"; lit "http://h/1"]) by reflexivity.
  assert (H4 : StartsWith (trimmed (q "#EXTINF:-1 tvg-id='a',One")) M3U_INFO_MARKER
               = true) by reflexivity.
  assert (H5 : address (trimmed (lit "http://h/1"))).
  { exists "h"%char, (lit "ttp://h/1"). split; [reflexivity|discriminate]. }
  assert (H6 : mentions_media (trimmed (q "#EXTINF:-1 tvg-id='a',One")) = false)
    by reflexivity.
  split; [exact H3|]. split; [exact H6|].
  destruct (@LoadPlayList_entry (fun s => s) atof_decimal sample_icon (-1)
              (list Channel) (list ChannelGroup) (list MediaEntry)
              (fun cs => count cs + 1)%Z count add_channel (fun _ _ _ => true) add_group
              add_media count (fun _ c => c) (fun _ => sample_channel)
              (fun _ => sample_media) sample_channel sample_media
              (fetch_text entry_text) (lit "iptv.m3u.cache") fresh_loader
              entry_text (q "#EXTINF:-1 tvg-id='a',One") (lit "http://h/1")
              H1 H2 H3 H4 H5)
    as [parsed [l' [_ [Hl [_ [_ Hch]]]]]].
  destruct (Hch H6) as [Hm [ids [groups He]]].
  exists parsed, l'. split; [exact Hl|]. split; [exact Hm|].
  injection He as Hc _. exact Hc.
Defined.

(** The first address after the marker is a recording, the second a
    channel. *)
Lemma LoadPlayList_vod_marker_witness :
  getlines LF vod_text
  = [lit "#EXT-X-PLAYLIST-TYPE:VOD"; lit "http://h/film"; lit "http://h/live"] /\
  exists l',
    sample_load_of vod_text = Returns (true, l') /\
    m_media l' = [SetMediaStreamURL (trimmed (lit "http://h/film"))
                    (UpdateFrom sample_channel sample_media)] /\
    m_channels l'
    = [SetStreamURL (trimmed (lit "http://h/live"))
         (AddProperty PVR_STREAM_PROPERTY_ISREALTIMESTREAM (lit "true") sample_channel)].
Proof.
  assert (H1 : m_m3uLocation fresh_loader <> []) by discriminate.
  assert (H2 : fetched (fetch_text vod_text) (lit "iptv.m3u.cache") fresh_loader
               = Some vod_text) by reflexivity.
  assert (H3 : getlines LF vod_text
               = [lit "#EXT-X-PLAYLIST-TYPE:VOD"; lit "http://h/film";
                  lit "http://h/live"]) by reflexivity.
  assert (H4 : trimmed (lit "#EXT-X-PLAYLIST-TYPE:VOD") = vod_line) by reflexivity.
  assert (H5 : address (trimmed (lit "http://h/film"))).
  { exists "h"%char, (lit "ttp://h/film"). split; [reflexivity|discriminate]. }
  assert (H6 : address (trimmed (lit "http://h/live"))).
  { exists "h"%char, (lit "ttp://h/live"). split; [reflexivity|discriminate]. }
  split; [exact H3|].
  destruct (@LoadPlayList_vod_marker (fun s => s) atof_decimal sample_icon (-1)
              (list Channel) (list ChannelGroup) (list MediaEntry)
              (fun cs => count cs + 1)%Z count add_channel (fun _ _ _ => true) add_group
              add_media count (fun _ c => c) (fun _ => sample_channel)
              (fun _ => sample_media) sample_channel sample_media
              (fetch_text vod_text) (lit "iptv.m3u.cache") fresh_loader
              vod_text (lit "#EXT-X-PLAYLIST-TYPE:VOD") (lit "http://h/film")
              (lit "http://h/live") H1 H2 H3 H4 H5 H6 eq_refl eq_refl)
    as [l' [Hl [Hm Hc]]].
  exists l'. split; [exact Hl|]. split; [exact Hm|].
  injection Hc as Hc _. exact Hc.
Defined.

(** A tag of channel 7, which the store does not have. *)
Lemma IsEPGTagPlayable_unknown_channel_witness :
  one_channel tt (converted_id (mkPVREPGTag 7 1000 2000)) = None /\
  exists lookups,
    IsEPGTagPlayable (-1) sample_channel one_channel no_epg has_it
                     (sample_settings true) tt tt 1000000 (mkPVREPGTag 7 1000 2000) true
    = (PVR_ERROR_NO_ERROR, false, lookups).
Proof.
  assert (H0 : one_channel tt (converted_id (mkPVREPGTag 7 1000 2000)) = None)
    by reflexivity.
  split; [exact H0|].
  destruct (@IsEPGTagPlayable_unknown_channel (-1) unit sample_channel one_channel unit
              no_epg has_it (sample_settings true) tt tt 1000000
              (mkPVREPGTag 7 1000 2000) true eq_refl)
    as [flag [lookups [H [_ Hnone]]]].
  exists lookups. rewrite H. now rewrite (Hnone H0).
Defined.

(** The header line with a byte order mark before it. *)
Lemma process_line_bom_witness :
  trimmed (BOM ++ header_text) = BOM ++ trimmed header_text /\
  process_line (fun s => s) atof_decimal sample_icon (-1) (fun cs => count cs + 1)%Z
               add_channel (fun _ _ _ => true) add_group add_media (fun _ c => c)
               (fun _ => sample_channel) (fun _ => sample_media)
               (fresh_loader,
                mkLocals true true false 0 0 [] false false sample_channel sample_media)
               (BOM ++ header_text)
  = process_line (fun s => s) atof_decimal sample_icon (-1) (fun cs => count cs + 1)%Z
                 add_channel (fun _ _ _ => true) add_group add_media (fun _ c => c)
                 (fun _ => sample_channel) (fun _ => sample_media)
                 (fresh_loader,
                  mkLocals true true false 0 0 [] false false sample_channel sample_media)
                 header_text.
Proof.
  assert (H1 : trimmed (BOM ++ header_text) = BOM ++ trimmed header_text)
    by reflexivity.
  assert (H2 : Left (trimmed header_text) 3 <> BOM) by (vm_compute; discriminate).
  assert (H3 : trimmed header_text <> []) by (vm_compute; discriminate).
  split; [exact H1|].
  exact (proj1 (@process_line_bom (fun s => s) atof_decimal sample_icon (-1)
                  (list Channel) (list ChannelGroup) (list MediaEntry)
                  (fun cs => count cs + 1)%Z add_channel (fun _ _ _ => true) add_group
                  add_media (fun _ c => c) (fun _ => sample_channel)
                  (fun _ => sample_media) fresh_loader
                  (mkLocals true true false 0 0 [] false false sample_channel
                            sample_media)
                  header_text (BOM ++ header_text) eq_refl H1 H2) H3).
Defined.

(** The header's [catchup='xc'] reaches the channel of the entry. *)
Lemma LoadPlayList_header_defaults_witness :
  getlines LF header_entry_text = [header_text; lit "#EXTINF:-1,News"; lit "http://h/n"] /\
  exists parsed l',
    sample_load_of header_entry_text = Returns (true, l') /\
    m_media l' = [] /\
    m_channels l'
    = [SetStreamURL (trimmed (lit "http://h/n"))
         (AddProperty PVR_STREAM_PROPERTY_ISREALTIMESTREAM (lit "true")
                      (p_channel parsed))] /\
    catchupMode (p_channel parsed) = XTREAM_CODES.
Proof.
  assert (H1 : m_m3uLocation fresh_loader <> []) by discriminate.
  assert (H2 : fetched (fetch_text header_entry_text) (lit "iptv.m3u.cache") fresh_loader
               = Some header_entry_text) by reflexivity.
  assert (H3 : getlines LF header_entry_text
               = [header_text; lit "#EXTINF:-1,News"; lit "http://h/n"]) by reflexivity.
  assert (H4 : StartsWith (normalised header_text) M3U_START_MARKER = true)
    by reflexivity.
  assert (H5 : StartsWith (trimmed (lit "#EXTINF:-1,News")) M3U_INFO_MARKER = true)
    by reflexivity.
  assert (H6 : mentions_media (trimmed (lit "#EXTINF:-1,News")) = false) by reflexivity.
  assert (H7 : address (trimmed (lit "http://h/n"))).
  { exists "h"%char, (lit "ttp://h/n"). split; [reflexivity|discriminate]. }
  split; [exact H3|].
  destruct (@LoadPlayList_header_defaults (fun s => s) atof_decimal sample_icon (-1)
              (list Channel) (list ChannelGroup) (list MediaEntry)
              (fun cs => count cs + 1)%Z count add_channel (fun _ _ _ => true) add_group
              add_media count (fun _ c => c) (fun _ => sample_channel)
              (fun _ => sample_media) sample_channel sample_media
              (fetch_text header_entry_text) (lit "iptv.m3u.cache") fresh_loader
              header_entry_text header_text (lit "#EXTINF:-1,News") (lit "http://h/n")
              H1 H2 H3 H4 H5 H6 H7)
    as (parsed & l' & ids & groups & Hp & Hl & Hm & Hst).
  exists parsed, l'. split; [exact Hl|]. split; [exact Hm|].
  split; [injection Hst as Hc _; exact Hc|].
  vm_compute in Hp. injection Hp as <-. reflexivity.
Defined.
